(** * insights-mcp: the insight store and its tool adapter

    A shallow embedding of [src/database.ts] (class [InsightsDatabase]), of
    the tool handlers of [src/server.ts] ([createInsightsServer]) and of the
    option handling of [src/index.ts].

    The store talks to SQLite through prepared statements.  Each statement is
    embedded as a function on the two tables the schema declares: the
    [insights] table, a list of rows in rowid order, and the [insights_fts]
    full-text index.  [randomUUID()] and [Date.now()] are inputs of the
    operations that call them; [process.cwd()] is an input of the adapter.

    The schema declares [insights_fts] as an FTS5 _external content_ table
    ([content='insights'], [content_rowid='rowid']).  Such a table stores no
    text of its own, only the inverted index; whenever the engine has to learn
    the text of a row (to remove it from the index on DELETE or UPDATE) it
    reads the row with that rowid from [insights] _as it is at that moment_
    (SQLite FTS5 documentation, "External Content Tables").  The three
    triggers of [initSchema] are embedded with that semantics: they run AFTER
    the change of the row, when [insights] already holds the new text of an
    updated row and no longer holds a deleted row.  The engine modelled is
    FTS5 as of SQLite 3.40.

    [limit] and [offset] are integer-valued numbers; timestamps are integers
    (milliseconds).  Text is a string of bytes, the UTF-8 form of the
    JavaScript string. *)

From Stdlib Require Import ZArith List String Ascii Bool Lia Permutation Sorted.
From Stdlib Require Import DecimalString.
Import ListNotations.
Open Scope string_scope.
Open Scope list_scope.
Open Scope Z_scope.

Set Implicit Arguments.

(** Errors better-sqlite3 throws while a statement runs. *)
Inductive SqliteError :=
| SQLITE_CONSTRAINT_PRIMARYKEY
| SQLITE_CORRUPT_VTAB
| SQLITE_MISMATCH
| SQLITE_ERROR (message : string).

Inductive result (A : Type) :=
| Ok (a : A)
| Throw (e : SqliteError).
Arguments Ok {A} a.
Arguments Throw {A} e.

(** ** SQL clauses shared by the queries *)

Module Sql.

(** [ORDER BY]: a stable insertion sort; [leb x y] says that [x] may come
    before [y].  Rows the ordering does not separate stay in scan order
    (SQL leaves their order open; the embedding fixes this one). *)
Fixpoint insert_row {A} (leb : A -> A -> bool) (x : A) (l : list A) : list A :=
  match l with
  | [] => [x]
  | y :: l' => if leb x y then x :: l else y :: insert_row leb x l'
  end.

Definition order_by {A} (leb : A -> A -> bool) (l : list A) : list A :=
  fold_right (insert_row leb) [] l.

(** The rows a LIMIT and an OFFSET select: a negative OFFSET counts as 0
    and a negative LIMIT means no upper bound. *)
Definition window {A} (limit offset : Z) (l : list A) : list A :=
  let rest := skipn (Z.to_nat offset) l in
  if limit <? 0 then rest else firstn (Z.to_nat limit) rest.

(** A number bound to LIMIT or OFFSET must be an integer.  better-sqlite3
    binds a JavaScript number as a REAL, and the engine takes a REAL for an
    integer only strictly between -2^63 and 2^63; any other bound makes the
    statement fail with "datatype mismatch".  (The integers a JavaScript
    number holds in that range reach from -2^63 + 1024 to 2^63 - 1024; a
    number with a fraction fails in the same way and has no place in [Z].) *)
Definition must_be_int (n : Z) : bool := (- 2 ^ 63 <? n) && (n <? 2 ^ 63).

(** [LIMIT ? OFFSET ?] *)
Definition limit_offset {A} (limit offset : Z) (l : list A) : result (list A) :=
  if must_be_int limit && must_be_int offset then Ok (window limit offset l)
  else Throw SQLITE_MISMATCH.

(** [COUNT( * )] *)
Definition count {A} (l : list A) : Z := Z.of_nat (List.length l).

End Sql.

(** ** The full-text engine *)

(** The inverted index, at the granularity of (rowid, term) postings.  Column
    filters and phrase positions are not represented. *)
Definition Posting : Type := Z * string.
Definition Index : Type := list Posting.

(** What FTS5 keeps for a table: the postings and the totals its ranking
    function needs -- the number of rows indexed ([nTotalRow]) and, for each
    of the two columns [content] and [metadata], the number of terms indexed
    ([aTotalSize]). *)
Record Fts5Table := {
  postings : Index;
  nTotalRow : Z;
  aTotalSize : Z * Z
}.

(** What the store needs from FTS5: the tokenizer applied to the indexed
    columns, the parser of the MATCH argument ([None] when the engine rejects
    the query text) and the message of the error it raises then, the
    evaluation of a parsed query on the terms posted under one rowid, and the
    order of the auxiliary [rank] column. *)
Class Fts5 := {
  fts5_expr : Type;
  fts5_tokenize : string -> list string;
  fts5_parse : string -> option fts5_expr;
  fts5_error : string -> string;
  fts5_eval : fts5_expr -> list string -> bool;
  fts5_rank_leb : fts5_expr -> Fts5Table -> Z -> Z -> bool
}.

(** [JSON.stringify] and [JSON.parse] on metadata objects. *)
Class JSON (Meta : Type) := {
  JSON_stringify : Meta -> string;
  JSON_parse : string -> Meta
}.

(** A JavaScript string used as a condition: [undefined] and [""] are falsy. *)
Definition truthy (s : option string) : bool :=
  match s with
  | Some s => negb (s =? "")%string
  | None => false
  end.

(** [a || b] on an optional string. *)
Definition or_else (a : option string) (b : string) : string :=
  match a with
  | Some s => if (s =? "")%string then b else s
  | None => b
  end.

(** [a ?? b] *)
Definition nullish {A} (a : option A) (b : A) : A :=
  match a with
  | Some x => x
  | None => b
  end.

(** ** The store: src/database.ts *)

Module InsightsDatabase.

(** A row of the [insights] table, with its implicit rowid. *)
Record Row := {
  row_rowid : Z;
  row_id : string;
  row_content : string;
  row_context : string;
  row_metadata : option string;
  row_created_at : Z;
  row_updated_at : Z
}.

(** [this.db]: the two tables. *)
Record Db := {
  insights : list Row;
  insights_fts : Fts5Table
}.

Definition empty : Db :=
  {| insights := [];
     insights_fts := {| postings := []; nTotalRow := 0; aTotalSize := (0, 0) |} |}.

(** types.ts *)
Record Insight (Meta : Type) := {
  id : string;
  content : string;
  context : string;
  metadata : option Meta;
  created_at : Z;
  updated_at : Z
}.

Record SearchResult (Meta : Type) := {
  results : list (Insight Meta);
  total : Z;
  hasMore : bool
}.

Section Statements.
Context {E : Fts5}.

(** *** The FTS5 virtual table *)

Definition doc_terms (content : string) (metadata : option string) : list string :=
  fts5_tokenize content ++
  match metadata with
  | Some m => fts5_tokenize m
  | None => []
  end.

Definition row_terms (r : Row) : list string :=
  doc_terms (row_content r) (row_metadata r).

Definition mem_term (t : string) (ts : list string) : bool :=
  existsb (String.eqb t) ts.

(** The terms posted under a rowid. *)
Definition index_terms (ix : Index) (rowid : Z) : list string :=
  map snd (filter (fun p => fst p =? rowid) ix).

Definition index_add (rowid : Z) (terms : list string) (ix : Index) : Index :=
  ix ++ map (pair rowid) terms.

Definition index_remove (rowid : Z) (terms : list string) (ix : Index) : Index :=
  filter (fun p => negb ((fst p =? rowid) && mem_term (snd p) terms)) ix.

Definition content_row (tbl : list Row) (rowid : Z) : option Row :=
  find (fun r => row_rowid r =? rowid) tbl.

(** The number of terms of a document, column by column. *)
Definition doc_size (content : string) (metadata : option string) : Z * Z :=
  (Z.of_nat (List.length (fts5_tokenize content)),
   match metadata with
   | Some m => Z.of_nat (List.length (fts5_tokenize m))
   | None => 0
   end).

(** Indexing a document under a rowid. *)
Definition storage_insert (rowid : Z) (content : string) (metadata : option string)
    (t : Fts5Table) : Fts5Table :=
  let size := doc_size content metadata in
  {| postings := index_add rowid (doc_terms content metadata) (postings t);
     nTotalRow := nTotalRow t + 1;
     aTotalSize := (fst (aTotalSize t) + fst size, snd (aTotalSize t) + snd size) |}.

(** Removing from the index the document that row [r] of the content table
    holds.  The engine takes the size of that document off its totals and
    reports a corrupt index ("database disk image is malformed") when a
    total would become negative. *)
Definition storage_delete (r : Row) (t : Fts5Table) : result Fts5Table :=
  let size := doc_size (row_content r) (row_metadata r) in
  if (fst (aTotalSize t) <? fst size) || (snd (aTotalSize t) <? snd size)
     || (nTotalRow t <? 1)
  then Throw SQLITE_CORRUPT_VTAB
  else Ok {| postings := index_remove (row_rowid r) (row_terms r) (postings t);
             nTotalRow := nTotalRow t - 1;
             aTotalSize := (fst (aTotalSize t) - fst size, snd (aTotalSize t) - snd size) |}.

(** [INSERT INTO insights_fts(rowid, content, metadata) VALUES (...)] *)
Definition fts_insert (rowid : Z) (content : string) (metadata : option string)
    (t : Fts5Table) : Fts5Table :=
  storage_insert rowid content metadata t.

(** [DELETE FROM insights_fts WHERE rowid = ?].  The rowid is looked up
    in the content table: without a row there the statement deletes
    nothing; with one, the document of that row is removed. *)
Definition fts_delete (tbl : list Row) (rowid : Z) (t : Fts5Table) : result Fts5Table :=
  match content_row tbl rowid with
  | Some r => storage_delete r t
  | None => Ok t
  end.

(** [UPDATE insights_fts SET content = ?, metadata = ? WHERE rowid = ?]:
    the engine removes the document it reads from the content table and
    indexes the new values. *)
Definition fts_update (tbl : list Row) (rowid : Z) (content : string)
    (metadata : option string) (t : Fts5Table) : result Fts5Table :=
  match content_row tbl rowid with
  | Some r =>
      match storage_delete r t with
      | Ok t' => Ok (storage_insert rowid content metadata t')
      | Throw e => Throw e
      end
  | None => Ok t
  end.

(** *** initSchema: the triggers.  Each runs AFTER the change of the
    row, so [insights d] is the table with the change applied. *)

Definition insights_ai (new : Row) (d : Db) : Db :=
  {| insights := insights d;
     insights_fts := fts_insert (row_rowid new) (row_content new) (row_metadata new)
                       (insights_fts d) |}.

Definition insights_ad (old : Row) (d : Db) : result Db :=
  match fts_delete (insights d) (row_rowid old) (insights_fts d) with
  | Ok t => Ok {| insights := insights d; insights_fts := t |}
  | Throw e => Throw e
  end.

Definition insights_au (new : Row) (d : Db) : result Db :=
  match fts_update (insights d) (row_rowid new) (row_content new) (row_metadata new)
          (insights_fts d) with
  | Ok t => Ok {| insights := insights d; insights_fts := t |}
  | Throw e => Throw e
  end.

(** A FOR EACH ROW trigger over the rows a statement changed; an error
    aborts the statement. *)
Fixpoint for_each_row (trigger : Row -> Db -> result Db) (rows : list Row) (d : Db)
    : result Db :=
  match rows with
  | [] => Ok d
  | r :: rows' =>
      match trigger r d with
      | Ok d' => for_each_row trigger rows' d'
      | Throw e => Throw e
      end
  end.

(** *** The statements on [insights] *)

Definition has_id (i : string) (r : Row) : bool := (row_id r =? i)%string.

(** The rowid of a new row: one more than the largest in use (the table is
    declared without AUTOINCREMENT, so the rowid of a deleted last row is
    given out again). *)
Definition next_rowid (tbl : list Row) : Z :=
  fold_right (fun r m => Z.max (row_rowid r) m) 0 tbl + 1.

(** [INSERT INTO insights (id, content, context, metadata, created_at,
    updated_at) VALUES (?, ?, ?, ?, ?, ?)]; [id] is the PRIMARY KEY. *)
Definition insert_insights (i c ctx : string) (m : option string) (created updated : Z)
    (d : Db) : result Db :=
  if existsb (has_id i) (insights d) then Throw SQLITE_CONSTRAINT_PRIMARYKEY
  else
    let new := {| row_rowid := next_rowid (insights d); row_id := i; row_content := c;
                  row_context := ctx; row_metadata := m;
                  row_created_at := created; row_updated_at := updated |} in
    Ok (insights_ai new {| insights := insights d ++ [new];
                           insights_fts := insights_fts d |}).

(** [SELECT * FROM insights WHERE id = ?], first row *)
Definition select_by_id (i : string) (d : Db) : option Row :=
  find (has_id i) (insights d).

Definition set_row (c : string) (m : option string) (updated : Z) (r : Row) : Row :=
  {| row_rowid := row_rowid r; row_id := row_id r; row_content := c;
     row_context := row_context r; row_metadata := m;
     row_created_at := row_created_at r; row_updated_at := updated |}.

(** [UPDATE insights SET content = ?, metadata = ?, updated_at = ? WHERE id = ?];
    [insights_au] fires for each row changed (the key is unique: at most one).
    When the trigger fails the statement changes nothing and throws. *)
Definition update_insights (c : string) (m : option string) (updated : Z) (i : string)
    (d : Db) : result Db :=
  let tbl := map (fun r => if has_id i r then set_row c m updated r else r) (insights d) in
  for_each_row insights_au (filter (has_id i) tbl)
    {| insights := tbl; insights_fts := insights_fts d |}.

(** [DELETE FROM insights WHERE id = ?], with the number of rows changed;
    [insights_ad] fires for each row deleted. *)
Definition delete_insights (i : string) (d : Db) : result (Db * Z) :=
  let gone := filter (has_id i) (insights d) in
  let tbl := filter (fun r => negb (has_id i r)) (insights d) in
  match for_each_row insights_ad gone {| insights := tbl; insights_fts := insights_fts d |} with
  | Ok d' => Ok (d', Sql.count gone)
  | Throw e => Throw e
  end.

(** [... WHERE context = ?], added to a query only [if (context)] *)
Definition where_context (context : option string) (tbl : list Row) : list Row :=
  if truthy context
  then filter (fun r => (row_context r =? nullish context "")%string) tbl
  else tbl.

(** [ORDER BY created_at DESC].  Rows of equal [created_at] come in the
    order in which the plan of the statement reaches them (SQLite 3.40):
    without a WHERE clause it walks [idx_created_at] backwards, the later rowid
    first; with [WHERE context = ?] it sorts the rows [idx_context] gives, the
    earlier rowid first. *)
Definition created_at_desc (filtered : bool) (a b : Row) : bool :=
  (row_created_at b <? row_created_at a)
  || ((row_created_at b =? row_created_at a)
      && (if filtered then row_rowid a <=? row_rowid b else row_rowid b <=? row_rowid a)).

(** The rows a [context] argument selects: all of them unless it is a
    non-empty string. *)
Definition in_context (context : option string) (r : Row) : bool :=
  match context with
  | Some c => if (c =? "")%string then true else (row_context r =? c)%string
  | None => true
  end.

(** The rows a listing ranges over, in the order of the listing, before
    LIMIT and OFFSET cut a page out of them. *)
Definition listed (context : option string) (d : Db) : list Row :=
  Sql.order_by (created_at_desc (truthy context)) (where_context context (insights d)).

(** [FROM insights_fts JOIN insights ON insights.rowid = insights_fts.rowid
    WHERE insights_fts MATCH ?]: the rows of [insights] whose rowid the
    index matches, in rowid order. *)
Definition fts_match (e : fts5_expr) (d : Db) : list Row :=
  filter (fun r => fts5_eval e (index_terms (postings (insights_fts d)) (row_rowid r)))
    (insights d).

Definition by_rank (e : fts5_expr) (d : Db) (a b : Row) : bool :=
  fts5_rank_leb e (insights_fts d) (row_rowid a) (row_rowid b).

(** The rows a search ranges over, in the order of the search, before
    LIMIT and OFFSET cut a page out of them. *)
Definition found (e : fts5_expr) (context : option string) (d : Db) : list Row :=
  Sql.order_by (by_rank e d) (where_context context (fts_match e d)).

End Statements.

Section Methods.
Context {Meta : Type} {J : JSON Meta} {E : Fts5}.

Definition rowToInsight (row : Row) : Insight Meta :=
  {| id := row_id row;
     content := row_content row;
     context := row_context row;
     metadata := if truthy (row_metadata row)
                 then Some (JSON_parse (nullish (row_metadata row) ""))
                 else None;
     created_at := row_created_at row;
     updated_at := row_updated_at row |}.

(** [id] is the value of [randomUUID()], [now] the value of [Date.now()]. *)
Definition save (id : string) (now : Z) (content context : string)
    (metadata : option Meta) (d : Db) : result (Insight Meta * Db) :=
  let metadataJson := option_map JSON_stringify metadata in
  match insert_insights id content context metadataJson now now d with
  | Throw e => Throw e
  | Ok d' =>
      Ok ({| id := id; content := content; context := context; metadata := metadata;
             created_at := now; updated_at := now |}, d')
  end.

(** [get(id)]: [None] is the [null] the method returns for an unknown id. *)
Definition get (id : string) (d : Db) : option (Insight Meta) :=
  match select_by_id id d with
  | None => None
  | Some row => Some (rowToInsight row)
  end.

(** The [updates] argument of [update]. *)
Record Updates := {
  upd_content : option string;
  upd_metadata : option Meta
}.

(** [update(id, updates)]; [now] is the value of [Date.now()]. *)
Definition update (id : string) (now : Z) (updates : Updates) (d : Db)
    : result (option (Insight Meta) * Db) :=
  match get id d with
  | None => Ok (None, d)
  | Some existing =>
      let content' := nullish (upd_content updates) (content existing) in
      let metadata' := match upd_metadata updates with
                       | Some m => Some m
                       | None => metadata existing
                       end in
      let metadataJson := option_map JSON_stringify metadata' in
      match update_insights content' metadataJson now id d with
      | Throw e => Throw e
      | Ok d' =>
          Ok (Some {| id := InsightsDatabase.id existing; content := content';
                      context := context existing; metadata := metadata';
                      created_at := created_at existing; updated_at := now |}, d')
      end
  end.

(** [delete(id)]: [result.changes > 0]. *)
Definition delete (id : string) (d : Db) : result (bool * Db) :=
  match delete_insights id d with
  | Throw e => Throw e
  | Ok (d', changes) => Ok (0 <? changes, d')
  end.

(** The object [list] and [search] return: [{ results, total, hasMore }]. *)
Definition page (offset total : Z) (rows : list Row) : SearchResult Meta :=
  let results := map rowToInsight rows in
  {| results := results;
     total := total;
     hasMore := offset + Z.of_nat (List.length results) <? total |}.

(** [search(query, context, limit, offset)].  Both statements carry
    [WHERE insights_fts MATCH ?]: a query the engine rejects makes the first
    of them, the count, throw.  The second carries [LIMIT ? OFFSET ?]. *)
Definition search (query : string) (context : option string) (limit offset : Z)
    (d : Db) : result (SearchResult Meta) :=
  match fts5_parse query with
  | None => Throw (SQLITE_ERROR (fts5_error query))
  | Some e =>
      let matching := where_context context (fts_match e d) in
      let total := Sql.count matching in
      match Sql.limit_offset limit offset (Sql.order_by (by_rank e d) matching) with
      | Throw err => Throw err
      | Ok rows => Ok (page offset total rows)
      end
  end.

(** [list(context, limit, offset)] *)
Definition list (context : option string) (limit offset : Z) (d : Db)
    : result (SearchResult Meta) :=
  let matching := where_context context (insights d) in
  let total := Sql.count matching in
  match Sql.limit_offset limit offset
          (Sql.order_by (created_at_desc (truthy context)) matching) with
  | Throw err => Throw err
  | Ok rows => Ok (page offset total rows)
  end.

End Methods.

(** *** Histories of mutations *)

Section Histories.
Context {Meta : Type} {J : JSON Meta} {E : Fts5}.

(** A completed create, update or delete, with the values [randomUUID()]
    and [Date.now()] took in it. *)
Inductive Op :=
| op_save (id : string) (now : Z) (content context : string) (metadata : option Meta)
| op_update (id : string) (now : Z) (updates : Updates (Meta := Meta))
| op_delete (id : string).

(** The database after the operation; an operation that throws leaves it
    as it was. *)
Definition step (d : Db) (o : Op) : Db :=
  match o with
  | op_save id now content context metadata =>
      match save id now content context metadata d with
      | Ok (_, d') => d'
      | Throw _ => d
      end
  | op_update id now updates =>
      match update id now updates d with
      | Ok (_, d') => d'
      | Throw _ => d
      end
  | op_delete id =>
      match delete id d with
      | Ok (_, d') => d'
      | Throw _ => d
      end
  end.

Definition run (ops : Datatypes.list Op) (d : Db) : Db := fold_left step ops d.

(** A metadata object that survives serialization: its text is not
    empty and parses back to it. *)
Definition json_safe (m : Meta) : Prop :=
  JSON_stringify m <> EmptyString /\ JSON_parse (JSON_stringify m) = m.

Definition json_safe_opt (m : option Meta) : Prop :=
  match m with
  | Some x => json_safe x
  | None => True
  end.

(** Every term of the current text of every row is posted under the
    row's rowid. *)
Definition indexed (d : Db) : Prop :=
  forall r t, In r (insights d) -> In t (row_terms r) ->
              In (row_rowid r, t) (postings (insights_fts d)).

(** What the schema guarantees of the table (rowids and the PRIMARY KEY
    are unique) together with [indexed]; and the index counts at least as
    many rows as the table holds. *)
Definition consistent (d : Db) : Prop :=
  NoDup (map row_rowid (insights d))
  /\ NoDup (map row_id (insights d))
  /\ indexed d
  /\ Z.of_nat (List.length (insights d)) <= nTotalRow (insights_fts d).

(** The totals of the index are at least the size of a document. *)
Definition covers (d : Db) (content : string) (metadata : option string) : Prop :=
  fst (doc_size content metadata) <= fst (aTotalSize (insights_fts d))
  /\ snd (doc_size content metadata) <= snd (aTotalSize (insights_fts d)).

End Histories.

End InsightsDatabase.

(** ** The tool adapter: src/server.ts *)

Module Server.
Import InsightsDatabase.

Inductive Mode := stdio | http.

(** What a handler can throw: the adapter's own [Error], or an error of the
    database passing through. *)
Inductive Exception :=
| Error (message : string)
| Sqlite (e : SqliteError).

Inductive outcome (A : Type) :=
| Returns (a : A)
| Throws (e : Exception).
Arguments Returns {A} a.
Arguments Throws {A} e.

Definition context_required : string := "context parameter is required in HTTP mode".

(** [getContext]; [cwd] is the value of [process.cwd()]. *)
Definition getContext (mode : Mode) (cwd : string) (providedContext : option string)
    : outcome string :=
  match mode with
  | http => if negb (truthy providedContext) then Throws (Error context_required)
            else Returns (or_else providedContext cwd)
  | stdio => Returns (or_else providedContext cwd)
  end.

Section Tools.
Context {Meta : Type} {J : JSON Meta} {E : Fts5}.

(** A call of a method of [db], as a handler issues it. *)
Inductive Call :=
| db_save (content context : string) (metadata : option Meta)
| db_search (query : string) (context : option string) (limit offset : Z)
| db_list (context : option string) (limit offset : Z)
| db_get (id : string)
| db_update (id : string) (updates : Updates (Meta := Meta))
| db_delete (id : string).

(** The database a server was created with, and the calls its handlers
    have made on it so far (most recent last). *)
Record World := {
  db : Db;
  calls : Datatypes.list Call
}.

Definition called (c : Call) (d : Db) (w : World) : World :=
  {| db := d; calls := calls w ++ [c] |}.

(** [structuredContent] of each tool. *)
Inductive Output :=
| saved (id : string) (created_at : Z)
| found_page (output : SearchResult Meta)
| got (insight : option (Insight Meta)) (found : bool)
| updated_insight (updated : bool) (insight : option (Insight Meta))
| deleted_insight (deleted : bool) (id : string).

Definition is_some {A} (o : option A) : bool :=
  match o with Some _ => true | None => false end.

(** Tool 1: save-insight *)
Definition save_insight (mode : Mode) (cwd uuid : string) (now : Z)
    (content : string) (context : option string) (metadata : option Meta)
    (w : World) : outcome Output * World :=
  match getContext mode cwd context with
  | Throws e => (Throws e, w)
  | Returns resolvedContext =>
      let c := db_save content resolvedContext metadata in
      match save uuid now content resolvedContext metadata (db w) with
      | Throw e => (Throws (Sqlite e), called c (db w) w)
      | Ok (insight, d) => (Returns (saved (id insight) (created_at insight)), called c d w)
      end
  end.

(** [context ? getContext(context) : undefined] *)
Definition resolve_filter (mode : Mode) (cwd : string) (context : option string)
    : outcome (option string) :=
  if truthy context then
    match getContext mode cwd context with
    | Throws e => Throws e
    | Returns c => Returns (Some c)
    end
  else Returns None.

(** Tool 2: search-insights *)
Definition search_insights (mode : Mode) (cwd : string)
    (query : string) (context : option string) (limit offset : option Z)
    (w : World) : outcome Output * World :=
  match resolve_filter mode cwd context with
  | Throws e => (Throws e, w)
  | Returns resolvedContext =>
      let c := db_search query resolvedContext (nullish limit 20) (nullish offset 0) in
      match search query resolvedContext (nullish limit 20) (nullish offset 0) (db w) with
      | Throw e => (Throws (Sqlite e), called c (db w) w)
      | Ok output => (Returns (found_page output), called c (db w) w)
      end
  end.

(** Tool 3: list-insights *)
Definition list_insights (mode : Mode) (cwd : string)
    (context : option string) (limit offset : option Z)
    (w : World) : outcome Output * World :=
  match resolve_filter mode cwd context with
  | Throws e => (Throws e, w)
  | Returns resolvedContext =>
      let c := db_list resolvedContext (nullish limit 20) (nullish offset 0) in
      match InsightsDatabase.list resolvedContext (nullish limit 20) (nullish offset 0)
              (db w) with
      | Throw e => (Throws (Sqlite e), called c (db w) w)
      | Ok output => (Returns (found_page output), called c (db w) w)
      end
  end.

(** Tool 4: get-insight *)
Definition get_insight (id : string) (w : World) : outcome Output * World :=
  let insight := get id (db w) in
  (Returns (got insight (is_some insight)), called (db_get id) (db w) w).

(** Tool 5: update-insight *)
Definition update_insight (now : Z) (id : string) (content : option string)
    (metadata : option Meta) (w : World) : outcome Output * World :=
  let updates := {| upd_content := content; upd_metadata := metadata |} in
  match update id now updates (db w) with
  | Throw e => (Throws (Sqlite e), called (db_update id updates) (db w) w)
  | Ok (insight, d) =>
      (Returns (updated_insight (is_some insight) insight), called (db_update id updates) d w)
  end.

(** Tool 6: delete-insight *)
Definition delete_insight (id : string) (w : World) : outcome Output * World :=
  match delete id (db w) with
  | Throw e => (Throws (Sqlite e), called (db_delete id) (db w) w)
  | Ok (deleted, d) => (Returns (deleted_insight deleted id), called (db_delete id) d w)
  end.

(** A [tools/call] request, by tool name and arguments. *)
Inductive ToolCall :=
| call_save_insight (content : string) (context : option string) (metadata : option Meta)
| call_search_insights (query : string) (context : option string) (limit offset : option Z)
| call_list_insights (context : option string) (limit offset : option Z)
| call_get_insight (id : string)
| call_update_insight (id : string) (content : option string) (metadata : option Meta)
| call_delete_insight (id : string).

Definition callTool (mode : Mode) (cwd uuid : string) (now : Z) (t : ToolCall)
    (w : World) : outcome Output * World :=
  match t with
  | call_save_insight content context metadata =>
      save_insight mode cwd uuid now content context metadata w
  | call_search_insights query context limit offset =>
      search_insights mode cwd query context limit offset w
  | call_list_insights context limit offset =>
      list_insights mode cwd context limit offset w
  | call_get_insight id => get_insight id w
  | call_update_insight id content metadata => update_insight now id content metadata w
  | call_delete_insight id => delete_insight id w
  end.

(** The [context] argument of a request; the last three tools declare none. *)
Definition context_argument (t : ToolCall) : option string :=
  match t with
  | call_save_insight _ context _ => context
  | call_search_insights _ context _ _ => context
  | call_list_insights context _ _ => context
  | call_get_insight _ | call_update_insight _ _ _ | call_delete_insight _ => None
  end.

(** The context a store call carries, if any. *)
Definition call_context (c : Call) : option string :=
  match c with
  | db_save _ context _ => Some context
  | db_search _ context _ _ => context
  | db_list context _ _ => context
  | db_get _ | db_update _ _ | db_delete _ => None
  end.

End Tools.

End Server.

(** ** A model of the engine on plain-word text *)

(** FTS5 with its default tokenizer, restricted to ASCII text and to queries
    that are a sequence of barewords (FTS5 joins them with an implicit AND).

    - Documents: a term is a maximal run of ASCII letters and digits, folded
      to lower case; every other ASCII character separates terms.  Bytes
      above 127 are kept as term characters without folding.
    - Queries: the FTS5 lexer skips space, tab, newline and carriage return
      and rejects every character that is neither a bareword character nor
      one of its punctuation tokens; a query with no token at all is a syntax
      error.  The message of the error names the place: the rejected
      character, or nothing at the end of a query without a token.  Queries
      that use the query language beyond barewords (quotes, the punctuation
      tokens, the keywords AND, OR, NOT, underscores or non-ASCII bytes) are
      outside this model: [parse] answers [None] for them as well, and
      nothing below evaluates [parse] or [error] on such a query.
    - The [rank] column (bm25, a floating-point score) is not modelled: the
      matches stay in rowid order. *)
Module Barewords.

Definition code (c : ascii) : nat := nat_of_ascii c.

Definition is_digit (c : ascii) : bool := ((48 <=? code c) && (code c <=? 57))%nat.
Definition is_upper (c : ascii) : bool := ((65 <=? code c) && (code c <=? 90))%nat.
Definition is_lower (c : ascii) : bool := ((97 <=? code c) && (code c <=? 122))%nat.
Definition is_alnum (c : ascii) : bool := is_digit c || is_upper c || is_lower c.
Definition is_term_char (c : ascii) : bool := is_alnum c || (128 <=? code c)%nat.

(** space, tab, newline, carriage return *)
Definition is_space (c : ascii) : bool :=
  ((code c =? 32) || (code c =? 9) || (code c =? 10) || (code c =? 13))%nat.

Definition fold_char (c : ascii) : ascii :=
  if is_upper c then ascii_of_nat (code c + 32) else c.

Fixpoint fold_case (s : string) : string :=
  match s with
  | EmptyString => EmptyString
  | String c s' => String (fold_char c) (fold_case s')
  end.

Definition flush (cur : string) : list string :=
  match cur with
  | EmptyString => []
  | _ => [cur]
  end.

(** The maximal runs of characters satisfying [keep]; [cur] is the run
    being read. *)
Fixpoint runs (keep : ascii -> bool) (s : string) (cur : string) : list string :=
  match s with
  | EmptyString => flush cur
  | String c s' =>
      if keep c then runs keep s' (cur ++ String c EmptyString)%string
      else flush cur ++ runs keep s' EmptyString
  end.

Definition tokenize (text : string) : list string :=
  map fold_case (runs is_term_char text EmptyString).

Definition is_keyword (w : string) : bool :=
  ((w =? "AND") || (w =? "OR") || (w =? "NOT"))%string.

(** Text made of plain words only: ASCII letters, digits and blanks, with at
    least one word and none of the words AND, OR, NOT. *)
Definition plain_words (text : string) : bool :=
  forallb (fun c => is_alnum c || is_space c) (list_ascii_of_string text)
  && match runs is_alnum text EmptyString with
     | [] => false
     | words => negb (existsb is_keyword words)
     end.

Definition parse (query : string) : option (list string) :=
  if plain_words query then Some (map fold_case (runs is_alnum query EmptyString))
  else None.

Definition eval (terms : list string) (posted : list string) : bool :=
  forallb (fun t => existsb (String.eqb t) posted) terms.

(** The first character that is neither a letter, a digit nor a blank. *)
Fixpoint first_other (s : string) : option ascii :=
  match s with
  | EmptyString => None
  | String c s' => if is_alnum c || is_space c then first_other s' else Some c
  end.

Definition dquote : ascii := "034"%char.

(** [fts5: syntax error near "..."] *)
Definition near (token : string) : string :=
  ("fts5: syntax error near " ++ String dquote (token ++ String dquote EmptyString))%string.

Definition error (query : string) : string :=
  match first_other query with
  | Some c => near (String c EmptyString)
  | None => near EmptyString
  end.

End Barewords.

#[export] Instance fts5_barewords : Fts5 := {
  fts5_expr := list string;
  fts5_tokenize := Barewords.tokenize;
  fts5_parse := Barewords.parse;
  fts5_error := Barewords.error;
  fts5_eval := Barewords.eval;
  fts5_rank_leb := fun _ _ _ _ => true
}.

(** ** JSON values and their text *)

(** [JSON.stringify] and [JSON.parse] on values built from null, booleans,
    integers, strings, arrays and objects.  Metadata is an object: the list of
    its members in insertion order. *)
Module Json.

#[warnings="-register-all"]
Inductive value :=
| JNull
| JBool (b : bool)
| JNumber (z : Z)
| JString (s : string)
| JArray (items : list value)
| JObject (members : list (string * value)).

Definition dquote : ascii := "034"%char.
Definition backslash : ascii := "092"%char.

Definition put (c : ascii) (s : string) : string := String c s.

Definition hex (n : nat) : ascii :=
  if (n <? 10)%nat then ascii_of_nat (48 + n) else ascii_of_nat (87 + n).

(** The escape of one character inside a JSON string. *)
Definition escape (c : ascii) : string :=
  let n := nat_of_ascii c in
  if (n =? 34)%nat then put backslash (put dquote EmptyString)
  else if (n =? 92)%nat then put backslash (put backslash EmptyString)
  else if (n =? 8)%nat then put backslash "b"
  else if (n =? 12)%nat then put backslash "f"
  else if (n =? 10)%nat then put backslash "n"
  else if (n =? 13)%nat then put backslash "r"
  else if (n =? 9)%nat then put backslash "t"
  else if (n <? 32)%nat then
    put backslash (put "u" (put "0" (put "0"
      (put (hex (n / 16)) (put (hex (n mod 16)) EmptyString)))))
  else put c EmptyString.

Fixpoint escape_all (s : string) : string :=
  match s with
  | EmptyString => EmptyString
  | String c s' => (escape c ++ escape_all s')%string
  end.

Definition quote (s : string) : string :=
  put dquote (escape_all s ++ put dquote EmptyString)%string.

Definition number (z : Z) : string := NilZero.string_of_int (Z.to_int z).

Fixpoint stringify (v : value) : string :=
  match v with
  | JNull => "null"
  | JBool true => "true"
  | JBool false => "false"
  | JNumber z => number z
  | JString s => quote s
  | JArray items =>
      let fix go (l : list value) : string :=
        match l with
        | [] => EmptyString
        | x :: l' =>
            match l' with
            | [] => stringify x
            | _ => (stringify x ++ "," ++ go l')%string
            end
        end in
      ("[" ++ go items ++ "]")%string
  | JObject members =>
      let fix go (l : list (string * value)) : string :=
        match l with
        | [] => EmptyString
        | (k, x) :: l' =>
            match l' with
            | [] => (quote k ++ ":" ++ stringify x)%string
            | _ => (quote k ++ ":" ++ stringify x ++ "," ++ go l')%string
            end
        end in
      ("{" ++ go members ++ "}")%string
  end.

(** *** Reading the text back *)

Definition is_ws (c : ascii) : bool :=
  let n := nat_of_ascii c in
  ((n =? 32) || (n =? 9) || (n =? 10) || (n =? 13))%nat.

Fixpoint skip_ws (s : string) : string :=
  match s with
  | String c s' => if is_ws c then skip_ws s' else s
  | EmptyString => s
  end.

Definition unhex (c : ascii) : option nat :=
  let n := nat_of_ascii c in
  if ((48 <=? n) && (n <=? 57))%nat then Some (n - 48)%nat
  else if ((97 <=? n) && (n <=? 102))%nat then Some (n - 87)%nat
  else if ((65 <=? n) && (n <=? 70))%nat then Some (n - 55)%nat
  else None.

(** The characters of a string literal after its opening quote, and the
    text after its closing quote.  Of the [\u] escapes only those below
    256 are read. *)
Fixpoint read_string (s : string) (acc : string) : option (string * string) :=
  match s with
  | EmptyString => None
  | String c s' =>
      if (nat_of_ascii c =? 34)%nat then Some (acc, s')
      else if (nat_of_ascii c =? 92)%nat then
        match s' with
        | String e s'' =>
            let push (x : ascii) := read_string s'' (acc ++ put x EmptyString)%string in
            if (e =? "b")%char then push "008"%char
            else if (e =? "f")%char then push "012"%char
            else if (e =? "n")%char then push "010"%char
            else if (e =? "r")%char then push "013"%char
            else if (e =? "t")%char then push "009"%char
            else if (e =? "u")%char then
              match s'' with
              | String "0" (String "0" (String h (String l rest))) =>
                  match unhex h, unhex l with
                  | Some a, Some b =>
                      read_string rest (acc ++ put (ascii_of_nat (16 * a + b)) EmptyString)%string
                  | _, _ => None
                  end
              | _ => None
              end
            else push e
        | EmptyString => None
        end
      else read_string s' (acc ++ put c EmptyString)%string
  end.

Fixpoint read_digits (s : string) (acc : Z) : Z * string :=
  match s with
  | String c s' =>
      let n := nat_of_ascii c in
      if ((48 <=? n) && (n <=? 57))%nat
      then read_digits s' (10 * acc + Z.of_nat (n - 48))
      else (acc, s)
  | EmptyString => (acc, s)
  end.

Definition starts_digit (s : string) : bool :=
  match s with
  | String c _ => let n := nat_of_ascii c in ((48 <=? n) && (n <=? 57))%nat
  | EmptyString => false
  end.

Definition strip (p s : string) : option string :=
  if String.prefix p s
  then Some (String.substring (String.length p) (String.length s - String.length p) s)
  else None.

(** One value at the head of the text, and the text after it. *)
Fixpoint read_value (fuel : nat) (s : string) : option (value * string) :=
  match fuel with
  | O => None
  | S fuel =>
      let fix items (n : nat) (s : string) (acc : list value)
          : option (list value * string) :=
        match n with
        | O => None
        | S n =>
            match read_value fuel s with
            | None => None
            | Some (x, rest) =>
                match skip_ws rest with
                | String "," rest' => items n rest' (acc ++ [x])
                | String "]" rest' => Some (acc ++ [x], rest')
                | _ => None
                end
            end
        end in
      let fix members (n : nat) (s : string) (acc : list (string * value))
          : option (list (string * value) * string) :=
        match n with
        | O => None
        | S n =>
            match skip_ws s with
            | String q s1 =>
                if (nat_of_ascii q =? 34)%nat then
                  match read_string s1 EmptyString with
                  | None => None
                  | Some (k, s2) =>
                      match skip_ws s2 with
                      | String ":" s3 =>
                          match read_value fuel s3 with
                          | None => None
                          | Some (x, rest) =>
                              match skip_ws rest with
                              | String "," rest' => members n rest' (acc ++ [(k, x)])
                              | String "}" rest' => Some (acc ++ [(k, x)], rest')
                              | _ => None
                              end
                          end
                      | _ => None
                      end
                  end
                else None
            | EmptyString => None
            end
        end in
      match skip_ws s with
      | EmptyString => None
      | String c s' =>
          if (nat_of_ascii c =? 34)%nat then
            match read_string s' EmptyString with
            | Some (str, rest) => Some (JString str, rest)
            | None => None
            end
          else if (c =? "[")%char then
            match skip_ws s' with
            | String "]" rest => Some (JArray [], rest)
            | _ =>
                match items (String.length s) s' [] with
                | Some (l, rest) => Some (JArray l, rest)
                | None => None
                end
            end
          else if (c =? "{")%char then
            match skip_ws s' with
            | String "}" rest => Some (JObject [], rest)
            | _ =>
                match members (String.length s) s' [] with
                | Some (l, rest) => Some (JObject l, rest)
                | None => None
                end
            end
          else if (c =? "-")%char then
            if starts_digit s'
            then let (z, rest) := read_digits s' 0 in Some (JNumber (- z), rest)
            else None
          else if starts_digit (String c s') then
            let (z, rest) := read_digits (String c s') 0 in Some (JNumber z, rest)
          else
            match strip "null" (String c s'), strip "true" (String c s'),
                  strip "false" (String c s') with
            | Some rest, _, _ => Some (JNull, rest)
            | _, Some rest, _ => Some (JBool true, rest)
            | _, _, Some rest => Some (JBool false, rest)
            | _, _, _ => None
            end
      end
  end.

(** [JSON.parse]: the whole text is one value. *)
Definition parse (s : string) : option value :=
  match read_value (S (String.length s)) s with
  | Some (v, rest) =>
      match skip_ws rest with
      | EmptyString => Some v
      | _ => None
      end
  | None => None
  end.

(** Metadata: [Record<string, any>]. *)
Definition object : Type := list (string * value).

Definition stringify_object (m : object) : string := stringify (JObject m).

(** [JSON.parse] throws on text that is not JSON; the store only parses
    text it has written, so that case gets an arbitrary answer here. *)
Definition parse_object (s : string) : object :=
  match parse s with
  | Some (JObject members) => members
  | _ => []
  end.

End Json.

#[export] Instance json_objects : JSON Json.object := {
  JSON_stringify := Json.stringify_object;
  JSON_parse := Json.parse_object
}.

(** ** The command line: src/index.ts *)

(** The options of the program and what its action decides before a
    transport runs.  The environment variables and the values given on the
    command line are inputs.  An option takes the value given on the command
    line and, when none is given, the default [index.ts] declares for it.
    [new InsightsDatabase(...)] and the transports are taken to return;
    an exception from them is logged and ends the process with code 1. *)
Module Cli.

(** [process.env] *)
Record Env := {
  INSIGHTS_MCP_MODE : option string;
  INSIGHTS_MCP_DB_PATH : option string;
  INSIGHTS_MCP_PORT : option string
}.

(** The values of [--mode], [--db-path] and [--port] on the command line,
    where given. *)
Record Argv := {
  arg_mode : option string;
  arg_db_path : option string;
  arg_port : option string
}.

(** [options], as the action receives them. *)
Record Options := {
  mode : string;
  dbPath : option string;
  port : string
}.

Definition options (env : Env) (argv : Argv) : Options :=
  {| mode := nullish (arg_mode argv) (or_else (INSIGHTS_MCP_MODE env) "stdio");
     dbPath := match arg_db_path argv with
               | Some p => Some p
               | None => INSIGHTS_MCP_DB_PATH env
               end;
     port := nullish (arg_port argv) (or_else (INSIGHTS_MCP_PORT env) "3000") |}.

(** The constructor of [InsightsDatabase] (src/database.ts):
    [dbPath || join(homedir(), '.insights-mcp', 'insights.db')];
    [default_path] is the value of the [join]. *)
Definition path (dbPath : option string) (default_path : string) : string :=
  or_else dbPath default_path.

(** The white space and line terminators of JavaScript, in UTF-8.  One
    byte: tab, line feed, vertical tab, form feed, carriage return, space. *)
Definition is_white_space (c : ascii) : bool :=
  let n := nat_of_ascii c in
  ((n =? 9) || (n =? 10) || (n =? 11) || (n =? 12) || (n =? 13) || (n =? 32))%nat.

(** Two bytes: U+00A0. *)
Definition is_white_space2 (c1 c2 : ascii) : bool :=
  ((nat_of_ascii c1 =? 194) && (nat_of_ascii c2 =? 160))%nat.

(** Three bytes: U+1680, U+2000 to U+200A, U+2028, U+2029, U+202F, U+205F,
    U+3000 and U+FEFF. *)
Definition is_white_space3 (c1 c2 c3 : ascii) : bool :=
  let n1 := nat_of_ascii c1 in
  let n2 := nat_of_ascii c2 in
  let n3 := nat_of_ascii c3 in
  ((n1 =? 225) && (n2 =? 154) && (n3 =? 128)
   || (n1 =? 226) && (n2 =? 128)
      && ((128 <=? n3) && (n3 <=? 138) || (n3 =? 168) || (n3 =? 169) || (n3 =? 175))
   || (n1 =? 226) && (n2 =? 129) && (n3 =? 159)
   || (n1 =? 227) && (n2 =? 128) && (n3 =? 128)
   || (n1 =? 239) && (n2 =? 187) && (n3 =? 191))%nat.

Fixpoint trim_start (s : string) : string :=
  match s with
  | EmptyString => s
  | String c1 s1 =>
      if is_white_space c1 then trim_start s1
      else
        match s1 with
        | EmptyString => s
        | String c2 s2 =>
            if is_white_space2 c1 c2 then trim_start s2
            else
              match s2 with
              | EmptyString => s
              | String c3 s3 => if is_white_space3 c1 c2 c3 then trim_start s3 else s
              end
        end
  end.

(** [parseInt(text, 10)]: white space at the start is skipped, a sign is
    read, and the ASCII digits that follow are the number, whatever comes
    after them; [None] is [NaN], the answer when no digit follows.  The
    number is exact here; JavaScript rounds it to a double, which changes
    no number up to 2^53 and moves none across 1 or 65535, the two numbers
    the action compares it with. *)
Definition parseInt (text : string) : option Z :=
  let s := trim_start text in
  let signed := match s with
                | String "-" s' => (true, s')
                | String "+" s' => (false, s')
                | _ => (false, s)
                end in
  if Json.starts_digit (snd signed)
  then let z := fst (Json.read_digits (snd signed) 0) in
       Some (if fst signed then - z else z)
  else None.



End Cli.

(** ** Sample data *)

Module Sample.
Import InsightsDatabase.

Definition greeting : Json.object := [("tag", Json.JString "greeting")].

Definition hello : Insight Json.object :=
  {| id := "a"; content := "hello world"; context := "ctx1"; metadata := Some greeting;
     created_at := 1000; updated_at := 1000 |}.

(** Three notes, two of them in one context. *)
Definition notes : Datatypes.list (Op (Meta := Json.object)) :=
  [ op_save "a" 1000 "hello world" "ctx1" (Some greeting);
    op_save "b" 1001 "another entry" "ctx1" None;
    op_save "c" 1002 "elsewhere" "ctx2" None ].

Definition db3 : Db := run (E := fts5_barewords) notes empty.

(** A note whose text is not a well-formed FTS5 query. *)
Definition trap : Db :=
  run (E := fts5_barewords) (Meta := Json.object)
    [ op_save "t" 1000 "it's a trap" "ctx1" None ] empty.

(** A note rewritten, and a note deleted before another is saved. *)
Definition rewritten : Db :=
  run (E := fts5_barewords) (Meta := Json.object)
    [ op_save "a" 1000 "hello world" "ctx1" None;
      op_update "a" 1001 {| upd_content := Some "updated content"; upd_metadata := None |} ]
    empty.

Definition replaced : Db :=
  run (E := fts5_barewords) (Meta := Json.object)
    [ op_save "a" 1000 "alpha" "ctx1" None;
      op_delete "a";
      op_save "b" 1001 "beta" "ctx1" None ]
    empty.

(** The scenario of the design notes: two notes in "ctx1", the first then
    rewritten and at last deleted. *)
Definition two_saved : Db :=
  run (E := fts5_barewords) (Meta := Json.object)
    [ op_save "a" 1000 "hello world" "ctx1" None;
      op_save "b" 1001 "another entry" "ctx1" None ]
    empty.

Definition first_rewritten : Db :=
  run (E := fts5_barewords) (Meta := Json.object)
    [ op_update "a" 1002 {| upd_content := Some "updated content"; upd_metadata := None |} ]
    two_saved.

Definition first_deleted : Db :=
  run (E := fts5_barewords) (Meta := Json.object) [ op_delete "a" ] first_rewritten.

(** One short note in a new database. *)
Definition one_word : Db :=
  run (E := fts5_barewords) (Meta := Json.object)
    [ op_save "a" 1000 "alpha" "ctx1" None ] empty.

(** The first two of [notes] saved, and the third as [save] returns it. *)
Definition db2 : Db := run (E := fts5_barewords) (firstn 2 notes) empty.

Definition elsewhere : Insight Json.object :=
  {| id := "c"; content := "elsewhere"; context := "ctx2"; metadata := None;
     created_at := 1002; updated_at := 1002 |}.

(** [one_word] with its note deleted. *)
Definition none_left : Db :=
  run (E := fts5_barewords) (Meta := Json.object) [ op_delete "a" ] one_word.

(** Two notes that share a word. *)
Definition shared : Db :=
  run (E := fts5_barewords) (Meta := Json.object)
    [ op_save "a" 1000 "alpha beta" "ctx1" None;
      op_save "b" 1001 "alpha gamma" "ctx1" None ]
    empty.

(** Two notes saved within one millisecond. *)
Definition same_instant : Db :=
  run (E := fts5_barewords) (Meta := Json.object)
    [ op_save "a" 1000 "first" "ctx1" None;
      op_save "b" 1000 "second" "ctx1" None ]
    empty.

(** A server on the three notes. *)
Definition serving : Server.World (Meta := Json.object) :=
  {| Server.db := db3; Server.calls := [] |}.

(** A server on an empty database that has served no request yet. *)
Definition fresh : Server.World (Meta := Json.object) :=
  {| Server.db := empty; Server.calls := [] |}.

End Sample.

(** * Properties *)

(** ** ORDER BY, LIMIT and OFFSET *)

Section SqlFacts.
Import Sql.
Context {A : Type}.
Implicit Types (l : list A) (leb : A -> A -> bool).

Lemma insert_row_perm leb x l : Permutation (insert_row leb x l) (x :: l).
Proof.
  induction l as [|y l IH]; simpl; [reflexivity|].
  destruct (leb x y); [reflexivity|].
  rewrite IH. apply perm_swap.
Qed.

Lemma order_by_perm leb l : Permutation (order_by leb l) l.
Proof.
  induction l as [|x l IH]; simpl; [reflexivity|].
  rewrite insert_row_perm. now constructor.
Qed.

Lemma order_by_length leb l : List.length (order_by leb l) = List.length l.
Proof. apply Permutation_length, order_by_perm. Qed.

Lemma order_by_In leb l x : In x (order_by leb l) <-> In x l.
Proof.
  split; apply Permutation_in; [|symmetry]; apply order_by_perm.
Qed.

Section Sorted.
Variable leb : A -> A -> bool.
Hypothesis leb_total : forall x y, leb x y = true \/ leb y x = true.
Hypothesis leb_trans : forall x y z, leb x y = true -> leb y z = true -> leb x z = true.

Lemma insert_row_sorted x l :
  StronglySorted (fun a b => leb a b = true) l ->
  StronglySorted (fun a b => leb a b = true) (insert_row leb x l).
Proof.
  induction 1 as [|y l Hs IH Hall]; simpl.
  - repeat constructor.
  - destruct (leb x y) eqn:Hxy.
    + constructor; [now constructor|].
      constructor; [exact Hxy|].
      rewrite Forall_forall in Hall |- *. intros z Hz.
      eapply leb_trans; [exact Hxy|]. now apply Hall.
    + constructor; [exact IH|].
      rewrite Forall_forall in Hall |- *. intros z Hz.
      apply (Permutation_in _ (insert_row_perm leb x l)) in Hz.
      destruct Hz as [<-|Hz]; [|now apply Hall].
      destruct (leb_total x y) as [H|H]; [congruence|exact H].
Qed.

Lemma order_by_sorted l :
  StronglySorted (fun a b => leb a b = true) (order_by leb l).
Proof.
  induction l as [|x l IH]; simpl; [constructor|].
  now apply insert_row_sorted.
Qed.
End Sorted.


Lemma in_firstn n l x : In x (firstn n l) -> In x l.
Proof.
  intros H. rewrite <- (firstn_skipn n l). apply in_or_app. now left.
Qed.

Lemma in_skipn n l x : In x (skipn n l) -> In x l.
Proof.
  intros H. rewrite <- (firstn_skipn n l). apply in_or_app. now right.
Qed.

Lemma window_incl limit offset l x :
  In x (window limit offset l) -> In x l.
Proof.
  unfold window. intros H.
  destruct (limit <? 0).
  - eapply in_skipn; eauto.
  - apply in_firstn in H. eapply in_skipn; eauto.
Qed.

Lemma window_all limit l :
  Z.of_nat (List.length l) <= limit -> window limit 0 l = l.
Proof.
  intros H. unfold window. simpl.
  destruct (limit <? 0) eqn:E; [reflexivity|].
  apply firstn_all2. lia.
Qed.

(** The page of size [L] that starts at row [k * L]. *)
Lemma window_page (L k : nat) l :
  window (Z.of_nat L) (Z.of_nat (k * L)) l = firstn L (skipn (k * L) l).
Proof.
  unfold window.
  destruct (Z.of_nat L <? 0) eqn:E; [apply Z.ltb_lt in E; lia|].
  now rewrite !Nat2Z.id.
Qed.

(** The bounds LIMIT and OFFSET accept. *)
Lemma must_be_int_iff (n : Z) : must_be_int n = true <-> - 2 ^ 63 < n < 2 ^ 63.
Proof. unfold must_be_int. rewrite andb_true_iff, !Z.ltb_lt. tauto. Qed.

Lemma limit_offset_Ok limit offset l :
  - 2 ^ 63 < limit < 2 ^ 63 -> - 2 ^ 63 < offset < 2 ^ 63 ->
  limit_offset limit offset l = Ok (window limit offset l).
Proof.
  intros Hl Ho. apply must_be_int_iff in Hl, Ho. unfold limit_offset.
  now rewrite Hl, Ho.
Qed.

Lemma limit_offset_returns limit offset l rows :
  limit_offset limit offset l = Ok rows ->
  - 2 ^ 63 < limit < 2 ^ 63 /\ - 2 ^ 63 < offset < 2 ^ 63
  /\ rows = window limit offset l.
Proof.
  unfold limit_offset.
  destruct (must_be_int limit) eqn:Hl; [|discriminate].
  destruct (must_be_int offset) eqn:Ho; [|discriminate].
  simpl. intros H. injection H as <-.
  apply must_be_int_iff in Hl, Ho. tauto.
Qed.

Lemma limit_offset_throws limit offset l e :
  limit_offset limit offset l = Throw e ->
  e = SQLITE_MISMATCH
  /\ ~ (- 2 ^ 63 < limit < 2 ^ 63 /\ - 2 ^ 63 < offset < 2 ^ 63).
Proof.
  unfold limit_offset.
  destruct (must_be_int limit) eqn:Hl; destruct (must_be_int offset) eqn:Ho;
    simpl; try discriminate; intros H; injection H as <-;
    (split; [reflexivity|]); intros [H1 H2];
    apply must_be_int_iff in H1, H2; congruence.
Qed.

Lemma pages_concat (L : nat) l (n : nat) :
  List.concat (map (fun k => firstn L (skipn (k * L) l)) (seq 0 n)) = firstn (n * L) l.
Proof.
  induction n as [|n IH].
  - reflexivity.
  - rewrite seq_S, map_app, concat_app, IH. simpl.
    rewrite app_nil_r.
    replace (L + n * L)%nat with (n * L + L)%nat by lia.
    rewrite <- (firstn_skipn (n * L) (firstn (n * L + L) l)).
    rewrite firstn_firstn, skipn_firstn_comm.
    replace (Nat.min (n * L) (n * L + L)) with (n * L)%nat by lia.
    replace (n * L + L - n * L)%nat with L by lia.
    reflexivity.
Qed.

End SqlFacts.

(** ** Listing *)

Section ListFacts.
Import InsightsDatabase.
Context {Meta : Type} {J : JSON Meta}.
Implicit Types (d : Db) (context : option string) (limit offset : Z).

Lemma where_context_filter context tbl :
  where_context context tbl = filter (in_context context) tbl.
Proof.
  unfold where_context, in_context, truthy.
  destruct context as [c|]; simpl.
  - destruct (c =? "")%string; simpl; [|reflexivity].
    symmetry. apply forallb_filter_id. now apply forallb_forall.
  - symmetry. apply forallb_filter_id. now apply forallb_forall.
Qed.

Lemma where_context_In context tbl r :
  In r (where_context context tbl) <-> In r tbl /\ in_context context r = true.
Proof. rewrite where_context_filter. apply filter_In. Qed.


Lemma where_context_some c tbl :
  c <> "" ->
  where_context (Some c) tbl = filter (fun r => (row_context r =? c)%string) tbl.
Proof.
  intros H. unfold where_context, truthy.
  apply String.eqb_neq in H. now rewrite H.
Qed.

Lemma results_page offset total rows :
  results (page (Meta := Meta) offset total rows) = map rowToInsight rows.
Proof. reflexivity. Qed.

Lemma total_page offset total rows :
  InsightsDatabase.total (page (Meta := Meta) offset total rows) = total.
Proof. reflexivity. Qed.

Lemma hasMore_page offset total rows :
  hasMore (page (Meta := Meta) offset total rows)
  = (offset + Z.of_nat (List.length rows) <? total).
Proof. unfold page. cbn [hasMore]. now rewrite length_map. Qed.

Lemma created_at_desc_total f a b :
  created_at_desc f a b = true \/ created_at_desc f b a = true.
Proof. unfold created_at_desc. destruct f; lia. Qed.

Lemma created_at_desc_trans f a b c :
  created_at_desc f a b = true -> created_at_desc f b c = true ->
  created_at_desc f a c = true.
Proof. unfold created_at_desc. destruct f; lia. Qed.

Lemma created_at_desc_newer f a b :
  created_at_desc f a b = true -> row_created_at b <= row_created_at a.
Proof. unfold created_at_desc. destruct f; lia. Qed.

(** The rows a listing ranges over, newest first. *)
Lemma listed_sorted context d :
  StronglySorted (fun a b => row_created_at b <= row_created_at a)
    (listed context d).
Proof.
  unfold listed.
  pose proof (order_by_sorted (created_at_desc (truthy context))
                (created_at_desc_total (truthy context))
                (created_at_desc_trans (truthy context))
                (where_context context (insights d))) as H.
  eapply StronglySorted_ind with (P := fun l => StronglySorted _ l) in H; eauto.
  - constructor.
  - intros a l _ IH Hall. constructor; [exact IH|].
    eapply Forall_impl; [|exact Hall]. intros b Hb.
    now apply created_at_desc_newer in Hb.
Qed.

Lemma count_listed context d :
  Sql.count (where_context context (insights d))
  = Z.of_nat (List.length (listed context d)).
Proof. unfold listed, Sql.count. now rewrite order_by_length. Qed.

(** [list] returns exactly for the bounds LIMIT and OFFSET accept, and
    then the rows of the window with the count of all rows listed. *)
Lemma list_Ok context limit offset d :
  - 2 ^ 63 < limit < 2 ^ 63 -> - 2 ^ 63 < offset < 2 ^ 63 ->
  list (Meta := Meta) context limit offset d
  = Ok (page offset (Z.of_nat (List.length (listed context d)))
          (Sql.window limit offset (listed context d))).
Proof.
  intros Hl Ho. unfold list. fold (listed context d).
  rewrite (limit_offset_Ok _ Hl Ho), count_listed. reflexivity.
Qed.

Lemma list_returns context limit offset d r :
  list (Meta := Meta) context limit offset d = Ok r ->
  - 2 ^ 63 < limit < 2 ^ 63 /\ - 2 ^ 63 < offset < 2 ^ 63
  /\ r = page offset (Z.of_nat (List.length (listed context d)))
            (Sql.window limit offset (listed context d)).
Proof.
  unfold list. fold (listed context d).
  destruct (Sql.limit_offset limit offset (listed context d)) as [rows|e] eqn:Hw;
    [|discriminate].
  intros H. injection H as <-.
  apply limit_offset_returns in Hw. destruct Hw as (Hl & Ho & ->).
  rewrite count_listed. tauto.
Qed.

Lemma list_throws context limit offset d e :
  list (Meta := Meta) context limit offset d = Throw e ->
  e = SQLITE_MISMATCH
  /\ ~ (- 2 ^ 63 < limit < 2 ^ 63 /\ - 2 ^ 63 < offset < 2 ^ 63).
Proof.
  unfold list.
  destruct (Sql.limit_offset limit offset _) as [rows|e'] eqn:Hw; [discriminate|].
  intros H. injection H as <-. now apply limit_offset_throws in Hw.
Qed.

End ListFacts.
Section Listing.
Import InsightsDatabase.
Context {Meta : Type} {J : JSON Meta}.
Implicit Types (d : Db) (context : option string) (limit offset : Z).


(** The page of size [L] number [k] (from 0). *)
Lemma list_page_Ok context d (L k : nat) :
  Z.of_nat L < 2 ^ 63 ->
  Z.of_nat (k * L) < 2 ^ 63 ->
  list (Meta := Meta) context (Z.of_nat L) (Z.of_nat (k * L)) d
  = Ok (page (Z.of_nat (k * L)) (Z.of_nat (List.length (listed context d)))
          (firstn L (skipn (k * L) (listed context d)))).
Proof.
  intros HL Hk. rewrite list_Ok by lia. now rewrite window_page.
Qed.

Lemma page_hasMore (rows : Datatypes.list Row) (L k : nat) :
  hasMore (page (Meta := Meta) (Z.of_nat (k * L)) (Z.of_nat (List.length rows))
             (firstn L (skipn (k * L) rows))) = false
  <-> (List.length rows <= (k + 1) * L)%nat.
Proof.
  rewrite hasMore_page, length_firstn, length_skipn, Z.ltb_ge. lia.
Qed.

Lemma rowToInsight_id (r : Row) : id (rowToInsight (Meta := Meta) r) = row_id r.
Proof. reflexivity. Qed.

Lemma window_sorted (R : Row -> Row -> Prop) limit offset (l : Datatypes.list Row) :
  StronglySorted R l -> StronglySorted R (Sql.window limit offset l).
Proof.
  intros H. unfold Sql.window.
  assert (Hsk : forall n l0, StronglySorted R l0 -> StronglySorted R (skipn n l0)).
  { induction n; intros l0 Hl; simpl; [exact Hl|].
    destruct l0; [constructor|]. apply IHn. now inversion Hl. }
  assert (Hfi : forall n l0, StronglySorted R l0 -> StronglySorted R (firstn n l0)).
  { induction n; intros l0 Hl; simpl; [constructor|].
    destruct l0; [constructor|]. inversion Hl; subst.
    constructor; [now apply IHn|].
    rewrite Forall_forall in *. intros x Hx. apply in_firstn in Hx. auto. }
  destruct (limit <? 0); auto.
Qed.

(** C7.  [list] returns records newest first, and the pages of size [L] at
    offsets 0, L, 2L, ... put end to end are the full ordered record set of
    the context: nothing missing, nothing twice; [hasMore] is false on the
    last of these pages and on no earlier one.  The page size is one LIMIT
    accepts, from 1 to below 2^63, and the pages are those [list] returns,
    at the offsets below 2^63. *)
Theorem list_pages_reconstruct context d (L : nat) :
  (0 < L)%nat ->
  Z.of_nat L < 2 ^ 63 ->
  let full := map (rowToInsight (Meta := Meta)) (listed context d) in
  let N := List.length full in
  let page k :=
    match list (Meta := Meta) context (Z.of_nat L) (Z.of_nat (k * L)) d with
    | Ok r => r
    | Throw _ => {| results := []; total := 0; hasMore := false |}
    end in
  (forall limit offset r,
      list (Meta := Meta) context limit offset d = Ok r ->
      StronglySorted (fun a b => created_at b <= created_at a) (results r))
  /\ Permutation full (map rowToInsight (filter (in_context context) (insights d)))
  /\ (forall k, Z.of_nat (k * L) < 2 ^ 63 ->
        list (Meta := Meta) context (Z.of_nat L) (Z.of_nat (k * L)) d = Ok (page k))
  /\ (forall n, (N <= n * L)%nat -> Z.of_nat ((n - 1) * L) < 2 ^ 63 ->
        List.concat (map (fun k => results (page k)) (seq 0 n)) = full)
  /\ (NoDup (map row_id (insights d)) -> NoDup (map (@id Meta) full))
  /\ (forall k, Z.of_nat (k * L) < 2 ^ 63 ->
        (hasMore (page k) = false <-> (N <= (k + 1) * L)%nat))
  /\ (forall k, (k <= (N - 1) / L)%nat -> Z.of_nat (k * L) < 2 ^ 63 ->
        (hasMore (page k) = false <-> k = ((N - 1) / L)%nat)).
Proof.
  intros HL HLb. cbv zeta. rewrite length_map.
  split; [|split; [|split; [|split; [|split; [|split]]]]].
  - intros limit offset r Hr. apply list_returns in Hr. destruct Hr as (_ & _ & ->).
    rewrite results_page.
    pose proof (window_sorted limit offset (listed_sorted context d)) as Hs.
    induction Hs as [|a l Hs IH Hall]; simpl; constructor; [exact IH|].
    rewrite Forall_forall in *. intros x Hx.
    apply in_map_iff in Hx. destruct Hx as [r [<- Hr]]. simpl. auto.
  - apply Permutation_map. unfold listed.
    rewrite order_by_perm. now rewrite where_context_filter.
  - intros k Hk. now rewrite (@list_page_Ok context d L k HLb Hk).
  - intros n Hn Hb.
    rewrite (map_ext_in _ (fun k => map rowToInsight
                                       (firstn L (skipn (k * L) (listed context d))))).
    2:{ intros k Hk. apply in_seq in Hk.
        assert (Hkb : Z.of_nat (k * L) < 2 ^ 63).
        { assert (k * L <= (n - 1) * L)%nat by (apply Nat.mul_le_mono_r; lia). lia. }
        rewrite (@list_page_Ok context d L k HLb Hkb). apply results_page. }
    rewrite <- (map_map (fun k => firstn L (skipn (k * L) (listed context d)))
                  (map rowToInsight)).
    rewrite <- concat_map, pages_concat.
    now rewrite firstn_all2.
  - intros Hnd. rewrite map_map.
    rewrite (map_ext _ row_id) by reflexivity.
    eapply Permutation_NoDup.
    + apply Permutation_map. symmetry. unfold listed. apply order_by_perm.
    + rewrite where_context_filter.
      clear - Hnd. induction (insights d) as [|r l IH]; simpl; [constructor|].
      inversion Hnd; subst.
      destruct (in_context context r); simpl; [|now apply IH].
      constructor; [|now apply IH].
      intros Hin. apply in_map_iff in Hin. destruct Hin as [r' [He Hr']].
      apply filter_In in Hr'. apply H1. apply in_map_iff. exists r'. tauto.
  - intros k Hk. rewrite (@list_page_Ok context d L k HLb Hk). apply page_hasMore.
  - intros k Hk Hb. rewrite (@list_page_Ok context d L k HLb Hb), page_hasMore.
    set (N := List.length (listed context d)) in *.
    pose proof (Nat.div_mod_eq (N - 1) L) as Hd.
    pose proof (Nat.mod_upper_bound (N - 1) L ltac:(lia)) as Hm.
    set (q := ((N - 1) / L)%nat) in *.
    split.
    + intros H. destruct (Nat.eq_dec k q) as [|Hne]; [assumption|].
      exfalso. assert (k + 1 <= q)%nat by lia. nia.
    + intros ->. nia.
Qed.

End Listing.

(** ** Searching *)

Section SearchFacts.
Import InsightsDatabase.
Context {Meta : Type} {J : JSON Meta} {E : Fts5}.
Implicit Types (d : Db) (context : option string) (limit offset : Z) (query : string).

(** [search] returns for a query the engine accepts and bounds LIMIT and
    OFFSET accept, and then the rows of the window, best rank first, with
    the count of all matches. *)
Lemma search_parsed query e context limit offset d :
  fts5_parse query = Some e ->
  - 2 ^ 63 < limit < 2 ^ 63 -> - 2 ^ 63 < offset < 2 ^ 63 ->
  search (Meta := Meta) query context limit offset d
  = Ok (page offset (Sql.count (where_context context (fts_match e d)))
          (Sql.window limit offset (found e context d))).
Proof.
  intros H Hl Ho. unfold search. rewrite H. fold (found e context d).
  now rewrite (limit_offset_Ok _ Hl Ho).
Qed.

Lemma search_rejected query context limit offset d :
  fts5_parse query = None ->
  search (Meta := Meta) query context limit offset d
  = Throw (SQLITE_ERROR (fts5_error query)).
Proof. intros H. unfold search. now rewrite H. Qed.


Lemma search_returns query context limit offset d r :
  search (Meta := Meta) query context limit offset d = Ok r ->
  exists e, fts5_parse query = Some e
    /\ - 2 ^ 63 < limit < 2 ^ 63 /\ - 2 ^ 63 < offset < 2 ^ 63
    /\ r = page offset (Sql.count (where_context context (fts_match e d)))
             (Sql.window limit offset (found e context d)).
Proof.
  unfold search. destruct (fts5_parse query) as [e|]; [|discriminate].
  fold (found e context d).
  destruct (Sql.limit_offset limit offset (found e context d)) as [rows|err] eqn:Hw;
    [|discriminate].
  intros [= <-]. apply limit_offset_returns in Hw. destruct Hw as (Hl & Ho & ->).
  exists e. tauto.
Qed.

Lemma found_In e context d r :
  In r (found e context d)
  <-> In r (insights d) /\ in_context context r = true
      /\ fts5_eval e (index_terms (postings (insights_fts d)) (row_rowid r)) = true.
Proof.
  unfold found. rewrite order_by_In, where_context_In.
  unfold fts_match. rewrite filter_In. tauto.
Qed.

Lemma found_length e context d :
  List.length (found e context d) = List.length (where_context context (fts_match e d)).
Proof. apply order_by_length. Qed.

End SearchFacts.

(** ** The index under the triggers *)

Section IndexFacts.
Import InsightsDatabase.
Context {E : Fts5}.
Implicit Types (ix : Index) (tbl : Datatypes.list Row) (rowid : Z) (t : Fts5Table).

Lemma index_add_In rowid terms ix p :
  In p (index_add rowid terms ix) <-> In p ix \/ (fst p = rowid /\ In (snd p) terms).
Proof.
  unfold index_add. rewrite in_app_iff, in_map_iff.
  split; intros [H|H]; auto.
  - destruct H as [t [<- Ht]]. now right.
  - right. destruct p as [r t]; simpl in *. destruct H as [<- Ht]. now exists t.
Qed.

Lemma index_remove_other rowid terms ix p :
  fst p <> rowid -> (In p (index_remove rowid terms ix) <-> In p ix).
Proof.
  intros H. unfold index_remove. rewrite filter_In.
  apply Z.eqb_neq in H. rewrite H. simpl. tauto.
Qed.

Lemma content_row_Some tbl r :
  In r tbl -> exists r0, content_row tbl (row_rowid r) = Some r0.
Proof.
  intros H. unfold content_row.
  destruct (find (fun r0 => row_rowid r0 =? row_rowid r) tbl) as [r0|] eqn:F.
  - now exists r0.
  - apply (find_none _ _ F) in H. rewrite Z.eqb_refl in H. discriminate.
Qed.

Lemma content_row_None tbl rowid :
  ~ In rowid (map row_rowid tbl) -> content_row tbl rowid = None.
Proof.
  intros H. unfold content_row.
  destruct (find (fun r0 => row_rowid r0 =? rowid) tbl) as [r0|] eqn:F; [|reflexivity].
  apply find_some in F. destruct F as [Hin Heq]. apply Z.eqb_eq in Heq.
  exfalso. apply H. apply in_map_iff. now exists r0.
Qed.

Lemma content_row_rowid tbl rowid r0 :
  content_row tbl rowid = Some r0 -> In r0 tbl /\ row_rowid r0 = rowid.
Proof.
  unfold content_row. intros F. apply find_some in F.
  destruct F as [Hin Heq]. apply Z.eqb_eq in Heq. tauto.
Qed.

(** With unique rowids the content table answers with the row itself. *)
Lemma content_row_unique tbl r :
  NoDup (map row_rowid tbl) -> In r tbl -> content_row tbl (row_rowid r) = Some r.
Proof.
  intros Hnd Hr. destruct (content_row_Some tbl r Hr) as [r0 H0].
  rewrite H0. f_equal.
  apply content_row_rowid in H0. destruct H0 as [Hin Heq].
  revert Hnd Hr Hin Heq. clear. induction tbl as [|x l IH]; simpl; [tauto|].
  intros Hnd Hr Hin Heq. inversion Hnd as [|? ? Hn Hnd']; subst.
  destruct Hr as [->|Hr], Hin as [->|Hin]; auto.
  - exfalso. apply Hn. rewrite <- Heq. now apply in_map.
  - exfalso. apply Hn. rewrite Heq. now apply in_map.
Qed.

Lemma storage_delete_Ok r t t' :
  storage_delete r t = Ok t' ->
  postings t' = index_remove (row_rowid r) (row_terms r) (postings t)
  /\ nTotalRow t' = nTotalRow t - 1
  /\ aTotalSize t'
     = (fst (aTotalSize t) - fst (doc_size (row_content r) (row_metadata r)),
        snd (aTotalSize t) - snd (doc_size (row_content r) (row_metadata r))).
Proof.
  unfold storage_delete.
  destruct (_ || _ || _); [discriminate|]. intros [= <-]. simpl. auto.
Qed.

(** The engine refuses to remove a document only when its totals are too
    small for it. *)
Lemma storage_delete_covered r t :
  fst (doc_size (row_content r) (row_metadata r)) <= fst (aTotalSize t) ->
  snd (doc_size (row_content r) (row_metadata r)) <= snd (aTotalSize t) ->
  1 <= nTotalRow t ->
  exists t', storage_delete r t = Ok t'.
Proof.
  intros H0 H1 Hn. unfold storage_delete.
  apply Z.ltb_ge in H0, H1, Hn. rewrite H0, H1, Hn. simpl. eauto.
Qed.

(** The UPDATE of the index leaves the postings of other rowids alone and
    posts the new terms. *)
Lemma fts_update_other tbl rowid c m t t' p :
  fts_update tbl rowid c m t = Ok t' ->
  fst p <> rowid -> (In p (postings t') <-> In p (postings t)).
Proof.
  unfold fts_update. intros Hu H.
  destruct (content_row tbl rowid) as [r0|] eqn:F; [|now injection Hu as <-].
  apply content_row_rowid in F. destruct F as [_ F].
  destruct (storage_delete r0 t) as [t0|] eqn:Hd; [|discriminate].
  injection Hu as <-. apply storage_delete_Ok in Hd. destruct Hd as (Hp & _ & _).
  simpl. rewrite index_add_In, Hp, index_remove_other by congruence. tauto.
Qed.

Lemma fts_update_posts tbl r c m t t' x :
  fts_update tbl (row_rowid r) c m t = Ok t' ->
  In r tbl -> In x (doc_terms c m) ->
  In (row_rowid r, x) (postings t').
Proof.
  unfold fts_update. intros Hu Hr Hx.
  destruct (content_row_Some tbl r Hr) as [r0 F]. rewrite F in Hu.
  destruct (storage_delete r0 t) as [t0|]; [|discriminate].
  injection Hu as <-. simpl. apply index_add_In. now right.
Qed.

(** Rewriting a row with the text the content table already shows for it
    leaves the totals of the index as they were. *)
Lemma fts_update_totals tbl r t t' :
  NoDup (map row_rowid tbl) -> In r tbl ->
  fts_update tbl (row_rowid r) (row_content r) (row_metadata r) t = Ok t' ->
  nTotalRow t' = nTotalRow t /\ aTotalSize t' = aTotalSize t.
Proof.
  intros Hnd Hr. unfold fts_update. rewrite content_row_unique by assumption.
  destruct (storage_delete r t) as [t0|] eqn:Hd; [|discriminate].
  intros [= <-]. apply storage_delete_Ok in Hd. destruct Hd as (_ & Hn & Hs).
  simpl. rewrite Hn, Hs. simpl. split; [lia|].
  destruct (aTotalSize t) as [a b]. simpl. f_equal; lia.
Qed.

(** The DELETE of the index finds no row to read once the row is gone. *)
Lemma fts_delete_gone tbl rowid t :
  ~ In rowid (map row_rowid tbl) -> fts_delete tbl rowid t = Ok t.
Proof. intros H. unfold fts_delete. now rewrite content_row_None. Qed.

Lemma index_terms_In ix rowid (x : string) :
  In x (index_terms ix rowid) <-> In (rowid, x) ix.
Proof.
  unfold index_terms. rewrite in_map_iff. split.
  - intros [[r x'] [Hx Hp]]. simpl in Hx. subst x'.
    apply filter_In in Hp. destruct Hp as [Hp Hr]. simpl in Hr.
    apply Z.eqb_eq in Hr. now subst.
  - intros H. exists (rowid, x). split; [reflexivity|].
    apply filter_In. split; [assumption|]. simpl. apply Z.eqb_refl.
Qed.

Lemma next_rowid_above tbl r : In r tbl -> row_rowid r < next_rowid tbl.
Proof.
  unfold next_rowid. induction tbl as [|r0 tbl IH]; simpl; [tauto|].
  intros [->|H]; [lia|]. specialize (IH H). lia.
Qed.

Lemma next_rowid_fresh tbl : ~ In (next_rowid tbl) (map row_rowid tbl).
Proof.
  intros H. apply in_map_iff in H. destruct H as [r [He Hr]].
  apply next_rowid_above in Hr. lia.
Qed.

Lemma has_id_true i r : has_id i r = true <-> row_id r = i.
Proof. unfold has_id. apply String.eqb_eq. Qed.

Lemma has_id_false i r : has_id i r = false <-> row_id r <> i.
Proof. unfold has_id. apply String.eqb_neq. Qed.

Lemma select_fresh i d :
  select_by_id i d = None <-> existsb (has_id i) (insights d) = false.
Proof.
  unfold select_by_id. induction (insights d) as [|r l IH]; simpl; [tauto|].
  destruct (has_id i r); simpl; [split; discriminate|exact IH].
Qed.

Lemma select_fresh_notin i d :
  select_by_id i d = None <-> ~ In i (map row_id (insights d)).
Proof.
  unfold select_by_id. split.
  - intros F H. apply in_map_iff in H. destruct H as [r [He Hr]].
    apply (find_none _ _ F) in Hr. apply has_id_false in Hr. contradiction.
  - intros H. destruct (find (has_id i) (insights d)) as [r|] eqn:F; [|reflexivity].
    apply find_some in F. destruct F as [Hr Hi]. apply has_id_true in Hi.
    exfalso. apply H. apply in_map_iff. now exists r.
Qed.

(** With a unique key, [WHERE id = ?] selects the row the key belongs to. *)
Lemma select_unique d r :
  NoDup (map row_id (insights d)) -> In r (insights d) ->
  select_by_id (row_id r) d = Some r.
Proof.
  unfold select_by_id. induction (insights d) as [|r0 l IH]; simpl; [tauto|].
  intros Hnd Hin. inversion Hnd as [|? ? Hn Hnd']; subst.
  destruct (has_id (row_id r) r0) eqn:Hid.
  - destruct Hin as [->|Hin]; [reflexivity|].
    apply has_id_true in Hid. exfalso. apply Hn. rewrite Hid.
    apply in_map_iff. now exists r.
  - destruct Hin as [->|Hin]; [|now apply IH].
    apply has_id_false in Hid. contradiction.
Qed.

Lemma filter_unique i tbl :
  NoDup (map row_id tbl) ->
  filter (has_id i) tbl = [] \/ exists r, filter (has_id i) tbl = [r].
Proof.
  induction tbl as [|r0 l IH]; simpl; [now left|].
  intros Hnd. inversion Hnd as [|? ? Hn Hnd']; subst.
  destruct (has_id i r0) eqn:Hid; [|now apply IH].
  right. exists r0. f_equal.
  apply has_id_true in Hid.
  clear IH Hnd Hnd'. induction l as [|r1 l IH]; simpl; [reflexivity|].
  destruct (has_id i r1) eqn:H1.
  - apply has_id_true in H1. exfalso. apply Hn. left. congruence.
  - apply IH. intros H. apply Hn. now right.
Qed.

End IndexFacts.

(** ** What every history preserves *)

Section Consistency.
Import InsightsDatabase.
Context {Meta : Type} {J : JSON Meta} {E : Fts5}.
Implicit Types (d : Db) (tbl : Datatypes.list Row).

Lemma NoDup_map_inj {A B} (f : A -> B) (l : Datatypes.list A) a b :
  NoDup (map f l) -> In a l -> In b l -> f a = f b -> a = b.
Proof.
  induction l as [|x l IH]; simpl; [tauto|].
  intros Hnd Ha Hb Hf. inversion Hnd as [|? ? Hn Hnd']; subst.
  destruct Ha as [->|Ha], Hb as [->|Hb]; auto.
  - exfalso. apply Hn. rewrite Hf. now apply in_map.
  - exfalso. apply Hn. rewrite <- Hf. now apply in_map.
Qed.

Lemma NoDup_map_filter {A B} (f : A -> B) (p : A -> bool) (l : Datatypes.list A) :
  NoDup (map f l) -> NoDup (map f (filter p l)).
Proof.
  induction l as [|x l IH]; simpl; [constructor|].
  intros Hnd. inversion Hnd as [|? ? Hn Hnd']; subst.
  destruct (p x); simpl; [|now apply IH].
  constructor; [|now apply IH].
  intros H. apply Hn. apply in_map_iff in H. destruct H as [y [He Hy]].
  apply filter_In in Hy. apply in_map_iff. exists y. tauto.
Qed.

Lemma filter_shorter {A} (p : A -> bool) (l : Datatypes.list A) :
  (List.length (filter p l) <= List.length l)%nat.
Proof. induction l as [|x l IH]; simpl; [lia|]. destruct (p x); simpl; lia. Qed.

Lemma consistent_empty : consistent empty.
Proof.
  repeat split; simpl; try constructor; try lia. intros r t [].
Qed.

Lemma insert_insights_consistent i c ctx m created updated d d' :
  consistent d -> insert_insights i c ctx m created updated d = Ok d' -> consistent d'.
Proof.
  intros (Hrow & Hid & Hix & Hn). unfold insert_insights.
  destruct (existsb (has_id i) (insights d)) eqn:Hex; [discriminate|].
  intros [= <-]. unfold insights_ai, fts_insert, storage_insert; simpl.
  apply select_fresh in Hex. apply select_fresh_notin in Hex.
  repeat split; simpl.
  - rewrite map_app. simpl.
    eapply Permutation_NoDup; [apply Permutation_cons_append|].
    constructor; [apply next_rowid_fresh|assumption].
  - rewrite map_app. simpl.
    eapply Permutation_NoDup; [apply Permutation_cons_append|].
    now constructor.
  - intros r t Hr Ht. simpl in *. apply index_add_In.
    apply in_app_iff in Hr. destruct Hr as [Hr|[<-|[]]].
    + left. now apply Hix.
    + right. simpl. split; [reflexivity|exact Ht].
  - rewrite length_app. simpl. lia.
Qed.

Lemma set_row_rowids c m updated i tbl :
  map row_rowid (map (fun r => if has_id i r then set_row c m updated r else r) tbl)
  = map row_rowid tbl.
Proof. rewrite map_map. apply map_ext. intros r. now destruct (has_id i r). Qed.

Lemma set_row_ids c m updated i tbl :
  map row_id (map (fun r => if has_id i r then set_row c m updated r else r) tbl)
  = map row_id tbl.
Proof. rewrite map_map. apply map_ext. intros r. now destruct (has_id i r). Qed.

(** The triggers write to the index only. *)
Lemma for_each_row_table (trigger : Row -> Db -> result Db) rows d d' :
  (forall r d0 d1, trigger r d0 = Ok d1 -> insights d1 = insights d0) ->
  for_each_row trigger rows d = Ok d' -> insights d' = insights d.
Proof.
  intros Htr. revert d. induction rows as [|r rows IH]; intros d; simpl.
  - now intros [= <-].
  - destruct (trigger r d) as [d1|] eqn:H1; [|discriminate].
    intros H. rewrite (IH _ H). eapply Htr; eauto.
Qed.

Lemma insights_au_table new d d' : insights_au new d = Ok d' -> insights d' = insights d.
Proof.
  unfold insights_au. destruct (fts_update _ _ _ _ _); [|discriminate].
  now intros [= <-].
Qed.

Lemma update_insights_table c m updated i d d' :
  update_insights c m updated i d = Ok d' ->
  insights d'
  = map (fun r => if has_id i r then set_row c m updated r else r) (insights d).
Proof.
  unfold update_insights. intros H.
  apply for_each_row_table in H; [exact H|]. intros r d0 d1. apply insights_au_table.
Qed.

(** The rows [UPDATE ... WHERE id = ?] changes: none, or the one row of
    that id, rewritten. *)
Lemma updated_rows c m updated i d :
  NoDup (map row_id (insights d)) ->
  let tbl := map (fun r => if has_id i r then set_row c m updated r else r) (insights d) in
  match select_by_id i d with
  | None => filter (has_id i) tbl = []
  | Some r => filter (has_id i) tbl = [set_row c m updated r] /\ In (set_row c m updated r) tbl
  end.
Proof.
  intros Hid tbl.
  assert (Hid' : NoDup (map row_id tbl)) by (unfold tbl; now rewrite set_row_ids).
  destruct (select_by_id i d) as [r|] eqn:Hsel.
  - assert (Hin : In (set_row c m updated r) (filter (has_id i) tbl)).
    { unfold select_by_id in Hsel. apply find_some in Hsel. destruct Hsel as [Hr Hi].
      apply filter_In. split; [|exact Hi].
      unfold tbl. apply in_map_iff. exists r. now rewrite Hi. }
    destruct (filter_unique i tbl Hid') as [Hnone|[new Hone]].
    + rewrite Hnone in Hin. destruct Hin.
    + rewrite Hone in Hin. destruct Hin as [<-|[]].
      split; [exact Hone|].
      assert (H : In new (filter (has_id i) tbl)) by (rewrite Hone; now left).
      now apply filter_In in H.
  - destruct (filter (has_id i) tbl) as [|x l] eqn:Hf; [reflexivity|].
    assert (Hx : In x (filter (has_id i) tbl)) by (rewrite Hf; now left).
    apply filter_In in Hx. destruct Hx as [Hx Hi].
    unfold tbl in Hx. apply in_map_iff in Hx. destruct Hx as [r [He Hr]].
    unfold select_by_id in Hsel. apply (find_none _ _ Hsel) in Hr.
    rewrite Hr in He. subst x. congruence.
Qed.

Lemma update_insights_consistent c m updated i d d' :
  consistent d -> update_insights c m updated i d = Ok d' -> consistent d'.
Proof.
  intros (Hrow & Hid & Hix & Hn) Hup.
  pose proof (update_insights_table _ _ _ _ _ Hup) as Htbl.
  pose proof (updated_rows c m updated i d Hid) as Hrows. cbv zeta in Hrows.
  unfold update_insights in Hup.
  set (tbl := map (fun r => if has_id i r then set_row c m updated r else r) (insights d)) in *.
  assert (Hrow' : NoDup (map row_rowid tbl)) by (unfold tbl; now rewrite set_row_rowids).
  assert (Hold : forall r, In r tbl -> has_id i r = false -> In r (insights d)).
  { intros r0 Hr0 Hf. unfold tbl in Hr0. apply in_map_iff in Hr0.
    destruct Hr0 as [r1 [He Hr1]]. destruct (has_id i r1) eqn:H1.
    - subst r0. unfold has_id in *. simpl in Hf. congruence.
    - now subst. }
  assert (Hlen : List.length tbl = List.length (insights d)) by (unfold tbl; apply length_map).
  destruct (select_by_id i d) as [r0|].
  - destruct Hrows as [Hone Hnew]. rewrite Hone in Hup.
    set (new := set_row c m updated r0) in *.
    cbn [for_each_row] in Hup.
    destruct (insights_au new {| insights := tbl; insights_fts := insights_fts d |})
      as [d1|] eqn:Hau; [|discriminate].
    injection Hup as ->. unfold insights_au in Hau. cbn [insights insights_fts] in Hau.
    destruct (fts_update tbl (row_rowid new) (row_content new) (row_metadata new)
                (insights_fts d)) as [t'|] eqn:Hfts; [|discriminate].
    injection Hau as <-. simpl in Htbl |- *.
    repeat split; simpl.
    + exact Hrow'.
    + unfold tbl. now rewrite set_row_ids.
    + intros r x Hr Hx. simpl in *.
      destruct (Z.eq_dec (row_rowid r) (row_rowid new)) as [Heq|Hne].
      * assert (r = new) by exact (NoDup_map_inj row_rowid _ r new Hrow' Hr Hnew Heq).
        subst r. eapply fts_update_posts; eauto.
      * apply (proj2 (@fts_update_other _ _ _ _ _ _ _ (row_rowid r, x) Hfts Hne)).
        apply Hix; [|exact Hx]. apply Hold; [exact Hr|].
        destruct (has_id i r) eqn:Hi; [|reflexivity].
        assert (Hin : In r (filter (has_id i) tbl)) by (apply filter_In; tauto).
        rewrite Hone in Hin. destruct Hin as [<-|[]]. contradiction.
    + destruct (fts_update_totals _ _ _ Hrow' Hnew Hfts) as [-> _]. lia.
  - rewrite Hrows in Hup. simpl in Hup. injection Hup as <-.
    repeat split; simpl.
    + exact Hrow'.
    + unfold tbl. now rewrite set_row_ids.
    + intros r x Hr Hx. simpl in *. apply Hix; [|exact Hx].
      apply Hold; [exact Hr|].
      destruct (has_id i r) eqn:Hi; [|reflexivity].
      assert (Hin : In r (filter (has_id i) tbl)) by (apply filter_In; tauto).
      rewrite Hrows in Hin. destruct Hin.
    + lia.
Qed.

(** The UPDATE goes through when the totals of the index cover the new
    text. *)
Lemma update_insights_completes c m updated i d :
  consistent d -> covers d c m ->
  exists d', update_insights c m updated i d = Ok d'.
Proof.
  intros (Hrow & Hid & Hix & Hn) [Hc0 Hc1].
  pose proof (updated_rows c m updated i d Hid) as Hrows. cbv zeta in Hrows.
  unfold update_insights.
  set (tbl := map (fun r => if has_id i r then set_row c m updated r else r) (insights d)) in *.
  assert (Hrow' : NoDup (map row_rowid tbl)) by (unfold tbl; now rewrite set_row_rowids).
  assert (Hlen : List.length tbl = List.length (insights d)) by (unfold tbl; apply length_map).
  destruct (select_by_id i d) as [r0|].
  - destruct Hrows as [Hone Hnew]. rewrite Hone.
    cbn [for_each_row]. unfold insights_au. cbn [insights insights_fts].
    unfold fts_update. rewrite (content_row_unique tbl _ Hrow' Hnew).
    destruct (storage_delete_covered (set_row c m updated r0) (insights_fts d))
      as [t' Ht']; try assumption.
    + destruct tbl; [destruct Hnew|]. simpl in Hlen. lia.
    + rewrite Ht'. eauto.
  - rewrite Hrows. simpl. eauto.
Qed.

Lemma insights_ad_table old d d' : insights_ad old d = Ok d' -> insights d' = insights d.
Proof.
  unfold insights_ad. destruct (fts_delete _ _ _); [|discriminate].
  now intros [= <-].
Qed.

(** With unique rowids the DELETE trigger finds the row gone and leaves
    the index as it was. *)
Lemma delete_insights_Ok i d :
  NoDup (map row_rowid (insights d)) ->
  delete_insights i d
  = Ok ({| insights := filter (fun r => negb (has_id i r)) (insights d);
           insights_fts := insights_fts d |},
        Sql.count (filter (has_id i) (insights d))).
Proof.
  intros Hrow. unfold delete_insights.
  set (tbl := filter (fun r => negb (has_id i r)) (insights d)).
  assert (Hgone : forall old, In old (filter (has_id i) (insights d)) ->
                              ~ In (row_rowid old) (map row_rowid tbl)).
  { intros old Hold Hin. apply filter_In in Hold. destruct Hold as [Hold Hi].
    apply in_map_iff in Hin. destruct Hin as [r [He Hr]].
    unfold tbl in Hr. apply filter_In in Hr. destruct Hr as [Hr Hni].
    assert (r = old) by exact (NoDup_map_inj row_rowid _ r old Hrow Hr Hold He).
    subst r. rewrite Hi in Hni. discriminate. }
  assert (Hfold : for_each_row insights_ad (filter (has_id i) (insights d))
                    {| insights := tbl; insights_fts := insights_fts d |}
                  = Ok {| insights := tbl; insights_fts := insights_fts d |}).
  { revert Hgone.
    induction (filter (has_id i) (insights d)) as [|old l IH]; intros Hgone; simpl.
    - reflexivity.
    - unfold insights_ad at 1. simpl.
      rewrite fts_delete_gone by (apply Hgone; now left).
      apply IH. intros; apply Hgone; now right. }
  now rewrite Hfold.
Qed.

Lemma delete_insights_consistent i d d' changes :
  consistent d -> delete_insights i d = Ok (d', changes) -> consistent d'.
Proof.
  intros (Hrow & Hid & Hix & Hn). rewrite delete_insights_Ok by assumption.
  intros [= <- _].
  repeat split; simpl.
  - now apply NoDup_map_filter.
  - now apply NoDup_map_filter.
  - intros r t Hr Ht. simpl in *. apply filter_In in Hr. apply Hix; tauto.
  - pose proof (filter_shorter (fun r => negb (has_id i r)) (insights d)). lia.
Qed.

Lemma step_consistent d (o : Op (Meta := Meta)) : consistent d -> consistent (step d o).
Proof.
  intros H. destruct o as [i now c ctx m|i now u|i]; unfold step.
  - unfold save.
    destruct (insert_insights i c ctx (option_map JSON_stringify m) now now d) as [d'|e] eqn:Hins;
      [|exact H].
    eapply insert_insights_consistent; eauto.
  - unfold update. destruct (get i d); [|exact H].
    match goal with |- context [update_insights ?c ?m ?n ?i ?d] =>
      destruct (update_insights c m n i d) as [d'|e] eqn:Hup end; [|exact H].
    eapply update_insights_consistent; eauto.
  - unfold delete.
    destruct (delete_insights i d) as [[d' changes]|e] eqn:Hd; [|exact H].
    eapply delete_insights_consistent; eauto.
Qed.

Lemma run_consistent (ops : Datatypes.list (Op (Meta := Meta))) d :
  consistent d -> consistent (run ops d).
Proof.
  revert d. induction ops as [|o ops IH]; intros d H; simpl; [exact H|].
  apply IH. now apply step_consistent.
Qed.

(** A record a search returns is the row its id selects. *)
Lemma get_row d r :
  NoDup (map row_id (insights d)) -> In r (insights d) ->
  get (Meta := Meta) (row_id r) d = Some (rowToInsight r).
Proof. intros Hid Hr. unfold get. now rewrite select_unique. Qed.

End Consistency.

(** ** The plain-word engine *)

Section BarewordsFacts.
Import Barewords.

Lemma runs_agree (keep1 keep2 : ascii -> bool) s cur :
  (forall c, In c (list_ascii_of_string s) -> keep1 c = keep2 c) ->
  runs keep1 s cur = runs keep2 s cur.
Proof.
  revert cur. induction s as [|c s IH]; intros cur H; simpl; [reflexivity|].
  rewrite <- (H c) by now left.
  destruct (keep1 c); [|f_equal]; apply IH; intros; apply H; now right.
Qed.

(** A query the model accepts is read as the terms the tokenizer finds in
    the same text. *)
Lemma parse_tokenize query e : parse query = Some e -> e = tokenize query.
Proof.
  unfold parse, plain_words, tokenize.
  destruct (forallb _ (list_ascii_of_string query)) eqn:Hall; [|discriminate].
  rewrite forallb_forall in Hall.
  rewrite (runs_agree is_term_char is_alnum).
  - simpl. destruct (match runs is_alnum query EmptyString with
                     | [] => false
                     | _ => _
                     end); [|discriminate].
    now intros [= <-].
  - intros c Hc. specialize (Hall c Hc). unfold is_term_char.
    destruct (is_alnum c); [reflexivity|]. simpl in *.
    unfold is_space in Hall.
    repeat (apply orb_true_iff in Hall; destruct Hall as [Hall|Hall]);
      apply Nat.eqb_eq in Hall; rewrite Hall; reflexivity.
Qed.

(** Plain words are a query the engine accepts, read as the terms of the
    text. *)
Lemma parse_plain_words query :
  plain_words query = true -> parse query = Some (tokenize query).
Proof.
  intros H. unfold parse. rewrite H.
  f_equal. apply parse_tokenize. unfold parse. now rewrite H.
Qed.

Lemma eval_incl e posted : incl e posted -> eval e posted = true.
Proof.
  intros H. unfold eval. apply forallb_forall. intros t Ht.
  apply existsb_exists. exists t. split; [now apply H|apply String.eqb_refl].
Qed.

End BarewordsFacts.

(** ** The store *)

Section StoreFacts.
Import InsightsDatabase.
Context {Meta : Type} {J : JSON Meta} {E : Fts5}.
Implicit Types (d : Db) (context : option string) (limit offset : Z) (query : string).

Lemma found_shorter e context d :
  (List.length (found e context d) <= List.length (insights d))%nat.
Proof.
  rewrite found_length, where_context_filter. unfold fts_match.
  etransitivity; apply filter_shorter.
Qed.

(** A search returns a live record whose posted terms satisfy the query,
    when the filter admits the record and the window covers the table. *)
Lemma search_finds d r query e context limit :
  indexed d -> In r (insights d) ->
  fts5_parse query = Some e ->
  (forall posted, incl (row_terms r) posted -> fts5_eval e posted = true) ->
  in_context context r = true ->
  Z.of_nat (List.length (insights d)) <= limit < 2 ^ 63 ->
  exists res, search (Meta := Meta) query context limit 0 d = Ok res
              /\ In (rowToInsight r) (results res).
Proof.
  intros Hix Hr Hq Hsat Hctx Hlim.
  erewrite search_parsed; [|eassumption|lia|lia]. eexists. split; [reflexivity|].
  rewrite results_page. apply in_map.
  rewrite window_all by (pose proof (found_shorter e context d); lia).
  apply found_In. repeat split; try assumption.
  apply Hsat. intros t Ht. apply index_terms_In. now apply Hix.
Qed.

(** Whatever a search returns is a live record: [get] on its id returns it. *)
Lemma search_live d query context limit offset res i :
  NoDup (map row_id (insights d)) ->
  search (Meta := Meta) query context limit offset d = Ok res ->
  In i (results res) -> get (InsightsDatabase.id i) d = Some i.
Proof.
  intros Hid Hs Hi. apply search_returns in Hs. destruct Hs as (e & _ & _ & _ & ->).
  rewrite results_page in Hi. apply in_map_iff in Hi. destruct Hi as [r [<- Hr]].
  apply window_incl in Hr. apply found_In in Hr.
  rewrite rowToInsight_id. apply get_row; tauto.
Qed.

Lemma metadata_round_trip (m : option Meta) :
  json_safe_opt m ->
  (if truthy (option_map JSON_stringify m)
   then Some (JSON_parse (nullish (option_map JSON_stringify m) EmptyString))
   else None) = m.
Proof.
  destruct m as [x|]; simpl; [|reflexivity].
  intros [Hne Hrt]. apply String.eqb_neq in Hne. rewrite Hne. simpl. now rewrite Hrt.
Qed.

Lemma find_last {A} (p : A -> bool) (l : Datatypes.list A) x :
  find p l = None -> p x = true -> find p (l ++ [x]) = Some x.
Proof.
  induction l as [|y l IH]; simpl; intros Hn Hx; [now rewrite Hx|].
  destruct (p y); [discriminate|]. now apply IH.
Qed.

Lemma find_set_row c m updated i tbl r :
  find (has_id i) tbl = Some r ->
  find (has_id i) (map (fun r => if has_id i r then set_row c m updated r else r) tbl)
  = Some (set_row c m updated r).
Proof.
  induction tbl as [|r0 l IH]; simpl; [discriminate|].
  destruct (has_id i r0) eqn:H0.
  - intros [= <-]. unfold has_id in *. simpl. now rewrite H0.
  - rewrite H0. exact IH.
Qed.

Lemma get_inv i d (old : Insight Meta) :
  get i d = Some old ->
  exists r, select_by_id i d = Some r /\ old = rowToInsight r /\ row_id r = i.
Proof.
  unfold get. destruct (select_by_id i d) as [r|] eqn:F; [|discriminate].
  intros [= <-]. exists r. repeat split.
  unfold select_by_id in F. apply find_some in F. now apply has_id_true.
Qed.

(** [update] returns when the totals of the index cover the text the row
    is to hold. *)
Lemma update_completes i now (u : Updates (Meta := Meta)) d (old : Insight Meta) :
  consistent d ->
  get i d = Some old ->
  covers d (nullish (upd_content u) (content old))
    (option_map JSON_stringify
       (match upd_metadata u with Some x => Some x | None => metadata old end)) ->
  exists ret d', update i now u d = Ok (ret, d').
Proof.
  intros Hc Hget Hcov. unfold update. rewrite Hget.
  destruct (update_insights_completes now i Hc Hcov) as [d' ->]. eauto.
Qed.

End StoreFacts.

(** ** Create, read, update *)

Section Crud.
Import InsightsDatabase.
Context {Meta : Type} {J : JSON Meta} {E : Fts5}.
Implicit Types (d : Db) (m : option Meta).


(** C5.  Partial update of an existing record whose metadata survives
    serialization, whenever [update] returns: updating the content alone
    leaves the metadata as it was, updating the metadata alone leaves the
    content as it was and puts the new object in place of the old one; in
    both cases [id], [context] and [created_at] stay and [updated_at]
    becomes [now], the time of the update -- later than before when the
    clock has advanced.  The record returned and the record stored agree. *)
Theorem update_frame (i : string) (now : Z) d (old : Insight Meta) :
  get i d = Some old ->
  json_safe_opt (metadata old) ->
  (forall x ret d',
      update i now {| upd_content := Some x; upd_metadata := None |} d = Ok (ret, d') ->
      let new := {| id := id old; content := x; context := context old;
                    metadata := metadata old;
                    created_at := created_at old; updated_at := now |} in
      ret = Some new /\ get i d' = Some new)
  /\ (forall x ret d',
        json_safe x ->
        update i now {| upd_content := None; upd_metadata := Some x |} d = Ok (ret, d') ->
        let new := {| id := id old; content := content old; context := context old;
                      metadata := Some x;
                      created_at := created_at old; updated_at := now |} in
        ret = Some new /\ get i d' = Some new)
  /\ (forall u ret d',
        update i now u d = Ok (ret, d') ->
        exists new, ret = Some new
          /\ id new = id old /\ context new = context old
          /\ created_at new = created_at old
          /\ updated_at new = now
          /\ (updated_at old < now -> updated_at old < updated_at new)).
Proof.
  intros Hget Hsafe.
  destruct (get_inv _ _ Hget) as [r [Hsel [-> Hid]]].
  assert (Hstored : forall c' m' d',
             json_safe_opt m' ->
             update_insights c' (option_map JSON_stringify m') now i d = Ok d' ->
             get (Meta := Meta) i d'
             = Some {| id := row_id r; content := c'; context := row_context r;
                       metadata := m'; created_at := row_created_at r;
                       updated_at := now |}).
  { intros c' m' d' Hm' Hup. unfold get, select_by_id.
    rewrite (update_insights_table _ _ _ _ _ Hup).
    rewrite (find_set_row _ _ _ _ _ Hsel).
    unfold rowToInsight. simpl. now rewrite metadata_round_trip. }
  split; [|split].
  - intros x ret d'. cbv zeta. unfold update. rewrite Hget. simpl.
    match goal with |- context [update_insights ?c ?m ?n ?i ?d] =>
      destruct (update_insights c m n i d) as [d1|e] eqn:Hup end; [|discriminate].
    intros [= <- <-]. split; [reflexivity|]. now apply Hstored.
  - intros x ret d' Hx. cbv zeta. unfold update. rewrite Hget. simpl.
    match goal with |- context [update_insights ?c ?m ?n ?i ?d] =>
      destruct (update_insights c m n i d) as [d1|e] eqn:Hup end; [|discriminate].
    intros [= <- <-]. split; [reflexivity|]. now apply (Hstored _ (Some x)).
  - intros u ret d'. unfold update. rewrite Hget. simpl.
    match goal with |- context [update_insights ?c ?m ?n ?i ?d] =>
      destruct (update_insights c m n i d) as [d1|e] eqn:Hup end; [|discriminate].
    intros [= <- <-]. eexists. split; [reflexivity|]. simpl. tauto.
Qed.

End Crud.

(** ** Context filters and search outcomes *)

Section Filters.
Import InsightsDatabase.
Context {Meta : Type} {J : JSON Meta} {E : Fts5}.
Implicit Types (d : Db) (context : option string) (limit offset : Z) (query : string).

Lemma rowToInsight_context (r : Row) :
  InsightsDatabase.context (rowToInsight (Meta := Meta) r) = row_context r.
Proof. reflexivity. Qed.

(** C9.  Context isolation: with a non-empty context [A], [list] and
    [search] return only records whose context is [A] -- none created
    under another context -- and [total] counts only rows of context [A]:
    all of them for [list], those the query matches for [search].  Both
    return a page for every limit and offset LIMIT and OFFSET accept,
    [search] when the engine accepts the query. *)
Theorem context_isolation (A : string) limit offset d :
  A <> EmptyString ->
  (forall res,
      list (Meta := Meta) (Some A) limit offset d = Ok res ->
      (forall i, In i (results res) -> InsightsDatabase.context i = A)
      /\ total res
         = Z.of_nat (List.length
             (filter (fun r => (row_context r =? A)%string) (insights d))))
  /\ (forall query res,
        search (Meta := Meta) query (Some A) limit offset d = Ok res ->
        (forall i, In i (results res) -> InsightsDatabase.context i = A)
        /\ exists e, fts5_parse query = Some e
             /\ total res
                = Z.of_nat (List.length
                    (filter (fun r => (row_context r =? A)%string) (fts_match e d))))
  /\ (- 2 ^ 63 < limit < 2 ^ 63 -> - 2 ^ 63 < offset < 2 ^ 63 ->
      (exists res, list (Meta := Meta) (Some A) limit offset d = Ok res)
      /\ (forall query e, fts5_parse query = Some e ->
            exists res, search (Meta := Meta) query (Some A) limit offset d = Ok res)).
Proof.
  intros HA.
  assert (Hin : forall r, in_context (Some A) r = true -> row_context r = A).
  { intros r. unfold in_context. apply String.eqb_neq in HA. rewrite HA.
    apply String.eqb_eq. }
  split; [|split].
  3:{ intros Hl Ho. split.
      - rewrite (@list_Ok _ _ (Some A) limit offset d Hl Ho). eauto.
      - intros query e Hq.
        rewrite (@search_parsed _ _ _ query e (Some A) limit offset d Hq Hl Ho). eauto. }
  - intros res Hres. apply list_returns in Hres. destruct Hres as (_ & _ & ->).
    split.
    + intros i Hi. rewrite results_page in Hi.
      apply in_map_iff in Hi. destruct Hi as [r [<- Hr]].
      apply window_incl in Hr. unfold listed in Hr.
      apply order_by_In, where_context_In in Hr.
      rewrite rowToInsight_context. now apply Hin.
    + rewrite total_page. unfold listed.
      now rewrite order_by_length, where_context_some.
  - intros query res Hs. apply search_returns in Hs.
    destruct Hs as (e & Hq & _ & _ & ->).
    split.
    + intros i Hi. rewrite results_page in Hi.
      apply in_map_iff in Hi. destruct Hi as [r [<- Hr]].
      apply window_incl, found_In in Hr.
      rewrite rowToInsight_context. apply Hin. tauto.
    + exists e. split; [exact Hq|]. simpl. unfold Sql.count.
      now rewrite where_context_some.
Qed.



End Filters.

(** ** The index and the searches over every history *)

Section Searches.
Import InsightsDatabase.

(** C1.  After every sequence of create, update and delete operations: the
    index holds, under the rowid of each live record, every term of its
    current content and serialized metadata; a search whose query the
    engine accepts and the terms of a live record satisfy returns that
    record, when the context filter admits it and the window covers the
    table (with a limit LIMIT accepts: below 2^63); and whatever a search
    returns is live -- [get] on its id returns
    that very record -- so the id of a deleted record is never returned.
    With the plain-word engine, the search for the exact current content of
    a live record returns it when that content is plain words. *)
Theorem index_follows_mutations (Meta : Type) (J : JSON Meta) :
  (forall (E : Fts5) (ops : Datatypes.list (Op (Meta := Meta))),
      let d := run ops empty in
      (forall r t, In r (insights d) -> In t (row_terms r) ->
                   In (row_rowid r, t) (postings (insights_fts d)))
      /\ (forall r query e context limit,
            In r (insights d) ->
            fts5_parse query = Some e ->
            (forall posted, incl (row_terms r) posted -> fts5_eval e posted = true) ->
            in_context context r = true ->
            Z.of_nat (List.length (insights d)) <= limit < 2 ^ 63 ->
            exists res, search (Meta := Meta) query context limit 0 d = Ok res
                        /\ In (rowToInsight r) (results res))
      /\ (forall query context limit offset res i,
            search (Meta := Meta) query context limit offset d = Ok res ->
            In i (results res) -> get (id i) d = Some i))
  /\ (forall (ops : Datatypes.list (Op (Meta := Meta))) r context limit,
        let d := run (E := fts5_barewords) ops empty in
        In r (insights d) ->
        Barewords.plain_words (row_content r) = true ->
        in_context context r = true ->
        Z.of_nat (List.length (insights d)) <= limit < 2 ^ 63 ->
        exists res, search (E := fts5_barewords) (Meta := Meta)
                      (row_content r) context limit 0 d = Ok res
                    /\ In (rowToInsight r) (results res)).
Proof.
  split.
  - intros E ops d.
    destruct (run_consistent ops consistent_empty) as (Hrow & Hid & Hix & _).
    fold d in Hrow, Hid, Hix.
    split; [exact Hix|]. split.
    + intros r query e context limit. now apply search_finds.
    + intros query context limit offset res i. now apply search_live.
  - intros ops r context limit d Hr Hq Hctx Hlim.
    destruct (run_consistent (E := fts5_barewords) ops consistent_empty)
      as (_ & _ & Hix & _).
    fold d in Hix.
    apply parse_plain_words in Hq.
    eapply (search_finds (E := fts5_barewords)); try eassumption.
    intros posted Hincl. simpl. apply eval_incl.
    intros t Ht. apply Hincl. unfold row_terms, doc_terms. simpl.
    apply in_or_app. now left.
Qed.


End Searches.

(** ** The adapter in HTTP mode *)

Section Adapter.
Import InsightsDatabase Server.
Context {Meta : Type} {J : JSON Meta} {E : Fts5}.

Lemma or_else_truthy (a : option string) (b : string) :
  truthy a = true -> Some (or_else a b) = a.
Proof.
  destruct a as [s|]; simpl; [|discriminate].
  now destruct (s =? "")%string.
Qed.

(** C3.  In HTTP mode, [save-insight] called without a context (absent or
    empty) throws "context parameter is required in HTTP mode" before any
    call of the store; [get-insight], [update-insight] and [delete-insight]
    declare no context argument and call the store in every mode; and no
    tool ever hands the store a context the adapter made up: a context
    that reaches the store in HTTP mode is the one the caller supplied. *)
Theorem http_context_handling (cwd uuid : string) (now : Z) (w : World (Meta := Meta)) :
  (forall content context metadata,
      truthy context = false ->
      callTool http cwd uuid now (call_save_insight content context metadata) w
      = (Throws (Error context_required), w))
  /\ (forall mode id,
        calls (snd (callTool mode cwd uuid now (call_get_insight id) w))
        = calls w ++ [db_get id])
  /\ (forall mode id content metadata,
        calls (snd (callTool mode cwd uuid now (call_update_insight id content metadata) w))
        = calls w ++ [db_update id {| upd_content := content; upd_metadata := metadata |}])
  /\ (forall mode id,
        calls (snd (callTool mode cwd uuid now (call_delete_insight id) w))
        = calls w ++ [db_delete id])
  /\ (forall t,
        calls (snd (callTool http cwd uuid now t w)) = calls w
        \/ exists c, calls (snd (callTool http cwd uuid now t w)) = calls w ++ [c]
                     /\ forall ctx, call_context c = Some ctx -> context_argument t = Some ctx).
Proof.
  split; [|split; [|split; [|split]]].
  - intros content context metadata H. simpl. unfold save_insight, getContext.
    now rewrite H.
  - reflexivity.
  - intros mode i content metadata. simpl. unfold update_insight.
    now destruct (update i now _ (db w)) as [[ins d']|e].
  - intros mode i. simpl. unfold delete_insight.
    now destruct (delete i (db w)) as [[deleted d']|e].
  - intros [content context metadata|query context limit offset|context limit offset
           |i|i content metadata|i]; simpl.
    + unfold save_insight, getContext.
      destruct (truthy context) eqn:Ht; simpl; [|now left].
      right. exists (db_save content (or_else context cwd) metadata).
      split.
      * now destruct (save uuid now content (or_else context cwd) metadata (db w))
          as [[ins d']|e].
      * simpl. intros ctx [= <-]. symmetry. now apply or_else_truthy.
    + unfold search_insights, resolve_filter, getContext.
      destruct (truthy context) eqn:Ht; simpl; right.
      * exists (db_search query (Some (or_else context cwd)) (nullish limit 20)
                  (nullish offset 0)).
        split.
        -- now destruct (search query (Some (or_else context cwd)) (nullish limit 20)
                           (nullish offset 0) (db w)).
        -- simpl. intros ctx [= <-]. symmetry. now apply or_else_truthy.
      * exists (db_search query None (nullish limit 20) (nullish offset 0)).
        split; [|discriminate].
        now destruct (search query None (nullish limit 20) (nullish offset 0) (db w)).
    + unfold list_insights, resolve_filter, getContext.
      destruct (truthy context) eqn:Ht; simpl; right.
      * exists (db_list (Some (or_else context cwd)) (nullish limit 20)
                  (nullish offset 0)).
        split.
        -- now destruct (InsightsDatabase.list (Some (or_else context cwd))
                           (nullish limit 20) (nullish offset 0) (db w)).
        -- simpl. intros ctx [= <-]. symmetry. now apply or_else_truthy.
      * exists (db_list None (nullish limit 20) (nullish offset 0)).
        split; [|discriminate].
        now destruct (InsightsDatabase.list None (nullish limit 20) (nullish offset 0)
                        (db w)).
    + right. eexists. split; [reflexivity|]. discriminate.
    + right. unfold update_insight.
      destruct (update i now _ (db w)) as [[ins d']|e];
        eexists; (split; [reflexivity|]); discriminate.
    + right. unfold delete_insight.
      destruct (delete i (db w)) as [[deleted d']|e];
        eexists; (split; [reflexivity|]); discriminate.
Qed.

End Adapter.

(** ** The properties at work on sample data *)

Section Samples.
Import InsightsDatabase Server.

Lemma greeting_safe : json_safe Sample.greeting.
Proof. split; [discriminate|reflexivity]. Qed.

(** The scenario of the design notes: both notes listed newest first; after
    the rewrite of the first, the search for "updated" returns exactly it;
    after its deletion the listing holds the second note alone. *)
Example scenario :
  list (Meta := Json.object) (Some "ctx1") 10 0 Sample.two_saved
  = Ok {| results := [ {| id := "b"; content := "another entry"; context := "ctx1";
                          metadata := None; created_at := 1001; updated_at := 1001 |};
                       {| id := "a"; content := "hello world"; context := "ctx1";
                          metadata := None; created_at := 1000; updated_at := 1000 |} ];
          total := 2; hasMore := false |}
  /\ search (E := fts5_barewords) (Meta := Json.object) "updated" (Some "ctx1") 10 0
       Sample.first_rewritten
     = Ok {| results := [ {| id := "a"; content := "updated content"; context := "ctx1";
                             metadata := None; created_at := 1000; updated_at := 1002 |} ];
             total := 1; hasMore := false |}
  /\ delete (E := fts5_barewords) "a" Sample.first_rewritten
     = Ok (true, Sample.first_deleted)
  /\ list (Meta := Json.object) (Some "ctx1") 10 0 Sample.first_deleted
     = Ok {| results := [ {| id := "b"; content := "another entry"; context := "ctx1";
                             metadata := None; created_at := 1001; updated_at := 1001 |} ];
             total := 1; hasMore := false |}.
Proof. repeat split. Qed.

(** The index keeps the terms of text that has been replaced: after the
    rewrite of note "a", a search for a word of its old text still returns
    it. *)
Example stale_terms_after_update :
  search (E := fts5_barewords) (Meta := Json.object) "hello" None 20 0 Sample.rewritten
  = Ok {| results := [ {| id := "a"; content := "updated content"; context := "ctx1";
                          metadata := None; created_at := 1000; updated_at := 1001 |} ];
          total := 1; hasMore := false |}.
Proof. reflexivity. Qed.

(** The index keeps the terms of a deleted row, and the next row takes
    over its rowid: a search for the deleted text returns the new note. *)
Example stale_terms_after_delete :
  get (Meta := Json.object) "a" Sample.replaced = None
  /\ search (E := fts5_barewords) (Meta := Json.object) "alpha" None 20 0 Sample.replaced
     = Ok {| results := [ {| id := "b"; content := "beta"; context := "ctx1";
                             metadata := None; created_at := 1001; updated_at := 1001 |} ];
             total := 1; hasMore := false |}.
Proof. split; reflexivity. Qed.

(** C1, on the sample notes: the search for the exact content of note "a"
    returns it. *)
Lemma index_follows_mutations_witness :
  exists res,
    search (E := fts5_barewords) (Meta := Json.object) "hello world" (Some "ctx1") 20 0 Sample.db3
    = Ok res
    /\ In Sample.hello (results res).
Proof.
  destruct (index_follows_mutations json_objects) as [_ H].
  set (r := {| row_rowid := 1; row_id := "a"; row_content := "hello world";
               row_context := "ctx1";
               row_metadata := Some (JSON_stringify Sample.greeting);
               row_created_at := 1000; row_updated_at := 1000 |}).
  assert (Hin : In r (insights Sample.db3)) by (left; reflexivity).
  assert (Hq : Barewords.plain_words (row_content r) = true) by reflexivity.
  assert (Hctx : in_context (Some "ctx1") r = true) by reflexivity.
  assert (Hlim : Z.of_nat (List.length (insights Sample.db3)) <= 20 < 2 ^ 63)
    by (split; [vm_compute; discriminate|reflexivity]).
  exact (H Sample.notes r (Some "ctx1") 20 Hin Hq Hctx Hlim).
Defined.

(** C1 as first stated fails on a note whose text is not a well-formed
    query: the search for its exact content throws. *)
Lemma exact_content_search_throws :
  option_map (@content Json.object) (get "t" Sample.trap) = Some "it's a trap"
  /\ search (E := fts5_barewords) (Meta := Json.object) "it's a trap" None 20 0 Sample.trap
     = Throw (SQLITE_ERROR (Barewords.near "'")).
Proof. split; reflexivity. Qed.


(** C5, on the first sample note: the content alone is updated. *)
Lemma update_frame_witness :
  exists d',
    update (E := fts5_barewords) "a" 2000
      {| upd_content := Some "updated content"; upd_metadata := None |} Sample.db3
    = Ok (Some {| id := "a"; content := "updated content"; context := "ctx1";
                  metadata := Some Sample.greeting;
                  created_at := 1000; updated_at := 2000 |}, d')
    /\ get "a" d'
       = Some {| id := "a"; content := "updated content"; context := "ctx1";
                 metadata := Some Sample.greeting;
                 created_at := 1000; updated_at := 2000 |}.
Proof.
  assert (Hget : get (Meta := Json.object) "a" Sample.db3 = Some Sample.hello) by reflexivity.
  assert (Hcons : consistent Sample.db3) by apply (run_consistent _ consistent_empty).
  destruct (@update_completes Json.object json_objects fts5_barewords "a" 2000
              {| upd_content := Some "updated content"; upd_metadata := None |}
              Sample.db3 Sample.hello Hcons Hget) as [ret [d' Hu]].
  { split; vm_compute; discriminate. }
  destruct (update_frame (E := fts5_barewords) "a" 2000 Sample.db3 Hget greeting_safe)
    as [H _].
  destruct (H _ _ _ Hu) as [-> Hg].
  exists d'. split; [exact Hu|exact Hg].
Defined.

(** The update throws when the new text has more terms than the index has
    counted so far: here one word is to become three. *)
Example update_longer_text_throws :
  update (E := fts5_barewords) (Meta := Json.object) "a" 1001
    {| upd_content := Some "alpha beta gamma"; upd_metadata := None |} Sample.one_word
  = Throw SQLITE_CORRUPT_VTAB.
Proof. reflexivity. Qed.

(** C5 as first stated fails when the update runs in the millisecond of
    the previous write: [updated_at] does not move.  It also fails where
    the update throws, as in [update_longer_text_throws]: nothing is
    bumped or replaced then. *)
Lemma update_in_the_same_millisecond :
  option_map (@updated_at Json.object) (get "a" Sample.db3) = Some 1000
  /\ match update (E := fts5_barewords) (Meta := Json.object) "a" 1000
             {| upd_content := Some "updated content"; upd_metadata := None |}
             Sample.db3 with
     | Ok (ret, d') => (option_map (@updated_at Json.object) ret,
                        option_map (@updated_at Json.object) (get "a" d'))
     | Throw _ => (None, None)
     end = (Some 1000, Some 1000)
  /\ get (Meta := Json.object) "a" Sample.one_word
     = Some {| id := "a"; content := "alpha"; context := "ctx1"; metadata := None;
               created_at := 1000; updated_at := 1000 |}
  /\ update (E := fts5_barewords) (Meta := Json.object) "a" 1001
       {| upd_content := Some "alpha beta gamma"; upd_metadata := None |} Sample.one_word
     = Throw SQLITE_CORRUPT_VTAB.
Proof. repeat split. Qed.

(** So does the update that gives metadata to the only note of a database
    in which no metadata was saved before. *)
Example update_first_metadata_throws :
  update (E := fts5_barewords) (Meta := Json.object) "a" 1001
    {| upd_content := None; upd_metadata := Some Sample.greeting |} Sample.one_word
  = Throw SQLITE_CORRUPT_VTAB.
Proof. reflexivity. Qed.



(** C7, on the sample notes: two pages of one record each. *)
Lemma list_pages_reconstruct_witness :
  (0 < 1)%nat
  /\ List.concat
       (map (fun k =>
               results
                 match list (Meta := Json.object) (Some "ctx1") (Z.of_nat 1)
                         (Z.of_nat (k * 1)) Sample.db3 with
                 | Ok r => r
                 | Throw _ => {| results := []; total := 0; hasMore := false |}
                 end)
          (seq 0 2))
     = map rowToInsight (listed (Some "ctx1") Sample.db3).
Proof.
  split; [lia|].
  destruct (@list_pages_reconstruct Json.object json_objects (Some "ctx1") Sample.db3 1%nat
              ltac:(lia) ltac:(lia)) as (_ & _ & _ & H & _).
  apply (H 2%nat); [vm_compute; lia|simpl; lia].
Defined.

(** C7 as first stated fails at a page size LIMIT does not accept: of the
    two records of "ctx1" not even the first page is returned. *)
Lemma list_page_size_out_of_range_throws :
  List.length (listed (Some "ctx1") Sample.db3) = 2%nat
  /\ list (Meta := Json.object) (Some "ctx1") (10 ^ 19) 0 Sample.db3
     = Throw SQLITE_MISMATCH.
Proof. split; reflexivity. Qed.



(** C9, on the sample notes: "ctx1" holds two of the three. *)
Lemma context_isolation_witness :
  "ctx1" <> EmptyString
  /\ exists res,
       list (Meta := Json.object) (Some "ctx1") 20 0 Sample.db3 = Ok res
       /\ total res = 2
       /\ map (@context Json.object) (results res) = ["ctx1"; "ctx1"].
Proof.
  assert (HA : "ctx1" <> EmptyString) by discriminate.
  destruct (@context_isolation Json.object json_objects fts5_barewords "ctx1" 20 0
              Sample.db3 HA) as (Hlist & _).
  split; [exact HA|].
  destruct (list (Meta := Json.object) (Some "ctx1") 20 0 Sample.db3) as [res|e] eqn:Hres;
    [|discriminate Hres].
  exists res. split; [reflexivity|].
  destruct (Hlist res eq_refl) as [_ Htotal].
  split; [rewrite Htotal; reflexivity|].
  injection Hres as <-. reflexivity.
Defined.


(** C3, on a fresh server in HTTP mode: saving without a context. *)
Lemma http_context_handling_witness :
  callTool (E := fts5_barewords) http "/srv" "a" 1000
    (call_save_insight "hello world" None None) Sample.fresh
  = (Throws (Error context_required), Sample.fresh).
Proof.
  destruct (http_context_handling (E := fts5_barewords) "/srv" "a" 1000 Sample.fresh)
    as [H _].
  apply H. reflexivity.
Defined.

(** C3 as first stated fails for the tools that declare no context: in
    HTTP mode [get-insight], called with a UUID and nothing else, calls the
    store. *)
Lemma http_store_called_without_context :
  callTool (E := fts5_barewords) (Meta := Json.object) http "/srv"
    "0b9f6f4e-7c1d-4e2a-8f3b-5a6c7d8e9f01" 1000
    (call_get_insight "3f2b8c1a-5d4e-4f6a-9b7c-1e2d3c4b5a69") Sample.fresh
  = (Returns (got None false),
     {| db := empty; calls := [db_get "3f2b8c1a-5d4e-4f6a-9b7c-1e2d3c4b5a69"] |}).
Proof. reflexivity. Qed.

(** [list-insights] without a context goes on in HTTP mode as well, and
    lists every context. *)
Example http_list_without_context :
  callTool (E := fts5_barewords) (Meta := Json.object) http "/srv"
    "0b9f6f4e-7c1d-4e2a-8f3b-5a6c7d8e9f01" 1000
    (call_list_insights None None None) Sample.fresh
  = (Returns (found_page {| results := []; total := 0; hasMore := false |}),
     {| db := empty; calls := [db_list None 20 0] |}).
Proof. reflexivity. Qed.

End Samples.


(** ** Unknown ids, duplicate ids and the records a write leaves alone *)

Section StoreEdges.
Import InsightsDatabase.
Context {Meta : Type} {J : JSON Meta} {E : Fts5}.
Implicit Types (d : Db) (i j : string) (tbl : Datatypes.list Row).

Lemma get_select i d :
  get (Meta := Meta) i d = option_map rowToInsight (select_by_id i d).
Proof. unfold get. destruct (select_by_id i d); reflexivity. Qed.

Lemma get_unknown i d :
  get (Meta := Meta) i d = None <-> ~ In i (map row_id (insights d)).
Proof.
  rewrite get_select, <- select_fresh_notin.
  destruct (select_by_id i d); simpl; split; congruence.
Qed.

(** X1.  [get(id)] answers [null] exactly for the ids no row of the table
    carries, and an insight it returns carries the id asked for. *)
Theorem get_null_iff_unknown i d :
  (get (Meta := Meta) i d = None <-> ~ In i (map row_id (insights d)))
  /\ (forall x, get (Meta := Meta) i d = Some x -> id x = i).
Proof.
  split; [apply get_unknown|].
  intros x Hx. destruct (get_inv _ _ Hx) as (r & _ & -> & Hr).
  now rewrite rowToInsight_id.
Qed.

(** What a completed INSERT leaves: the table with one more row at its end,
    under the next rowid, indexed by [insights_ai]. *)
Lemma insert_insights_Ok i c ctx m created updated d d' :
  insert_insights i c ctx m created updated d = Ok d' ->
  let new := {| row_rowid := next_rowid (insights d); row_id := i; row_content := c;
                row_context := ctx; row_metadata := m;
                row_created_at := created; row_updated_at := updated |} in
  existsb (has_id i) (insights d) = false
  /\ insights d' = insights d ++ [new]
  /\ insights_fts d' = fts_insert (row_rowid new) c m (insights_fts d).
Proof.
  unfold insert_insights. destruct (existsb (has_id i) (insights d)); [discriminate|].
  intros H. injection H as <-. repeat split.
Qed.

Lemma existsb_has_id i tbl :
  existsb (has_id i) tbl = true <-> In i (map row_id tbl).
Proof.
  rewrite existsb_exists, in_map_iff. split.
  - intros (r & Hr & Hi). exists r. split; [now apply has_id_true|exact Hr].
  - intros (r & Hi & Hr). exists r. split; [exact Hr|now apply has_id_true].
Qed.

(** X2.  [save] throws exactly when the id [randomUUID()] gave is already
    the key of a row, and then with the PRIMARY KEY violation; with a new id
    it returns. *)
Theorem save_throws_iff_duplicate (uuid : string) (now : Z) (c ctx : string)
    (m : option Meta) d :
  (In uuid (map row_id (insights d))
   <-> save uuid now c ctx m d = Throw SQLITE_CONSTRAINT_PRIMARYKEY)
  /\ (~ In uuid (map row_id (insights d))
      <-> exists r, save uuid now c ctx m d = Ok r).
Proof.
  rewrite <- existsb_has_id. unfold save, insert_insights.
  destruct (existsb (has_id uuid) (insights d)); split; split; try congruence.
  - intros [r Hr]. discriminate.
  - intros _. eauto.
Qed.

Lemma find_app_other {A} (p : A -> bool) (l : Datatypes.list A) x :
  p x = false -> find p (l ++ [x]) = find p l.
Proof.
  intros Hx. induction l as [|y l IH]; simpl.
  - now rewrite Hx.
  - destruct (p y); [reflexivity|exact IH].
Qed.

Lemma has_id_other i j r : row_id r = i -> j <> i -> has_id j r = false.
Proof. intros <- Hne. apply has_id_false. congruence. Qed.

Lemma in_context_row context (r r' : Row) :
  row_context r = row_context r' -> in_context context r = in_context context r'.
Proof. intros H. unfold in_context. now rewrite H. Qed.

Lemma listed_length context d :
  List.length (listed context d)
  = List.length (filter (in_context context) (insights d)).
Proof. unfold listed. now rewrite order_by_length, where_context_filter. Qed.

Lemma list_total_filter context limit offset d res :
  list (Meta := Meta) context limit offset d = Ok res ->
  total res = Z.of_nat (List.length (filter (in_context context) (insights d))).
Proof.
  intros H. apply list_returns in H. destruct H as (_ & _ & ->).
  now rewrite total_page, listed_length.
Qed.

(** Whether [list] returns depends on its limit and offset alone. *)
Lemma list_returns_again context context' limit offset d d' res :
  list (Meta := Meta) context limit offset d = Ok res ->
  exists res', list (Meta := Meta) context' limit offset d' = Ok res'.
Proof.
  intros H. apply list_returns in H. destruct H as (Hl & Ho & _).
  rewrite (list_Ok context' d' Hl Ho). eauto.
Qed.

(** X3.  A completed [save] adds one row and leaves every other record as
    it was: [get] on any other id answers as before, and a listing that
    returned before returns now and counts one more record exactly when its
    filter admits the context saved under. *)
Theorem save_frame (uuid : string) (now : Z) (c ctx : string) (m : option Meta) d ins d' :
  save uuid now c ctx m d = Ok (ins, d') ->
  (forall j, j <> uuid -> get (Meta := Meta) j d' = get j d)
  /\ List.length (insights d') = S (List.length (insights d))
  /\ (forall limit offset res,
        list (Meta := Meta) None limit offset d = Ok res ->
        exists res', list (Meta := Meta) None limit offset d' = Ok res'
                     /\ total res' = total res + 1)
  /\ (forall a limit offset res,
        a <> EmptyString ->
        list (Meta := Meta) (Some a) limit offset d = Ok res ->
        exists res', list (Meta := Meta) (Some a) limit offset d' = Ok res'
                     /\ total res' = total res + (if (ctx =? a)%string then 1 else 0)).
Proof.
  unfold save. intros H.
  destruct (insert_insights uuid c ctx (option_map JSON_stringify m) now now d)
    as [d0|] eqn:Hins; [|discriminate].
  injection H as _ <-.
  destruct (insert_insights_Ok _ _ _ _ _ _ _ Hins) as (_ & Htbl & _). cbv zeta in Htbl.
  split; [|split; [|split]].
  - intros j Hj. rewrite !get_select. unfold select_by_id. rewrite Htbl.
    rewrite find_app_other; [reflexivity|]. now apply has_id_other with (i := uuid).
  - rewrite Htbl, length_app. simpl. lia.
  - intros limit offset res Hres.
    destruct (@list_returns_again _ None _ _ _ d0 _ Hres) as [res' Hres'].
    exists res'. split; [exact Hres'|].
    rewrite (@list_total_filter _ _ _ _ _ Hres), (@list_total_filter _ _ _ _ _ Hres').
    rewrite Htbl, filter_app, length_app. simpl. lia.
  - intros a limit offset res Ha Hres.
    destruct (@list_returns_again _ (Some a) _ _ _ d0 _ Hres) as [res' Hres'].
    exists res'. split; [exact Hres'|].
    rewrite (@list_total_filter _ _ _ _ _ Hres), (@list_total_filter _ _ _ _ _ Hres').
    rewrite Htbl, filter_app, length_app.
    apply String.eqb_neq in Ha. simpl. rewrite Ha.
    destruct (ctx =? a)%string; simpl; lia.
Qed.

Lemma find_filter_other i j tbl :
  j <> i ->
  find (has_id j) (filter (fun r => negb (has_id i r)) tbl) = find (has_id j) tbl.
Proof.
  intros Hne. induction tbl as [|r tbl IH]; simpl; [reflexivity|].
  destruct (has_id i r) eqn:Hi; simpl.
  - apply has_id_true in Hi. rewrite (has_id_other r Hi Hne). exact IH.
  - destruct (has_id j r); [reflexivity|exact IH].
Qed.

Lemma find_filter_gone i tbl :
  find (has_id i) (filter (fun r => negb (has_id i r)) tbl) = None.
Proof.
  induction tbl as [|r tbl IH]; simpl; [reflexivity|].
  destruct (has_id i r) eqn:Hi; simpl; [exact IH|]. now rewrite Hi.
Qed.

Lemma filter_has_id_nonempty i tbl :
  (0 <? Sql.count (filter (has_id i) tbl)) = true <-> In i (map row_id tbl).
Proof.
  rewrite <- existsb_has_id. unfold Sql.count.
  induction tbl as [|r tbl IH]; simpl.
  - split; discriminate.
  - destruct (has_id i r); simpl; [|exact IH].
    split; [reflexivity|]. intros _. apply Z.ltb_lt. lia.
Qed.

(** What [delete] comes to on a table with unique rowids. *)
Lemma delete_Ok i d :
  NoDup (map row_rowid (insights d)) ->
  delete i d
  = Ok (0 <? Sql.count (filter (has_id i) (insights d)),
        {| insights := filter (fun r => negb (has_id i r)) (insights d);
           insights_fts := insights_fts d |}).
Proof. intros H. unfold delete. now rewrite (delete_insights_Ok i d H). Qed.

(** X4.  [delete] does not throw; it returns [true] exactly when the id was
    the key of a row; afterwards [get] on that id answers [null] and on every
    other id answers as before. *)
Theorem delete_outcome i d :
  NoDup (map row_rowid (insights d)) ->
  exists b d',
    delete i d = Ok (b, d')
    /\ (b = true <-> In i (map row_id (insights d)))
    /\ get (Meta := Meta) i d' = None
    /\ (forall j, j <> i -> get (Meta := Meta) j d' = get j d).
Proof.
  intros Hrow. rewrite (delete_Ok i d Hrow). do 2 eexists. split; [reflexivity|].
  split; [apply filter_has_id_nonempty|]. split.
  - rewrite get_select. unfold select_by_id. simpl. now rewrite find_filter_gone.
  - intros j Hj. rewrite !get_select. unfold select_by_id. simpl.
    now rewrite find_filter_other.
Qed.

Lemma filter_negb_idem i tbl :
  filter (fun r => negb (has_id i r)) (filter (fun r => negb (has_id i r)) tbl)
  = filter (fun r => negb (has_id i r)) tbl.
Proof.
  induction tbl as [|r tbl IH]; simpl; [reflexivity|].
  destruct (has_id i r) eqn:Hi; simpl; [exact IH|]. rewrite Hi. simpl. now rewrite IH.
Qed.

Lemma filter_has_id_gone i tbl :
  filter (has_id i) (filter (fun r => negb (has_id i r)) tbl) = [].
Proof.
  induction tbl as [|r tbl IH]; simpl; [reflexivity|].
  destruct (has_id i r) eqn:Hi; simpl; [exact IH|]. now rewrite Hi.
Qed.

(** X5.  Deleting is idempotent: a second [delete] of the same id returns
    [false] and changes nothing. *)
Theorem delete_twice i d b d' :
  NoDup (map row_rowid (insights d)) ->
  delete i d = Ok (b, d') ->
  delete i d' = Ok (false, d').
Proof.
  intros Hrow. rewrite (delete_Ok i d Hrow). intros H. injection H as _ <-.
  rewrite delete_Ok by (simpl; now apply NoDup_map_filter).
  simpl. now rewrite filter_has_id_gone, filter_negb_idem.
Qed.

(** X6.  [delete] leaves the full-text index as it was: when [insights_ad]
    runs the row is gone from the content table, so its trigger statement
    finds no document to remove.  Every posting of the deleted row, and the
    totals of the index, stay. *)
Theorem delete_keeps_index i d b d' :
  NoDup (map row_rowid (insights d)) ->
  delete i d = Ok (b, d') ->
  insights_fts d' = insights_fts d
  /\ (forall r t, In r (insights d) -> row_id r = i ->
                  In (row_rowid r, t) (postings (insights_fts d)) ->
                  ~ In r (insights d') /\ In (row_rowid r, t) (postings (insights_fts d'))).
Proof.
  intros Hrow. rewrite (delete_Ok i d Hrow). intros H. injection H as _ <-.
  split; [reflexivity|]. intros r t Hr Hi Hp. split; [|exact Hp].
  simpl. rewrite filter_In. apply has_id_true in Hi. rewrite Hi. simpl. intros [_ Hf].
  discriminate.
Qed.

(** X7.  [update] of an id no row carries returns [null] and writes
    nothing: there is no upsert. *)
Theorem update_unknown_id i (now : Z) (u : Updates (Meta := Meta)) d :
  ~ In i (map row_id (insights d)) ->
  update i now u d = Ok (None, d).
Proof. intros H. apply get_unknown in H. unfold update. now rewrite H. Qed.

Lemma find_map_other c m updated i j tbl :
  j <> i ->
  find (has_id j) (map (fun r => if has_id i r then set_row c m updated r else r) tbl)
  = find (has_id j) tbl.
Proof.
  intros Hne. induction tbl as [|r tbl IH]; simpl; [reflexivity|].
  destruct (has_id i r) eqn:Hi.
  - apply has_id_true in Hi.
    replace (has_id j (set_row c m updated r)) with (has_id j r) by reflexivity.
    rewrite (has_id_other r Hi Hne). exact IH.
  - destruct (has_id j r); [reflexivity|exact IH].
Qed.

End StoreEdges.


(** ** What an update writes, and what the index keeps *)

Section UpdateFacts.
Import InsightsDatabase.
Context {Meta : Type} {J : JSON Meta} {E : Fts5}.
Implicit Types (d : Db) (i j : string) (tbl : Datatypes.list Row).

(** The UPDATE of the row with key [i], on a table with unique rowids and
    keys: the engine removes the document it reads from the content table --
    the row as already rewritten -- and indexes the new values. *)
Lemma update_insights_row c m updated i d r :
  NoDup (map row_rowid (insights d)) -> NoDup (map row_id (insights d)) ->
  select_by_id i d = Some r ->
  update_insights c m updated i d
  = match storage_delete (set_row c m updated r) (insights_fts d) with
    | Ok t =>
        Ok {| insights := map (fun r => if has_id i r then set_row c m updated r else r)
                            (insights d);
              insights_fts := storage_insert (row_rowid r) c m t |}
    | Throw e => Throw e
    end.
Proof.
  intros Hrow Hid Hsel.
  pose proof (updated_rows c m updated i d Hid) as Hrows. cbv zeta in Hrows.
  rewrite Hsel in Hrows. destruct Hrows as [Hone Hnew].
  unfold update_insights. rewrite Hone. cbn [for_each_row].
  unfold insights_au. cbn [insights insights_fts]. unfold fts_update.
  rewrite (content_row_unique _ (set_row c m updated r)); [|now rewrite set_row_rowids|exact Hnew].
  destruct (storage_delete (set_row c m updated r) (insights_fts d)); reflexivity.
Qed.

Lemma storage_delete_throws r t :
  (exists t', storage_delete r t = Ok t') \/ storage_delete r t = Throw SQLITE_CORRUPT_VTAB.
Proof. unfold storage_delete. destruct (_ || _); eauto. Qed.

Lemma storage_delete_Ok_iff r t :
  (exists t', storage_delete r t = Ok t')
  <-> fst (doc_size (row_content r) (row_metadata r)) <= fst (aTotalSize t)
      /\ snd (doc_size (row_content r) (row_metadata r)) <= snd (aTotalSize t)
      /\ 1 <= nTotalRow t.
Proof.
  unfold storage_delete.
  destruct (fst (aTotalSize t) <? fst (doc_size (row_content r) (row_metadata r))) eqn:H0;
    destruct (snd (aTotalSize t) <? snd (doc_size (row_content r) (row_metadata r))) eqn:H1;
    destruct (nTotalRow t <? 1) eqn:H2; cbn [orb];
    rewrite ?Z.ltb_lt, ?Z.ltb_ge in *;
    (split; [intros [t' Ht']; try discriminate; lia | intros; try lia; eauto]).
Qed.

Lemma live_row_counted d r :
  consistent d -> In r (insights d) -> 1 <= nTotalRow (insights_fts d).
Proof.
  intros (_ & _ & _ & Hn) Hr. destruct (insights d); [destruct Hr|]. simpl in Hn. lia.
Qed.

(** X8.  [update] of a stored record throws exactly when one of the two
    totals the index keeps -- the terms indexed so far in [content] and in
    [metadata], over all the saves -- is smaller than the number of terms of
    the new text in that column; the error then is the engine's "database
    disk image is malformed".  In every other case it returns. *)
Theorem update_throws_iff i (now : Z) (u : Updates (Meta := Meta)) d (old : Insight Meta) :
  consistent d ->
  get i d = Some old ->
  let c := nullish (upd_content u) (content old) in
  let m := option_map JSON_stringify
             (match upd_metadata u with Some x => Some x | None => metadata old end) in
  (update i now u d = Throw SQLITE_CORRUPT_VTAB <-> ~ covers d c m)
  /\ ((exists ret d', update i now u d = Ok (ret, d')) <-> covers d c m).
Proof.
  intros Hc Hget c m.
  destruct (get_inv _ _ Hget) as (r & Hsel & -> & Hi).
  assert (Hlive : 1 <= nTotalRow (insights_fts d)).
  { apply live_row_counted with (r := r); [exact Hc|].
    unfold select_by_id in Hsel. now apply find_some in Hsel. }
  destruct Hc as (Hrow & Hid & _ & _).
  unfold update. rewrite Hget. fold c. fold m.
  rewrite (update_insights_row c m now i d Hrow Hid Hsel).
  pose proof (storage_delete_Ok_iff (set_row c m now r) (insights_fts d)) as Hiff.
  cbn [set_row row_content row_metadata] in Hiff.
  assert (Hcov : covers d c m <-> exists t', storage_delete (set_row c m now r) (insights_fts d) = Ok t').
  { rewrite Hiff. unfold covers. tauto. }
  destruct (storage_delete_throws (set_row c m now r) (insights_fts d)) as [[t' Ht']|Ht'];
    rewrite Ht'.
  - split; split; try discriminate.
    + intros Hn. exfalso. apply Hn, Hcov. eauto.
    + intros _. apply Hcov. eauto.
    + intros _. eauto.
  - split; split; try reflexivity.
    + intros _ Hcv. apply Hcov in Hcv. destruct Hcv as [t' Hcv]. congruence.
    + intros (ret & d' & H). discriminate.
    + intros Hcv. apply Hcov in Hcv. destruct Hcv as [t' Hcv]. congruence.
Qed.

(** X9.  Whatever fields an update gives, the record returned and the record
    stored are the old one with the given fields replaced and [updated_at]
    set: an update that gives neither field only moves [updated_at], and no
    update takes metadata away from a record that has some. *)
Theorem update_merges i (now : Z) (u : Updates (Meta := Meta)) d (old : Insight Meta) ret d' :
  get i d = Some old ->
  json_safe_opt (metadata old) ->
  json_safe_opt (upd_metadata u) ->
  update i now u d = Ok (ret, d') ->
  let new := {| id := id old;
                content := nullish (upd_content u) (content old);
                context := context old;
                metadata := match upd_metadata u with
                            | Some x => Some x
                            | None => metadata old
                            end;
                created_at := created_at old;
                updated_at := now |} in
  ret = Some new
  /\ get i d' = Some new
  /\ (metadata old <> None -> metadata new <> None).
Proof.
  intros Hget Hold Hu Hup new.
  destruct (get_inv _ _ Hget) as (r & Hsel & Hr & Hi).
  unfold update in Hup. rewrite Hget in Hup.
  destruct (update_insights _ _ _ _ _) as [d0|] eqn:Hins in Hup; [|discriminate].
  injection Hup as <- <-.
  split; [reflexivity|]. split.
  - rewrite get_select. unfold select_by_id.
    rewrite (update_insights_table _ _ _ _ _ Hins).
    unfold select_by_id in Hsel. rewrite (find_set_row _ _ _ _ _ Hsel). simpl.
    unfold rowToInsight. cbn [set_row row_id row_content row_context row_metadata
                                row_created_at row_updated_at].
    rewrite metadata_round_trip.
    + subst old. reflexivity.
    + destruct (upd_metadata u); [exact Hu|exact Hold].
  - unfold new. simpl. destruct (upd_metadata u); [discriminate|tauto].
Qed.

Lemma insert_row_map {A} (leb : A -> A -> bool) (f : A -> A) x (l : Datatypes.list A) :
  (forall a b, leb (f a) (f b) = leb a b) ->
  Sql.insert_row leb (f x) (map f l) = map f (Sql.insert_row leb x l).
Proof.
  intros Hf. induction l as [|y l IH]; simpl; [reflexivity|].
  rewrite Hf. destruct (leb x y); simpl; [reflexivity|now rewrite IH].
Qed.

Lemma order_by_map {A} (leb : A -> A -> bool) (f : A -> A) (l : Datatypes.list A) :
  (forall a b, leb (f a) (f b) = leb a b) ->
  Sql.order_by leb (map f l) = map f (Sql.order_by leb l).
Proof.
  intros Hf. unfold Sql.order_by. induction l as [|x l IH]; simpl; [reflexivity|].
  rewrite IH. now apply insert_row_map.
Qed.

Lemma filter_map_same {A} (p : A -> bool) (f : A -> A) (l : Datatypes.list A) :
  (forall a, p (f a) = p a) -> filter p (map f l) = map f (filter p l).
Proof.
  intros Hf. induction l as [|x l IH]; simpl; [reflexivity|].
  rewrite Hf. destruct (p x); simpl; now rewrite IH.
Qed.

Lemma window_map {A B} (f : A -> B) limit offset (l : Datatypes.list A) :
  Sql.window limit offset (map f l) = map f (Sql.window limit offset l).
Proof.
  unfold Sql.window. rewrite skipn_map.
  destruct (limit <? 0); [reflexivity|apply firstn_map].
Qed.

(** The rows of a listing after the UPDATE are those before it, rewritten
    in place. *)
Lemma listed_updated c m updated i context d d' :
  update_insights c m updated i d = Ok d' ->
  listed context d'
  = map (fun r => if has_id i r then set_row c m updated r else r) (listed context d).
Proof.
  intros H. unfold listed. rewrite (update_insights_table _ _ _ _ _ H).
  rewrite !where_context_filter, filter_map_same, order_by_map; [reflexivity| |].
  - intros a b. unfold created_at_desc.
    destruct (has_id i a), (has_id i b); reflexivity.
  - intros a. apply in_context_row. destruct (has_id i a); reflexivity.
Qed.

(** X10.  A completed [update] of one record leaves the others alone and
    does not move any record in a listing: [get] on every other id answers
    as before, and every page a listing returned it returns again, with the
    same ids in the same order, the same [total] and the same [hasMore] (the
    order is by [created_at] and rowid, which an update does not write). *)
Theorem update_leaves_others i (now : Z) (u : Updates (Meta := Meta)) d ret d' :
  update i now u d = Ok (ret, d') ->
  (forall j, j <> i -> get (Meta := Meta) j d' = get j d)
  /\ (forall context limit offset res,
        list (Meta := Meta) context limit offset d = Ok res ->
        exists res',
          list (Meta := Meta) context limit offset d' = Ok res'
          /\ map (@id Meta) (results res') = map (@id Meta) (results res)
          /\ map (@created_at Meta) (results res') = map (@created_at Meta) (results res)
          /\ total res' = total res
          /\ hasMore res' = hasMore res).
Proof.
  unfold update. destruct (get i d) as [old|].
  2:{ intros H. injection H as _ <-. split; [reflexivity|].
      intros context limit offset res Hres. exists res. repeat split. exact Hres. }
  destruct (update_insights _ _ _ _ _) as [d0|] eqn:Hins; [|discriminate].
  intros H. injection H as _ <-.
  set (f := fun r => if has_id i r
                     then set_row (nullish (upd_content u) (content old))
                            (option_map JSON_stringify
                               match upd_metadata u with
                               | Some m => Some m
                               | None => metadata old
                               end) now r
                     else r).
  split.
  - intros j Hj. rewrite !get_select. unfold select_by_id.
    rewrite (update_insights_table _ _ _ _ _ Hins). now rewrite find_map_other.
  - intros context limit offset res Hres.
    apply list_returns in Hres. destruct Hres as (Hl & Ho & ->).
    rewrite (list_Ok context d0 Hl Ho). eexists. split; [reflexivity|].
    rewrite (@listed_updated _ _ _ _ context _ _ Hins). fold f.
    rewrite !total_page, !hasMore_page, !results_page, window_map, !length_map, !map_map.
    split; [|split; [|split]]; try reflexivity.
    + apply map_ext. intros r. unfold f. destruct (has_id i r); reflexivity.
    + apply map_ext. intros r. unfold f. destruct (has_id i r); reflexivity.
Qed.

Lemma mem_term_In (t : string) (ts : Datatypes.list string) :
  mem_term t ts = true -> In t ts.
Proof.
  unfold mem_term. rewrite existsb_exists. intros (x & Hx & He).
  apply String.eqb_eq in He. now subst.
Qed.

Lemma doc_size_nonneg c m : 0 <= fst (doc_size c m) /\ 0 <= snd (doc_size c m).
Proof. unfold doc_size. destruct m; simpl; lia. Qed.

(** The index after one operation: no posting is lost and no total
    decreases. *)
Lemma step_index_grows d (o : Op (Meta := Meta)) :
  consistent d ->
  (forall p, In p (postings (insights_fts d)) -> In p (postings (insights_fts (step d o))))
  /\ nTotalRow (insights_fts d) <= nTotalRow (insights_fts (step d o))
  /\ fst (aTotalSize (insights_fts d)) <= fst (aTotalSize (insights_fts (step d o)))
  /\ snd (aTotalSize (insights_fts d)) <= snd (aTotalSize (insights_fts (step d o))).
Proof.
  intros Hc. destruct o as [i now c ctx m|i now u|i]; cbn [step].
  - unfold save.
    destruct (insert_insights i c ctx (option_map JSON_stringify m) now now d)
      as [d0|] eqn:Hins; [|repeat split; try lia; tauto].
    destruct (insert_insights_Ok _ _ _ _ _ _ _ Hins) as (_ & _ & Hfts). cbv zeta in Hfts.
    rewrite Hfts. unfold fts_insert, storage_insert. cbn [postings nTotalRow aTotalSize fst snd].
    pose proof (doc_size_nonneg c (option_map JSON_stringify m)) as [H0 H1].
    repeat split; try lia. intros p Hp. apply index_add_In. now left.
  - unfold update. destruct (get i d) as [old|] eqn:Hget; [|repeat split; try lia; tauto].
    destruct (get_inv _ _ Hget) as (r & Hsel & _ & _).
    destruct Hc as (Hrow & Hid & _ & _).
    rewrite (update_insights_row _ _ now i d Hrow Hid Hsel).
    destruct (storage_delete _ _) as [t|] eqn:Hdel; [|repeat split; try lia; tauto].
    destruct (storage_delete_Ok _ _ Hdel) as (Hp & Hn & Ha).
    cbn [set_row row_rowid row_content row_metadata] in Hp, Ha.
    unfold storage_insert. cbn [insights_fts postings nTotalRow aTotalSize fst snd].
    rewrite Hp, Hn, Ha. cbn [fst snd]. repeat split; try lia.
    intros p Hin. apply index_add_In.
    destruct ((fst p =? row_rowid r)
              && mem_term (snd p) (row_terms (set_row
                   (nullish (upd_content u) (content old))
                   (option_map JSON_stringify
                      match upd_metadata u with Some x => Some x | None => metadata old end)
                   now r))) eqn:Hb.
    + right. apply andb_prop in Hb. destruct Hb as [Hk Ht].
      apply Z.eqb_eq in Hk. apply mem_term_In in Ht. split; [exact Hk|exact Ht].
    + left. unfold index_remove. apply filter_In. split; [exact Hin|].
      cbn [set_row row_rowid]. now rewrite Hb.
  - destruct Hc as (Hrow & _). rewrite (delete_Ok i d Hrow). simpl.
    repeat split; try lia; tauto.
Qed.

Lemma run_index_grows (ops : Datatypes.list (Op (Meta := Meta))) d :
  consistent d ->
  (forall p, In p (postings (insights_fts d)) -> In p (postings (insights_fts (run ops d))))
  /\ nTotalRow (insights_fts d) <= nTotalRow (insights_fts (run ops d))
  /\ fst (aTotalSize (insights_fts d)) <= fst (aTotalSize (insights_fts (run ops d)))
  /\ snd (aTotalSize (insights_fts d)) <= snd (aTotalSize (insights_fts (run ops d))).
Proof.
  revert d. induction ops as [|o ops IH]; intros d Hc.
  - simpl. repeat split; try lia; tauto.
  - unfold run. simpl. fold (run ops (step d o)).
    destruct (step_index_grows o Hc) as (Hp & Hn & H0 & H1).
    destruct (IH (step d o) (step_consistent o Hc)) as (Hp' & Hn' & H0' & H1').
    repeat split; try lia. intros p Hin. now apply Hp', Hp.
Qed.

(** X11.  The index only grows: over any sequence of saves, updates and
    deletes, no posting is ever removed and no total decreases.  So an update
    the totals cover stays covered whatever is done in between. *)
Theorem index_only_grows (ops : Datatypes.list (Op (Meta := Meta))) d :
  consistent d ->
  (forall p, In p (postings (insights_fts d)) -> In p (postings (insights_fts (run ops d))))
  /\ nTotalRow (insights_fts d) <= nTotalRow (insights_fts (run ops d))
  /\ (forall c m, covers d c m -> covers (run ops d) c m).
Proof.
  intros Hc. destruct (run_index_grows ops Hc) as (Hp & Hn & H0 & H1).
  split; [exact Hp|]. split; [exact Hn|].
  intros c m [Hc0 Hc1]. split; lia.
Qed.

(** A search returns a live record when the terms posted under its rowid
    satisfy the query. *)
Lemma search_posted d r query e context limit (terms : Datatypes.list string) :
  In r (insights d) ->
  (forall t, In t terms -> In (row_rowid r, t) (postings (insights_fts d))) ->
  fts5_parse query = Some e ->
  (forall posted, incl terms posted -> fts5_eval e posted = true) ->
  in_context context r = true ->
  Z.of_nat (List.length (insights d)) <= limit < 2 ^ 63 ->
  exists res, search (Meta := Meta) query context limit 0 d = Ok res
              /\ In (rowToInsight r) (results res).
Proof.
  intros Hr Hix Hq Hsat Hctx Hlim.
  erewrite search_parsed; [|eassumption|lia|lia]. eexists. split; [reflexivity|].
  rewrite results_page. apply in_map.
  rewrite window_all by (pose proof (found_shorter e context d); lia).
  apply found_In. repeat split; try assumption.
  apply Hsat. intros t Ht. apply index_terms_In. now apply Hix.
Qed.

(** X12.  Stale matches: the words a row was indexed under keep matching
    whatever row later lives under its rowid.  After any sequence of
    operations, a query the old text satisfies returns the record now stored
    under that rowid -- the same record rewritten, or another one saved after
    a deletion. *)
Theorem stale_match (ops : Datatypes.list (Op (Meta := Meta))) d (r r' : Row)
    query e context limit :
  consistent d ->
  In r (insights d) ->
  In r' (insights (run ops d)) ->
  row_rowid r' = row_rowid r ->
  fts5_parse query = Some e ->
  (forall posted, incl (row_terms r) posted -> fts5_eval e posted = true) ->
  in_context context r' = true ->
  Z.of_nat (List.length (insights (run ops d))) <= limit < 2 ^ 63 ->
  exists res, search (Meta := Meta) query context limit 0 (run ops d) = Ok res
              /\ In (rowToInsight r') (results res).
Proof.
  intros Hc Hr Hr' Hk Hq Hsat Hctx Hlim.
  destruct (run_index_grows ops Hc) as (Hp & _).
  apply search_posted with (e := e) (terms := row_terms r); try assumption.
  intros t Ht. rewrite Hk. apply Hp. destruct Hc as (_ & _ & Hix & _). now apply Hix.
Qed.

Lemma filter_fresh_app i tbl (new : Row) :
  existsb (has_id i) tbl = false -> row_id new = i ->
  filter (fun r => negb (has_id i r)) (tbl ++ [new]) = tbl.
Proof.
  intros Hf Hn. rewrite filter_app. simpl.
  apply has_id_true in Hn. rewrite Hn. simpl. rewrite app_nil_r.
  induction tbl as [|r tbl IH]; simpl in *; [reflexivity|].
  apply orb_false_elim in Hf. destruct Hf as [Hr Hf]. rewrite Hr. simpl. now rewrite IH.
Qed.

(** X13.  A rowid is given out again: when the record saved last is deleted
    and another is saved, the new row gets the rowid of the deleted one and
    with it the postings [delete] left behind, so a query the deleted text
    satisfies returns the new record. *)
Theorem deleted_words_find_the_next_record (a b : string) (now1 now2 : Z)
    (c1 ctx1 c2 ctx2 : string) (m1 m2 : option Meta) d ins1 d1 flag d2 ins2 d3
    query e limit :
  consistent d ->
  save a now1 c1 ctx1 m1 d = Ok (ins1, d1) ->
  delete a d1 = Ok (flag, d2) ->
  save b now2 c2 ctx2 m2 d2 = Ok (ins2, d3) ->
  fts5_parse query = Some e ->
  (forall posted, incl (doc_terms c1 (option_map JSON_stringify m1)) posted ->
                  fts5_eval e posted = true) ->
  Z.of_nat (List.length (insights d3)) <= limit < 2 ^ 63 ->
  flag = true
  /\ exists res x, search (Meta := Meta) query None limit 0 d3 = Ok res
                   /\ In x (results res) /\ id x = b /\ content x = c2.
Proof.
  intros Hc Hs1 Hdel Hs2 Hq Hsat Hlim.
  unfold save in Hs1, Hs2.
  destruct (insert_insights a c1 ctx1 _ now1 now1 d) as [d1'|] eqn:Hi1; [|discriminate].
  injection Hs1 as _ <-.
  pose proof (insert_insights_consistent _ _ _ _ _ _ Hc Hi1) as Hc1.
  destruct (insert_insights_Ok _ _ _ _ _ _ _ Hi1) as (Hfresh & Htbl1 & Hfts1).
  cbv zeta in Htbl1, Hfts1. cbn [row_rowid] in Hfts1.
  destruct Hc1 as (Hrow1 & _).
  rewrite (delete_Ok a d1' Hrow1) in Hdel. injection Hdel as <- <-.
  destruct (insert_insights b c2 ctx2 _ now2 now2 _) as [d3'|] eqn:Hi2; [|discriminate].
  injection Hs2 as _ <-.
  destruct (insert_insights_Ok _ _ _ _ _ _ _ Hi2) as (_ & Htbl3 & Hfts3).
  cbv zeta in Htbl3, Hfts3. cbn [insights insights_fts row_rowid] in Htbl3, Hfts3.
  set (gone := {| row_rowid := next_rowid (insights d); row_id := a; row_content := c1;
                  row_context := ctx1; row_metadata := option_map JSON_stringify m1;
                  row_created_at := now1; row_updated_at := now1 |}) in *.
  rewrite Htbl1 in Htbl3, Hfts3.
  rewrite (@filter_fresh_app a (insights d) gone Hfresh eq_refl) in Htbl3, Hfts3.
  split.
  - apply filter_has_id_nonempty. rewrite Htbl1, map_app. apply in_or_app. right. now left.
  - set (new := {| row_rowid := next_rowid (insights d); row_id := b; row_content := c2;
                   row_context := ctx2; row_metadata := option_map JSON_stringify m2;
                   row_created_at := now2; row_updated_at := now2 |}) in *.
    destruct (@search_posted d3' new query e None limit
                (doc_terms c1 (option_map JSON_stringify m1))) as [res [Hres Hin]];
      try assumption.
    + rewrite Htbl3. apply in_or_app. right. now left.
    + intros t Ht. rewrite Hfts3. unfold fts_insert, storage_insert. cbn [postings].
      apply index_add_In. left. rewrite Hfts1. unfold fts_insert, storage_insert.
      cbn [postings]. apply index_add_In. right. split; [reflexivity|exact Ht].
    + reflexivity.
    + exists res, (rowToInsight new). repeat split; assumption.
Qed.

End UpdateFacts.


(** ** Pages of a search, and the size of a page *)

Section Pages.
Import InsightsDatabase.
Context {Meta : Type} {J : JSON Meta} {E : Fts5}.
Implicit Types (d : Db) (context : option string) (limit offset : Z) (query : string).

Lemma window_length {A} limit offset (l : Datatypes.list A) :
  0 <= limit -> 0 <= offset ->
  Z.of_nat (List.length (Sql.window limit offset l))
  = Z.min limit (Z.max 0 (Z.of_nat (List.length l) - offset)).
Proof.
  intros Hl Ho. unfold Sql.window.
  destruct (limit <? 0) eqn:Hneg; [apply Z.ltb_lt in Hneg; lia|].
  rewrite length_firstn, length_skipn. lia.
Qed.

Lemma window_zero {A} offset (l : Datatypes.list A) : Sql.window 0 offset l = [].
Proof. reflexivity. Qed.

Lemma window_negative_offset {A} limit offset (l : Datatypes.list A) :
  offset < 0 -> Sql.window limit offset l = Sql.window limit 0 l.
Proof.
  intros H. unfold Sql.window. destruct offset; try lia. reflexivity.
Qed.

Lemma window_unbounded {A} limit offset (l : Datatypes.list A) :
  limit < 0 -> Sql.window limit offset l = skipn (Z.to_nat offset) l.
Proof. intros H. unfold Sql.window. apply Z.ltb_lt in H. now rewrite H. Qed.

Lemma NoDup_map_window {A B} (f : A -> B) limit offset (l : Datatypes.list A) :
  NoDup (map f l) -> NoDup (map f (Sql.window limit offset l)).
Proof.
  intros H. unfold Sql.window.
  assert (Hs : NoDup (map f (skipn (Z.to_nat offset) l))).
  { rewrite <- (firstn_skipn (Z.to_nat offset) l), map_app in H.
    now apply NoDup_app_remove_l in H. }
  destruct (limit <? 0); [exact Hs|].
  rewrite <- (firstn_skipn (Z.to_nat limit) (skipn (Z.to_nat offset) l)), map_app in Hs.
  now apply NoDup_app_remove_r in Hs.
Qed.



(** X15.  The pages of a search put together: with a page size [L] > 0,
    the pages at offsets 0, L, 2L, ... joined in that order are the whole
    result of the search, and [hasMore] is false exactly from the page on
    that reaches its end.  The page size is one LIMIT accepts, from 1 to
    below 2^63, and the pages are those [search] returns, at the offsets
    below 2^63. *)
Theorem search_pages_reconstruct query e context d (L : nat) :
  fts5_parse query = Some e ->
  (0 < L)%nat ->
  Z.of_nat L < 2 ^ 63 ->
  let full := map (rowToInsight (Meta := Meta)) (found e context d) in
  let page k :=
    match search (Meta := Meta) query context (Z.of_nat L) (Z.of_nat (k * L)) d with
    | Ok r => r
    | Throw _ => {| results := []; total := 0; hasMore := false |}
    end in
  (forall k, Z.of_nat (k * L) < 2 ^ 63 ->
             search (Meta := Meta) query context (Z.of_nat L) (Z.of_nat (k * L)) d
             = Ok (page k))
  /\ (forall n, (List.length full <= n * L)%nat -> Z.of_nat ((n - 1) * L) < 2 ^ 63 ->
        List.concat (map (fun k => results (page k)) (seq 0 n)) = full)
  /\ (forall k, Z.of_nat (k * L) < 2 ^ 63 ->
        (hasMore (page k) = false <-> (List.length full <= (k + 1) * L)%nat)).
Proof.
  intros Hq HL HLb full pg.
  assert (Hpg : forall k, Z.of_nat (k * L) < 2 ^ 63 ->
             search (Meta := Meta) query context (Z.of_nat L) (Z.of_nat (k * L)) d
             = Ok (InsightsDatabase.page (Z.of_nat (k * L))
                     (Sql.count (where_context context (fts_match e d)))
                     (firstn L (skipn (k * L) (found e context d))))).
  { intros k Hk. erewrite search_parsed; [|eassumption|lia|lia].
    now rewrite window_page. }
  split; [|split].
  - intros k Hk. unfold pg. now rewrite (Hpg k Hk).
  - intros n Hn Hb.
    rewrite (map_ext_in (fun k => results (pg k))
               (fun k => map rowToInsight (firstn L (skipn (k * L) (found e context d))))).
    2:{ intros k Hk. apply in_seq in Hk.
        assert (Hkb : Z.of_nat (k * L) < 2 ^ 63).
        { assert (k * L <= (n - 1) * L)%nat by (apply Nat.mul_le_mono_r; lia). lia. }
        unfold pg. rewrite (Hpg k Hkb). apply results_page. }
    rewrite <- (map_map (fun k => firstn L (skipn (k * L) (found e context d)))
                  (map (rowToInsight (Meta := Meta)))).
    rewrite <- concat_map, pages_concat.
    unfold full in *. rewrite length_map in Hn. now rewrite firstn_all2.
  - intros k Hk. unfold pg. rewrite (Hpg k Hk), hasMore_page.
    unfold full, Sql.count. rewrite !length_map, <- found_length, Z.ltb_ge.
    rewrite length_firstn, length_skipn. nia.
Qed.

(** X16.  The size of a page of a listing, for a limit and an offset from 0
    on that LIMIT and OFFSET accept (below 2^63): the page holds
    [min(limit, total - offset)] records (none when the offset is past
    [total]), and [hasMore] is true exactly when [offset + limit] is below
    [total]. *)
Theorem list_page_size context limit offset d :
  0 <= limit < 2 ^ 63 -> 0 <= offset < 2 ^ 63 ->
  exists r,
    list (Meta := Meta) context limit offset d = Ok r
    /\ Z.of_nat (List.length (results r)) = Z.min limit (Z.max 0 (total r - offset))
    /\ hasMore r = (offset + limit <? total r).
Proof.
  intros Hl Ho. rewrite list_Ok by lia. eexists. split; [reflexivity|].
  rewrite total_page, hasMore_page, results_page, length_map.
  rewrite window_length by lia.
  split; [reflexivity|]. apply Bool.eq_iff_eq_true. rewrite !Z.ltb_lt. lia.
Qed.

(** X17.  Below 0 [list] follows SQLite, as long as LIMIT and OFFSET accept
    the number (it is above -2^63): a negative [limit] puts no bound on the
    page, and [hasMore] is false then; a negative [offset] selects the rows
    offset 0 does, but enters [hasMore] as it is, so [hasMore] is true even
    when the page holds every record. *)
Theorem list_negative_window context limit offset d :
  (- 2 ^ 63 < limit < 0 -> 0 <= offset < 2 ^ 63 ->
   exists r,
     list (Meta := Meta) context limit offset d = Ok r
     /\ results r = map rowToInsight (skipn (Z.to_nat offset) (listed context d))
     /\ hasMore r = false)
  /\ (- 2 ^ 63 < limit < 2 ^ 63 -> - 2 ^ 63 < offset < 0 ->
      exists r r0,
        list (Meta := Meta) context limit offset d = Ok r
        /\ list (Meta := Meta) context limit 0 d = Ok r0
        /\ results r = results r0
        /\ hasMore r = true).
Proof.
  split.
  - intros Hl Ho. rewrite list_Ok by lia. eexists. split; [reflexivity|].
    rewrite hasMore_page, results_page.
    rewrite window_unbounded by lia.
    split; [reflexivity|]. apply Z.ltb_ge. rewrite length_skipn. lia.
  - intros Hl Ho. rewrite !list_Ok by lia. do 2 eexists.
    split; [reflexivity|]. split; [reflexivity|].
    rewrite hasMore_page, !results_page.
    rewrite window_negative_offset by lia.
    split; [reflexivity|]. apply Z.ltb_lt.
    assert (H : (List.length (Sql.window limit 0 (listed context d))
                 <= List.length (listed context d))%nat).
    { unfold Sql.window. simpl. destruct (limit <? 0); [lia|].
      rewrite length_firstn. lia. }
    lia.
Qed.

Lemma order_by_newest f (new : Row) (l : Datatypes.list Row) :
  (forall r, In r l -> row_created_at r < row_created_at new) ->
  Sql.order_by (created_at_desc f) (l ++ [new])
  = new :: Sql.order_by (created_at_desc f) l.
Proof.
  unfold Sql.order_by. induction l as [|x l IH]; intros H; simpl; [reflexivity|].
  rewrite IH by (intros r Hr; apply H; now right). simpl.
  assert (Hx : row_created_at x < row_created_at new) by (apply H; now left).
  assert (Hf : created_at_desc f x new = false).
  { unfold created_at_desc. destruct f; lia. }
  now rewrite Hf.
Qed.

(** X18.  Newest first: a record saved with a timestamp later than that of
    every stored record heads the listing of all records and the listing of
    its own context, for every page size but 0 that LIMIT accepts. *)
Theorem saved_record_heads_the_listing (uuid : string) (now : Z) (c ctx : string)
    (m : option Meta) d ins d' context limit :
  save uuid now c ctx m d = Ok (ins, d') ->
  json_safe_opt m ->
  (forall r, In r (insights d) -> row_created_at r < now) ->
  context = None \/ context = Some ctx ->
  limit <> 0 ->
  - 2 ^ 63 < limit < 2 ^ 63 ->
  exists res rest,
    list (Meta := Meta) context limit 0 d' = Ok res
    /\ results res = ins :: rest.
Proof.
  unfold save. intros H Hm Hnew Hctx Hlim Hb.
  destruct (insert_insights uuid c ctx (option_map JSON_stringify m) now now d)
    as [d0|] eqn:Hins; [|discriminate].
  injection H as <- <-.
  destruct (insert_insights_Ok _ _ _ _ _ _ _ Hins) as (_ & Htbl & _). cbv zeta in Htbl.
  set (new := {| row_rowid := next_rowid (insights d); row_id := uuid; row_content := c;
                 row_context := ctx; row_metadata := option_map JSON_stringify m;
                 row_created_at := now; row_updated_at := now |}) in *.
  assert (Hin : in_context context new = true).
  { destruct Hctx as [->| ->]; [reflexivity|]. simpl.
    destruct (ctx =? "")%string; [reflexivity|apply String.eqb_refl]. }
  assert (Hlisted : listed context d0 = new :: listed context d).
  { unfold listed. rewrite !where_context_filter, Htbl, filter_app. simpl. rewrite Hin.
    apply order_by_newest. intros r Hr. apply filter_In in Hr. simpl. apply Hnew. tauto. }
  assert (Hrow : rowToInsight (Meta := Meta) new
                 = {| id := uuid; content := c; context := ctx; metadata := m;
                      created_at := now; updated_at := now |}).
  { unfold rowToInsight. simpl. now rewrite metadata_round_trip. }
  assert (Hwin : exists rest, Sql.window limit 0 (new :: listed context d) = new :: rest).
  { unfold Sql.window. simpl skipn. destruct (limit <? 0) eqn:Hneg; [eauto|].
    apply Z.ltb_ge in Hneg. destruct (Z.to_nat limit) as [|n] eqn:Hn; [lia|].
    simpl. eauto. }
  destruct Hwin as [rest Hwin].
  rewrite list_Ok by lia. exists (page 0 (Z.of_nat (List.length (listed context d0)))
                                   (Sql.window limit 0 (listed context d0))).
  exists (map rowToInsight rest). split; [reflexivity|].
  rewrite results_page, Hlisted, Hwin. cbn [map]. now rewrite Hrow.
Qed.

End Pages.


(** ** The tools end to end *)

Section ToolFacts.
Import InsightsDatabase Server.
Context {Meta : Type} {J : JSON Meta} {E : Fts5}.
Implicit Types (w : World (Meta := Meta)) (mode : Mode) (context : option string).

Lemma or_else_falsy (a : option string) (b : string) : truthy a = false -> or_else a b = b.
Proof.
  destruct a as [s|]; simpl; [|reflexivity].
  destruct (s =? "")%string; [reflexivity|discriminate].
Qed.

Lemma or_else_nonempty (a : option string) (b : string) :
  b <> EmptyString -> or_else a b <> EmptyString.
Proof.
  intros Hb. destruct a as [s|]; simpl; [|exact Hb].
  destruct (s =? "")%string eqn:Hs; [exact Hb|now apply String.eqb_neq].
Qed.

Lemma getContext_returns mode cwd context :
  (mode = http -> truthy context = true) ->
  getContext mode cwd context = Returns (or_else context cwd).
Proof.
  intros H. destruct mode; [reflexivity|]. simpl. now rewrite H.
Qed.

(** The filter of [search-insights] and [list-insights]: [getContext] is
    called on a non-empty context only, where it does not throw. *)
Lemma resolve_filter_returns mode cwd context :
  resolve_filter mode cwd context = Returns (if truthy context then context else None).
Proof.
  unfold resolve_filter. destruct (truthy context) eqn:Ht; [|reflexivity].
  rewrite getContext_returns by (intros _; exact Ht).
  now rewrite (or_else_truthy _ cwd Ht).
Qed.

Lemma where_context_resolved context tbl :
  where_context (if truthy context then context else None) tbl = where_context context tbl.
Proof.
  destruct (truthy context) eqn:Ht; [reflexivity|].
  unfold where_context. now rewrite Ht.
Qed.

(** X19.  [save-insight] followed by [get-insight]: when the context is
    given, or the mode is stdio, a save under a new id returns that id and
    the timestamp, and [get-insight] on the id then finds the record saved.
    Its context is the one given when that is not empty and the working
    directory otherwise, so it is empty only if the working directory is. *)
Theorem save_insight_then_get_insight mode (cwd uuid : string) (now : Z)
    (content : string) context (metadata : option Meta) w :
  ~ In uuid (map row_id (insights (db w))) ->
  json_safe_opt metadata ->
  (mode = http -> truthy context = true) ->
  let stored := {| id := uuid; content := content; context := or_else context cwd;
                   metadata := metadata; created_at := now; updated_at := now |} in
  exists w1,
    callTool mode cwd uuid now (call_save_insight content context metadata) w
    = (Returns (saved uuid now), w1)
    /\ calls w1 = calls w ++ [db_save content (or_else context cwd) metadata]
    /\ (forall mode' cwd' uuid' now',
          fst (callTool mode' cwd' uuid' now' (call_get_insight uuid) w1)
          = Returns (got (Some stored) true))
    /\ (truthy context = true -> Some (InsightsDatabase.context stored) = context)
    /\ (truthy context = false -> InsightsDatabase.context stored = cwd)
    /\ (cwd <> EmptyString -> InsightsDatabase.context stored <> EmptyString).
Proof.
  intros Hnew Hm Hmode stored. cbn [callTool]. unfold save_insight.
  rewrite (getContext_returns cwd context Hmode).
  unfold save.
  destruct (insert_insights uuid content (or_else context cwd)
              (option_map JSON_stringify metadata) now now (db w)) as [d1|] eqn:Hins.
  2:{ exfalso. unfold insert_insights in Hins.
      destruct (existsb (has_id uuid) (insights (db w))) eqn:Hex; [|discriminate].
      apply Hnew. now apply existsb_has_id. }
  eexists. split; [reflexivity|]. split; [reflexivity|].
  destruct (insert_insights_Ok _ _ _ _ _ _ _ Hins) as (Hfresh & Htbl & _).
  cbv zeta in Htbl.
  split; [|split; [|split]].
  - intros mode' cwd' uuid' now'. cbn [callTool]. unfold get_insight. cbn [fst db called].
    rewrite get_select. unfold select_by_id. rewrite Htbl.
    rewrite find_last.
    + simpl. unfold rowToInsight. simpl. rewrite metadata_round_trip by exact Hm.
      reflexivity.
    + exact (proj2 (select_fresh uuid (db w)) Hfresh).
    + apply String.eqb_refl.
  - intros Ht. simpl. now apply or_else_truthy.
  - intros Ht. simpl. now apply or_else_falsy.
  - intros Hcwd. simpl. now apply or_else_nonempty.
Qed.

(** X20.  The tools that take an id report whether it is stored:
    [get-insight] answers [found] exactly for a stored id and writes nothing;
    [update-insight] of an id that is not stored answers [updated: false] and
    writes nothing; [delete-insight] answers [deleted] exactly for a stored
    id, echoes the id, and afterwards [get-insight] no longer finds it. *)
Theorem id_tools_report_existence (id : string) w :
  NoDup (map row_rowid (insights (db w))) ->
  (exists ins,
      get_insight id w = (Returns (got ins (is_some ins)), called (db_get id) (db w) w)
      /\ (is_some ins = true <-> In id (map row_id (insights (db w)))))
  /\ (~ In id (map row_id (insights (db w))) ->
      forall now content metadata,
        update_insight now id content metadata w
        = (Returns (updated_insight false None),
           called (db_update id {| upd_content := content; upd_metadata := metadata |})
             (db w) w))
  /\ (exists b w1,
        delete_insight id w = (Returns (deleted_insight b id), w1)
        /\ (b = true <-> In id (map row_id (insights (db w))))
        /\ fst (get_insight id w1) = Returns (got None false)).
Proof.
  intros Hrow. split; [|split].
  - exists (get id (db w)). split; [reflexivity|].
    destruct (get (Meta := Meta) id (db w)) as [x|] eqn:Hget; simpl.
    + split; [|reflexivity]. intros _.
      destruct (in_dec string_dec id (map row_id (insights (db w)))) as [Hin|Hout];
        [exact Hin|]. apply get_unknown in Hout. congruence.
    + split; [discriminate|]. intros Hin. apply get_unknown in Hget. contradiction.
  - intros Hout now content metadata. unfold update_insight, update.
    apply (get_unknown (Meta := Meta)) in Hout. now rewrite Hout.
  - unfold delete_insight. rewrite (delete_Ok id (db w) Hrow).
    do 2 eexists. split; [reflexivity|]. split; [apply filter_has_id_nonempty|].
    unfold get_insight. cbn [fst db called].
    rewrite get_select. unfold select_by_id. cbn [insights].
    now rewrite find_filter_gone.
Qed.

Lemma truthy_resolved context :
  truthy (if truthy context then context else None) = truthy context.
Proof. destruct (truthy context) eqn:Ht; [exact Ht|reflexivity]. Qed.

Lemma list_resolved context limit offset d :
  InsightsDatabase.list (Meta := Meta) (if truthy context then context else None)
    limit offset d
  = InsightsDatabase.list context limit offset d.
Proof.
  unfold InsightsDatabase.list. now rewrite where_context_resolved, truthy_resolved.
Qed.

(** X21.  [list-insights] returns in either mode, with or without a
    context, and without [limit] and [offset] it asks the store for the first
    20: the page holds [min(20, total)] records and [hasMore] says whether
    more than 20 exist.  An absent or empty context lists every context. *)
Theorem list_insights_defaults mode (cwd : string) context w :
  exists out,
    list_insights mode cwd context None None w
    = (Returns (found_page out),
       called (db_list (if truthy context then context else None) 20 0) (db w) w)
    /\ InsightsDatabase.list context 20 0 (db w) = Ok out
    /\ total out = Z.of_nat (List.length (filter (in_context context) (insights (db w))))
    /\ Z.of_nat (List.length (results out)) = Z.min 20 (total out)
    /\ hasMore out = (20 <? total out).
Proof.
  unfold list_insights. rewrite resolve_filter_returns. cbn [nullish].
  rewrite list_resolved.
  assert (Hl : - 2 ^ 63 < 20 < 2 ^ 63) by lia.
  assert (Ho : - 2 ^ 63 < 0 < 2 ^ 63) by lia.
  rewrite (@list_Ok _ _ context 20 0 (db w) Hl Ho).
  eexists. split; [reflexivity|]. split; [reflexivity|].
  rewrite total_page, hasMore_page, results_page, length_map.
  rewrite window_length by lia.
  split; [now rewrite listed_length|].
  split; [lia|]. apply Bool.eq_iff_eq_true. rewrite !Z.ltb_lt. lia.
Qed.

(** X22.  [search-insights] adds nothing of its own to what the store
    answers: in either mode it returns the first 20 matches when the engine
    accepts the query and lets the engine's error, with the engine's message,
    through when it does not; in both cases the database is as before. *)
Theorem search_insights_defaults mode (cwd : string) query context w :
  let c := db_search query (if truthy context then context else None) 20 0 in
  match fts5_parse query with
  | Some e =>
      exists out,
        search_insights mode cwd query context None None w
        = (Returns (found_page out), called c (db w) w)
        /\ search query context 20 0 (db w) = Ok out
        /\ Z.of_nat (List.length (results out)) = Z.min 20 (total out)
        /\ hasMore out = (20 <? total out)
  | None =>
      search_insights mode cwd query context None None w
      = (Throws (Sqlite (SQLITE_ERROR (fts5_error query))), called c (db w) w)
  end.
Proof.
  intros c. unfold search_insights. rewrite resolve_filter_returns. cbn [nullish].
  assert (Heq : search (Meta := Meta) query (if truthy context then context else None)
                  20 0 (db w)
                = search query context 20 0 (db w)).
  { unfold search. destruct (fts5_parse query); [|reflexivity].
    now rewrite where_context_resolved. }
  rewrite Heq.
  assert (Hl : - 2 ^ 63 < 20 < 2 ^ 63) by lia.
  assert (Ho : - 2 ^ 63 < 0 < 2 ^ 63) by lia.
  destruct (fts5_parse query) as [e|] eqn:Hq.
  - rewrite (@search_parsed _ _ _ query e context 20 0 (db w) Hq Hl Ho).
    eexists. split; [reflexivity|]. split; [reflexivity|].
    rewrite total_page, hasMore_page, results_page, length_map. unfold Sql.count.
    rewrite window_length, found_length by lia.
    split; [lia|]. apply Bool.eq_iff_eq_true. rewrite !Z.ltb_lt. lia.
  - now rewrite (@search_rejected _ _ _ query context 20 0 (db w) Hq).
Qed.

End ToolFacts.


(** ** The command line *)

Section CliFacts.
Import Cli.
Implicit Types (env : Env) (argv : Argv) (default_path : string).

(** X23.  Where the database file is: the path given with [--db-path]; without
    the flag the one in [INSIGHTS_MCP_DB_PATH]; and the default under the
    home directory when neither is given or the one that counts is empty.  An
    empty [--db-path] selects the default even when the variable is set. *)
Theorem db_path_precedence env argv default_path :
  let p := path (dbPath (options env argv)) default_path in
  (forall f, arg_db_path argv = Some f -> f <> EmptyString -> p = f)
  /\ (arg_db_path argv = Some EmptyString -> p = default_path)
  /\ (arg_db_path argv = None ->
      forall e, INSIGHTS_MCP_DB_PATH env = Some e -> e <> EmptyString -> p = e)
  /\ (arg_db_path argv = None ->
      truthy (INSIGHTS_MCP_DB_PATH env) = false -> p = default_path).
Proof.
  unfold path, options. cbn [dbPath]. split; [|split; [|split]].
  - intros f -> Hf. simpl. apply String.eqb_neq in Hf. now rewrite Hf.
  - intros ->. reflexivity.
  - intros -> e -> He. simpl. apply String.eqb_neq in He. now rewrite He.
  - intros -> He. destruct (INSIGHTS_MCP_DB_PATH env) as [e|]; simpl in *; [|reflexivity].
    destruct (e =? "")%string; [reflexivity|discriminate].
Qed.


End CliFacts.


(** ** Keys over a history, and what a deletion takes away *)

Section Keys.
Import InsightsDatabase.
Context {Meta : Type} {J : JSON Meta} {E : Fts5}.
Implicit Types (d : Db) (i : string) (tbl : Datatypes.list Row).

Lemma listed_ids context d :
  NoDup (map row_id (insights d)) -> NoDup (map row_id (listed context d)).
Proof.
  intros H. unfold listed.
  apply (Permutation_NoDup (l := map row_id (where_context context (insights d)))).
  - apply Permutation_map, Permutation_sym, order_by_perm.
  - rewrite where_context_filter. now apply NoDup_map_filter.
Qed.

Lemma list_ids context limit offset d res :
  list (Meta := Meta) context limit offset d = Ok res ->
  map (@id Meta) (results res)
  = map row_id (Sql.window limit offset (listed context d)).
Proof.
  intros H. apply list_returns in H. destruct H as (_ & _ & ->).
  rewrite results_page, map_map. apply map_ext. intros r. apply rowToInsight_id.
Qed.

Lemma step_length d (o : Op (Meta := Meta)) :
  (List.length (insights (step d o)) <= S (List.length (insights d)))%nat.
Proof.
  destruct o as [i now c ctx m|i now u|i]; cbn [step].
  - unfold save.
    destruct (insert_insights i c ctx (option_map JSON_stringify m) now now d)
      as [d0|] eqn:Hins; [|lia].
    destruct (insert_insights_Ok _ _ _ _ _ _ _ Hins) as (_ & Htbl & _). cbv zeta in Htbl.
    rewrite Htbl, length_app. simpl. lia.
  - unfold update. destruct (get i d) as [old|]; [|lia].
    destruct (update_insights _ _ _ _ _) as [d0|] eqn:Hup; [|lia].
    rewrite (update_insights_table _ _ _ _ _ Hup), length_map. lia.
  - unfold delete, delete_insights.
    destruct (for_each_row _ _ _) as [d0|] eqn:Hrows; [|lia].
    apply for_each_row_table in Hrows; [|intros r d1 d2; apply insights_ad_table].
    rewrite Hrows. simpl. pose proof (filter_shorter (fun r => negb (has_id i r)) (insights d)).
    lia.
Qed.

Lemma run_length (ops : Datatypes.list (Op (Meta := Meta))) d :
  (List.length (insights (run ops d)) <= List.length ops + List.length (insights d))%nat.
Proof.
  revert d. induction ops as [|o ops IH]; intros d; [simpl; lia|].
  unfold run. simpl. fold (run ops (step d o)).
  pose proof (IH (step d o)). pose proof (step_length d o). lia.
Qed.

(** X25.  Keys over a history: whatever is saved, updated and deleted,
    starting from the empty database, no two rows share an id or a rowid, no
    page of a listing shows an id twice, and the table holds at most as many
    rows as operations were run. *)
Theorem histories_keep_keys_unique (ops : Datatypes.list (Op (Meta := Meta))) :
  let d := run ops empty in
  NoDup (map row_id (insights d))
  /\ NoDup (map row_rowid (insights d))
  /\ (forall context limit offset res,
        list (Meta := Meta) context limit offset d = Ok res ->
        NoDup (map (@id Meta) (results res)))
  /\ (List.length (insights d) <= List.length ops)%nat.
Proof.
  intros d.
  destruct (run_consistent ops consistent_empty) as (Hrow & Hid & _).
  split; [exact Hid|]. split; [exact Hrow|]. split.
  - intros context limit offset res Hres. rewrite (@list_ids context limit offset d res Hres).
    apply NoDup_map_window. now apply listed_ids.
  - pose proof (run_length ops empty) as H. simpl in H. unfold d. lia.
Qed.

Lemma filter_unknown i tbl :
  ~ In i (map row_id tbl) -> filter (fun r => negb (has_id i r)) tbl = tbl.
Proof.
  induction tbl as [|h tbl IH]; intros Hout; simpl; [reflexivity|].
  destruct (has_id i h) eqn:Hh.
  - exfalso. apply Hout. left. now apply has_id_true.
  - simpl. rewrite IH; [reflexivity|]. intros Hin. apply Hout. now right.
Qed.

(** Of the rows a predicate selects, the DELETE takes away the row with
    the key, if the predicate selects it. *)
Lemma filter_deleted (p : Row -> bool) i tbl r :
  NoDup (map row_id tbl) ->
  find (has_id i) tbl = Some r ->
  (List.length (filter p (filter (fun r => negb (has_id i r)) tbl))
   + (if p r then 1 else 0)
   = List.length (filter p tbl))%nat.
Proof.
  induction tbl as [|h tbl IH]; intros Hid Hfind; simpl in *; [discriminate|].
  inversion Hid as [|? ? Hh Hrest]; subst.
  destruct (has_id i h) eqn:Hi.
  - injection Hfind as <-. simpl.
    apply has_id_true in Hi. rewrite <- Hi in *.
    rewrite (@filter_unknown (row_id h) tbl Hh). destruct (p h); simpl; lia.
  - simpl. specialize (IH Hrest Hfind). destruct (p h); simpl; lia.
Qed.

(** X26.  What the deletion of a stored record takes away: the table has
    one row less; a listing counts one record less exactly when its filter
    admits the context of the deleted record; and no page of any listing
    shows its id. *)
Theorem delete_frame i d b d' (x : Insight Meta) :
  consistent d ->
  get i d = Some x ->
  delete i d = Ok (b, d') ->
  b = true
  /\ List.length (insights d) = S (List.length (insights d'))
  /\ (forall limit offset res,
        list (Meta := Meta) None limit offset d = Ok res ->
        exists res',
          list (Meta := Meta) None limit offset d' = Ok res'
          /\ total res' = total res - 1)
  /\ (forall a limit offset res,
        a <> EmptyString ->
        list (Meta := Meta) (Some a) limit offset d = Ok res ->
        exists res',
          list (Meta := Meta) (Some a) limit offset d' = Ok res'
          /\ total res' = total res - (if (context x =? a)%string then 1 else 0))
  /\ (forall cx limit offset res y,
        list (Meta := Meta) cx limit offset d' = Ok res ->
        In y (results res) -> id y <> i).
Proof.
  intros (Hrow & Hid & _) Hget Hdel.
  destruct (get_inv _ _ Hget) as (r & Hsel & -> & Hi). unfold select_by_id in Hsel.
  rewrite (delete_Ok i d Hrow) in Hdel. injection Hdel as <- <-.
  pose proof (fun p => filter_deleted p i (insights d) Hid Hsel) as Hcount.
  split; [|split; [|split; [|split]]].
  - apply filter_has_id_nonempty. rewrite <- Hi. apply in_map.
    now apply find_some in Hsel.
  - cbn [insights]. specialize (Hcount (fun _ => true)).
    rewrite !filter_true in Hcount. lia.
  - intros limit offset res Hres.
    destruct (@list_returns_again _ _ None None limit offset d
                {| insights := filter (fun r => negb (has_id i r)) (insights d);
                   insights_fts := insights_fts d |} res Hres) as [res' Hres'].
    exists res'. split; [exact Hres'|].
    rewrite (@list_total_filter _ _ _ _ _ _ _ Hres), (@list_total_filter _ _ _ _ _ _ _ Hres'). cbn [insights].
    specialize (Hcount (in_context None)). simpl in Hcount. lia.
  - intros a limit offset res Ha Hres.
    destruct (@list_returns_again _ _ (Some a) (Some a) limit offset d
                {| insights := filter (fun r => negb (has_id i r)) (insights d);
                   insights_fts := insights_fts d |} res Hres) as [res' Hres'].
    exists res'. split; [exact Hres'|].
    rewrite (@list_total_filter _ _ _ _ _ _ _ Hres), (@list_total_filter _ _ _ _ _ _ _ Hres'). cbn [insights].
    specialize (Hcount (in_context (Some a))). rewrite rowToInsight_context.
    apply String.eqb_neq in Ha. simpl in Hcount. rewrite Ha in Hcount.
    destruct (row_context r =? a)%string; lia.
  - intros cx limit offset res y Hres Hy.
    apply list_returns in Hres. destruct Hres as (_ & _ & ->).
    rewrite results_page in Hy.
    apply in_map_iff in Hy. destruct Hy as (r0 & <- & Hr0).
    apply window_incl in Hr0. unfold listed in Hr0.
    apply order_by_In, where_context_In in Hr0. destruct Hr0 as [Hr0 _].
    cbn [insights] in Hr0. apply filter_In in Hr0. destruct Hr0 as [_ Hneg].
    rewrite rowToInsight_id. apply has_id_false. now apply negb_true_iff in Hneg.
Qed.

End Keys.


(** ** The further properties on the sample data *)

Section MoreSamples.
Import InsightsDatabase Server.

Lemma db3_consistent : consistent (E := fts5_barewords) Sample.db3.
Proof. apply (run_consistent _ consistent_empty). Qed.

Lemma one_word_consistent : consistent (E := fts5_barewords) Sample.one_word.
Proof. apply (run_consistent _ consistent_empty). Qed.

Lemma two_saved_consistent : consistent (E := fts5_barewords) Sample.two_saved.
Proof. apply (run_consistent _ consistent_empty). Qed.

Lemma first_rewritten_consistent :
  consistent (E := fts5_barewords) Sample.first_rewritten.
Proof. apply (run_consistent _ two_saved_consistent). Qed.

(** X3, on the third sample note: the first note stays, and the count of
    "ctx2" goes up by one. *)
Lemma save_frame_witness :
  get (Meta := Json.object) "a" Sample.db3 = get "a" Sample.db2
  /\ exists res',
       list (Meta := Json.object) (Some "ctx2") 20 0 Sample.db3 = Ok res'
       /\ total res' = 0 + 1.
Proof.
  assert (Hs : save (E := fts5_barewords) (Meta := Json.object)
                 "c" 1002 "elsewhere" "ctx2" None Sample.db2
               = Ok (Sample.elsewhere, Sample.db3)) by reflexivity.
  assert (Hl : list (Meta := Json.object) (Some "ctx2") 20 0 Sample.db2
               = Ok {| results := []; total := 0; hasMore := false |}) by reflexivity.
  destruct (@save_frame Json.object json_objects fts5_barewords
              "c" 1002 "elsewhere" "ctx2" None Sample.db2 Sample.elsewhere Sample.db3 Hs)
    as (Hget & _ & _ & Hctx).
  split; [apply Hget; discriminate|].
  destruct (Hctx "ctx2" 20 0 _ ltac:(discriminate) Hl) as (res' & Hres' & Htotal).
  exists res'. split; [exact Hres'|exact Htotal].
Defined.

(** X4, on the first sample note. *)
Lemma delete_outcome_witness :
  exists b d',
    delete (E := fts5_barewords) "a" Sample.db3 = Ok (b, d')
    /\ (b = true <-> In "a" (map row_id (insights Sample.db3)))
    /\ get (Meta := Json.object) "a" d' = None
    /\ (forall j, j <> "a" -> get (Meta := Json.object) j d' = get j Sample.db3).
Proof.
  apply (@delete_outcome Json.object json_objects fts5_barewords "a" Sample.db3).
  exact (proj1 db3_consistent).
Defined.

(** X5, on the scenario: the first note deleted once more. *)
Lemma delete_twice_witness :
  delete (E := fts5_barewords) "a" Sample.first_deleted = Ok (false, Sample.first_deleted).
Proof.
  apply (@delete_twice fts5_barewords "a" Sample.first_rewritten true Sample.first_deleted).
  - exact (proj1 first_rewritten_consistent).
  - reflexivity.
Defined.

(** X6, on the scenario: the index after the deletion is the index before. *)
Lemma delete_keeps_index_witness :
  insights_fts Sample.first_deleted = insights_fts Sample.first_rewritten.
Proof.
  assert (Hdel : delete (E := fts5_barewords) "a" Sample.first_rewritten
                 = Ok (true, Sample.first_deleted)) by reflexivity.
  destruct (@delete_keeps_index fts5_barewords "a" Sample.first_rewritten true
              Sample.first_deleted (proj1 first_rewritten_consistent) Hdel) as [H _].
  exact H.
Defined.

(** X7, on the sample notes. *)
Lemma update_unknown_id_witness :
  update (E := fts5_barewords) (Meta := Json.object) "z" 2000
    {| upd_content := Some "updated content"; upd_metadata := None |} Sample.db3
  = Ok (None, Sample.db3).
Proof.
  apply (@update_unknown_id Json.object json_objects fts5_barewords).
  simpl. intros [H|[H|[H|[]]]]; discriminate.
Defined.

(** X8, on the one-word note: three words exceed the one counted. *)
Lemma update_throws_iff_witness :
  update (E := fts5_barewords) (Meta := Json.object) "a" 1001
    {| upd_content := Some "alpha beta gamma"; upd_metadata := None |} Sample.one_word
  = Throw SQLITE_CORRUPT_VTAB.
Proof.
  assert (Hget : get (Meta := Json.object) "a" Sample.one_word
                 = Some {| id := "a"; content := "alpha"; context := "ctx1";
                           metadata := None; created_at := 1000; updated_at := 1000 |})
    by reflexivity.
  destruct (@update_throws_iff Json.object json_objects fts5_barewords "a" 1001
              {| upd_content := Some "alpha beta gamma"; upd_metadata := None |}
              Sample.one_word _ one_word_consistent Hget) as [[_ H] _].
  apply H. intros [Hc _]. vm_compute in Hc. apply Hc. reflexivity.
Defined.

(** X9, on the first sample note: an update that gives no field. *)
Lemma update_merges_witness :
  match update (E := fts5_barewords) (Meta := Json.object) "a" 2000
          {| upd_content := None; upd_metadata := None |} Sample.db3 with
  | Ok (ret, d') =>
      ret = Some {| id := "a"; content := "hello world"; context := "ctx1";
                    metadata := Some Sample.greeting;
                    created_at := 1000; updated_at := 2000 |}
      /\ get "a" d' = ret
  | Throw _ => False
  end.
Proof.
  assert (Hget : get (Meta := Json.object) "a" Sample.db3 = Some Sample.hello) by reflexivity.
  destruct (update (E := fts5_barewords) (Meta := Json.object) "a" 2000
              {| upd_content := None; upd_metadata := None |} Sample.db3)
    as [[ret d']|e] eqn:Hu.
  - destruct (@update_merges Json.object json_objects fts5_barewords "a" 2000
                {| upd_content := None; upd_metadata := None |} Sample.db3 Sample.hello
                ret d' Hget greeting_safe I Hu) as (Hr & Hg & _).
    split; [exact Hr|]. now rewrite Hg, Hr.
  - vm_compute in Hu. discriminate Hu.
Defined.

(** X10, on the scenario: the rewrite of the first note leaves the second
    and the order of the listing. *)
Lemma update_leaves_others_witness :
  get (Meta := Json.object) "b" Sample.first_rewritten = get "b" Sample.two_saved
  /\ exists res',
       list (Meta := Json.object) (Some "ctx1") 10 0 Sample.first_rewritten = Ok res'
       /\ map (@id Json.object) (results res') = ["b"; "a"].
Proof.
  assert (Hu : update (E := fts5_barewords) (Meta := Json.object) "a" 1002
                 {| upd_content := Some "updated content"; upd_metadata := None |}
                 Sample.two_saved
               = Ok (Some {| id := "a"; content := "updated content"; context := "ctx1";
                             metadata := None; created_at := 1000; updated_at := 1002 |},
                     Sample.first_rewritten)) by reflexivity.
  assert (Hl : list (Meta := Json.object) (Some "ctx1") 10 0 Sample.two_saved
               = Ok {| results :=
                         [ {| id := "b"; content := "another entry"; context := "ctx1";
                              metadata := None; created_at := 1001; updated_at := 1001 |};
                           {| id := "a"; content := "hello world"; context := "ctx1";
                              metadata := None; created_at := 1000; updated_at := 1000 |} ];
                       total := 2; hasMore := false |}) by reflexivity.
  destruct (@update_leaves_others Json.object json_objects fts5_barewords _ _ _ _ _ _ Hu)
    as [Hget Hlist].
  split; [apply Hget; discriminate|].
  destruct (Hlist (Some "ctx1") 10 0 _ Hl) as (res' & Hres' & Hids & _).
  exists res'. split; [exact Hres'|exact Hids].
Defined.

(** X11, on the one-word note: its posting outlives its deletion and the
    save of another note. *)
Lemma index_only_grows_witness :
  In (1, "alpha") (postings (insights_fts Sample.replaced)).
Proof.
  apply (proj1 (@index_only_grows Json.object json_objects fts5_barewords
                  [ op_delete "a"; op_save "b" 1001 "beta" "ctx1" None ]
                  Sample.one_word one_word_consistent)).
  left. reflexivity.
Defined.

(** X12, on the same history: "alpha" finds the note saved after the
    deletion. *)
Lemma stale_match_witness :
  exists res,
    search (E := fts5_barewords) (Meta := Json.object) "alpha" None 20 0 Sample.replaced
    = Ok res
    /\ In {| id := "b"; content := "beta"; context := "ctx1"; metadata := None;
             created_at := 1001; updated_at := 1001 |} (results res).
Proof.
  pose (r := {| row_rowid := 1; row_id := "a"; row_content := "alpha";
                row_context := "ctx1"; row_metadata := None;
                row_created_at := 1000; row_updated_at := 1000 |}).
  pose (r' := {| row_rowid := 1; row_id := "b"; row_content := "beta";
                 row_context := "ctx1"; row_metadata := None;
                 row_created_at := 1001; row_updated_at := 1001 |}).
  apply (@stale_match Json.object json_objects fts5_barewords
           [ op_delete "a"; op_save "b" 1001 "beta" "ctx1" None ]
           Sample.one_word r r' "alpha" ["alpha"] None 20).
  - exact one_word_consistent.
  - left. reflexivity.
  - left. reflexivity.
  - reflexivity.
  - reflexivity.
  - intros posted H. apply eval_incl. exact H.
  - reflexivity.
  - split; [vm_compute; discriminate|lia].
Defined.

(** X13, on the same history, from the empty database. *)
Lemma deleted_words_find_the_next_record_witness :
  exists res x,
    search (E := fts5_barewords) (Meta := Json.object) "alpha" None 20 0 Sample.replaced
    = Ok res
    /\ In x (results res) /\ id x = "b" /\ content x = "beta".
Proof.
  apply (@deleted_words_find_the_next_record Json.object json_objects fts5_barewords
           "a" "b" 1000 1001 "alpha" "ctx1" "beta" "ctx1" None None empty
           {| id := "a"; content := "alpha"; context := "ctx1"; metadata := None;
              created_at := 1000; updated_at := 1000 |}
           Sample.one_word true Sample.none_left
           {| id := "b"; content := "beta"; context := "ctx1"; metadata := None;
              created_at := 1001; updated_at := 1001 |}
           Sample.replaced "alpha" ["alpha"] 20).
  - exact consistent_empty.
  - reflexivity.
  - reflexivity.
  - reflexivity.
  - reflexivity.
  - intros posted H. apply eval_incl. exact H.
  - split; [vm_compute; discriminate|lia].
Defined.


(** X15, on the two notes that share a word: the two pages of one record
    of the search for "alpha", joined. *)
Lemma search_pages_reconstruct_witness :
  List.length (found (E := fts5_barewords) ["alpha"] None Sample.shared) = 2%nat
  /\ List.concat
       (map (fun k =>
               results
                 match search (E := fts5_barewords) (Meta := Json.object) "alpha"
                         None (Z.of_nat 1) (Z.of_nat (k * 1)) Sample.shared with
                 | Ok r => r
                 | Throw _ => {| results := []; total := 0; hasMore := false |}
                 end)
          (seq 0 2))
     = map rowToInsight (found (E := fts5_barewords) ["alpha"] None Sample.shared).
Proof.
  split; [reflexivity|].
  destruct (@search_pages_reconstruct Json.object json_objects fts5_barewords
              "alpha" ["alpha"] None Sample.shared 1%nat eq_refl ltac:(lia) ltac:(lia))
    as (_ & H & _).
  apply (H 2%nat); [vm_compute; lia|simpl; lia].
Defined.

(** X16, on the sample notes: the second page of one record of "ctx1". *)
Lemma list_page_size_witness :
  exists r,
    list (Meta := Json.object) (Some "ctx1") 1 1 Sample.db3 = Ok r
    /\ Z.of_nat (List.length (results r)) = 1
    /\ hasMore r = false.
Proof.
  destruct (@list_page_size Json.object json_objects (Some "ctx1") 1 1 Sample.db3
              ltac:(lia) ltac:(lia))
    as (r & Hr & Hlen & Hmore).
  exists r. split; [exact Hr|]. rewrite Hlen, Hmore.
  vm_compute in Hr. injection Hr as <-. split; reflexivity.
Defined.

(** X18, on the third sample note, the latest of the three. *)
Lemma saved_record_heads_the_listing_witness :
  exists res rest,
    list (Meta := Json.object) None 20 0 Sample.db3 = Ok res
    /\ results res = Sample.elsewhere :: rest.
Proof.
  apply (@saved_record_heads_the_listing Json.object json_objects fts5_barewords
           "c" 1002 "elsewhere" "ctx2" None Sample.db2 Sample.elsewhere Sample.db3 None 20).
  - reflexivity.
  - exact I.
  - intros r [<-|[<-|[]]]; reflexivity.
  - left. reflexivity.
  - discriminate.
  - lia.
Defined.

(** X19, on a fresh server in stdio mode: a save without a context goes
    under the working directory. *)
Lemma save_insight_then_get_insight_witness :
  exists w1,
    callTool (E := fts5_barewords) (Meta := Json.object) stdio "/work" "a" 1000
      (call_save_insight "hello world" None None) Sample.fresh
    = (Returns (saved "a" 1000), w1)
    /\ calls w1 = [db_save "hello world" "/work" None]
    /\ fst (callTool (E := fts5_barewords) stdio "/work" "b" 1001 (call_get_insight "a") w1)
       = Returns (got (Some {| id := "a"; content := "hello world"; context := "/work";
                               metadata := None; created_at := 1000; updated_at := 1000 |})
                    true).
Proof.
  destruct (@save_insight_then_get_insight Json.object json_objects fts5_barewords
              stdio "/work" "a" 1000 "hello world" None None Sample.fresh)
    as (w1 & Hs & Hc & Hg & _).
  - simpl. tauto.
  - exact I.
  - discriminate.
  - exists w1. split; [exact Hs|]. split; [exact Hc|]. apply Hg.
Defined.

(** X20, on a server on the sample notes. *)
Lemma id_tools_report_existence_witness :
  exists b w1,
    delete_insight (E := fts5_barewords) "a" Sample.serving
    = (Returns (deleted_insight b "a"), w1)
    /\ (b = true <-> In "a" (map row_id (insights (db Sample.serving))))
    /\ fst (get_insight "a" w1) = Returns (got None false).
Proof.
  destruct (@id_tools_report_existence Json.object json_objects fts5_barewords
              "a" Sample.serving) as (_ & _ & H).
  - exact (proj1 db3_consistent).
  - exact H.
Defined.

(** X26, on the scenario: the first note deleted from the two of "ctx1". *)
Lemma delete_frame_witness :
  (exists res',
     list (Meta := Json.object) (Some "ctx1") 10 0 Sample.first_deleted = Ok res'
     /\ total res' = 2 - 1)
  /\ List.length (insights Sample.first_rewritten)
     = S (List.length (insights Sample.first_deleted)).
Proof.
  assert (Hget : get (Meta := Json.object) "a" Sample.first_rewritten
                 = Some {| id := "a"; content := "updated content"; context := "ctx1";
                           metadata := None; created_at := 1000; updated_at := 1002 |})
    by reflexivity.
  assert (Hdel : delete (E := fts5_barewords) "a" Sample.first_rewritten
                 = Ok (true, Sample.first_deleted)) by reflexivity.
  assert (Hl : list (Meta := Json.object) (Some "ctx1") 10 0 Sample.first_rewritten
               = Ok {| results :=
                         [ {| id := "b"; content := "another entry"; context := "ctx1";
                              metadata := None; created_at := 1001; updated_at := 1001 |};
                           {| id := "a"; content := "updated content"; context := "ctx1";
                              metadata := None; created_at := 1000; updated_at := 1002 |} ];
                       total := 2; hasMore := false |}) by reflexivity.
  destruct (@delete_frame Json.object json_objects fts5_barewords _ _ _ _ _
              first_rewritten_consistent Hget Hdel) as (_ & Hlen & _ & Hctx & _).
  split; [|exact Hlen].
  destruct (Hctx "ctx1" 10 0 _ ltac:(discriminate) Hl) as (res' & Hres' & Htotal).
  exists res'. split; [exact Hres'|exact Htotal].
Defined.

(** The order of records saved within one millisecond: the listing of all
    contexts walks the index on [created_at] backwards and shows the one saved
    last first; the listing of one context sorts the rows of that context and
    shows them in the order saved. *)
Example listing_order_of_equal_timestamps :
  (exists res,
     list (Meta := Json.object) None 20 0 Sample.same_instant = Ok res
     /\ map (@id Json.object) (results res) = ["b"; "a"])
  /\ (exists res,
        list (Meta := Json.object) (Some "ctx1") 20 0 Sample.same_instant = Ok res
        /\ map (@id Json.object) (results res) = ["a"; "b"]).
Proof. split; eexists; (split; [reflexivity|reflexivity]). Qed.

(** Bounds below 0 and out of range, on the sample notes. *)
Example listing_bounds :
  (exists res,
     list (Meta := Json.object) None (-1) 1 Sample.db3 = Ok res
     /\ map (@id Json.object) (results res) = ["b"; "a"] /\ hasMore res = false)
  /\ (exists res,
        list (Meta := Json.object) None 1 (-5) Sample.db3 = Ok res
        /\ map (@id Json.object) (results res) = ["c"] /\ hasMore res = true)
  /\ list (Meta := Json.object) None (- 2 ^ 63) 0 Sample.db3 = Throw SQLITE_MISMATCH
  /\ list (Meta := Json.object) None (2 ^ 63) 0 Sample.db3 = Throw SQLITE_MISMATCH.
Proof.
  split; [|split; [|split]]; try reflexivity;
    eexists; (split; [reflexivity|split; reflexivity]).
Qed.

(** A port with a no-break space (U+00A0, in UTF-8 the bytes 194 and 160)
    and an ideographic space (U+3000: 227, 128, 128) before it. *)
Example port_after_unicode_white_space :
  Cli.parseInt (String (ascii_of_nat 194) (String (ascii_of_nat 160)
                 (String (ascii_of_nat 227) (String (ascii_of_nat 128)
                   (String (ascii_of_nat 128) " 8080")))))
  = Some 8080.
Proof. reflexivity. Qed.

End MoreSamples.
